(** * chiptune: the chunked rendering pipeline and its playback controller

    A shallow embedding of the two TypeScript sources of the repository,
    [src/src/index.ts] (module [Index]) and [src/unnamed/part_000]
    (module [Part000]), followed by the properties of the render step,
    of [cleanup], of [fireEvent] and of the controller's operations.

    Conventions of the embedding.
    - Integers of the wasm boundary (pointers, handles, frame counts,
      pattern and row indices) are [Z]; a pointer is a byte address and
      is never negative, [0] being the null pointer.
    - JavaScript doubles (samples, seconds, clock readings) are the
      binary64 [float] of the standard library; [0%float] is the [0]
      literal and [nan] what [undefined] becomes in a [Float32Array].
    - A [Float32Array] is a [list float]; a store outside its bounds is
      ignored, as typed arrays do.
    - libopenmpt (the wasm module, not part of the sources) is an
      interface [MainModule] over an abstract engine state, threaded
      explicitly through every call.
    - Handlers are arbitrary JavaScript closures: they may change the
      session and the engine through the player's public API, and they
      may throw.  The registry itself is fixed while a dispatch runs.
    - What a function does to the outside (engine calls, graph
      connection, dispatches, handler invocations) is returned as a
      list of [effect]s, in program order. *)

From Stdlib Require Import ZArith String Ascii List Bool Lia Floats Sorted.
From stdpp Require Import base list strings gmap.
Import ListNotations.

Local Open Scope Z_scope.

(** ** Values passed to event handlers *)

(** The two object literals the sources pass to [fireEvent]:
    [{ index: currentRow }] and [{ type: 'openmpt' }]. *)
Inductive payload : Type :=
| RowIndex (index : Z)
| ErrorType (type : string).

(** [response?: any]: [None] is the omitted argument. *)
Definition response : Type := option payload.

(** ** Observable effects *)

Inductive effect : Type :=
| Call_malloc (size : Z)
| Call_free (ptr : Z)
| Call_destroy (mod_ : Z)
| Call_get_current_pattern (mod_ : Z)
| Call_get_current_row (mod_ : Z)
| Call_read_float_stereo (mod_ : Z) (rate : float) (count lptr rptr : Z)
                         (actual : Z)
| Disconnect
| FireEvent (eventName : string) (r : response)
| Invoke (position : nat) (r : response).

Definition is_engine_call (x : effect) : bool :=
  match x with
  | Call_malloc _ | Call_free _ | Call_destroy _
  | Call_get_current_pattern _ | Call_get_current_row _
  | Call_read_float_stereo _ _ _ _ _ _ => true
  | Disconnect | FireEvent _ _ | Invoke _ _ => false
  end.

Definition is_release_call (x : effect) : bool :=
  match x with
  | Call_free _ | Call_destroy _ => true
  | _ => false
  end.

Definition is_zero_frame_read (x : effect) : bool :=
  match x with
  | Call_read_float_stereo _ _ _ _ _ actual => actual =? 0
  | _ => false
  end.

Definition is_fire (name : string) (x : effect) : bool :=
  match x with
  | FireEvent n _ => String.eqb n name
  | _ => false
  end.

Definition is_any_fire (x : effect) : bool :=
  match x with
  | FireEvent _ _ => true
  | _ => false
  end.

(** Number of dispatches of [name] in a log. *)
Definition fired (name : string) (log : list effect) : nat :=
  length (List.filter (is_fire name) log).

(** ** The session node *)

(** [IProcessNode]: the fields the closures attached to the script
    processor read and write.  [patternIndex], [nbChannels] and [perf]
    exist in part_000 only; [sampleRate] is [this.context.sampleRate] and
    [connected] whether the node is wired into the output graph. *)
Record IProcessNode : Type := {
  modulePtr : Z;
  leftBufferPtr : Z;
  rightBufferPtr : Z;
  paused : bool;
  patternIndex : Z;
  nbChannels : Z;
  perf_current : float;
  perf_max : float;
  sampleRate : float;
  connected : bool
}.

Definition set_modulePtr (v : Z) (n : IProcessNode) : IProcessNode :=
  {| modulePtr := v; leftBufferPtr := leftBufferPtr n;
     rightBufferPtr := rightBufferPtr n; paused := paused n;
     patternIndex := patternIndex n; nbChannels := nbChannels n;
     perf_current := perf_current n; perf_max := perf_max n;
     sampleRate := sampleRate n; connected := connected n |}.

Definition set_leftBufferPtr (v : Z) (n : IProcessNode) : IProcessNode :=
  {| modulePtr := modulePtr n; leftBufferPtr := v;
     rightBufferPtr := rightBufferPtr n; paused := paused n;
     patternIndex := patternIndex n; nbChannels := nbChannels n;
     perf_current := perf_current n; perf_max := perf_max n;
     sampleRate := sampleRate n; connected := connected n |}.

Definition set_rightBufferPtr (v : Z) (n : IProcessNode) : IProcessNode :=
  {| modulePtr := modulePtr n; leftBufferPtr := leftBufferPtr n;
     rightBufferPtr := v; paused := paused n;
     patternIndex := patternIndex n; nbChannels := nbChannels n;
     perf_current := perf_current n; perf_max := perf_max n;
     sampleRate := sampleRate n; connected := connected n |}.

Definition set_paused (v : bool) (n : IProcessNode) : IProcessNode :=
  {| modulePtr := modulePtr n; leftBufferPtr := leftBufferPtr n;
     rightBufferPtr := rightBufferPtr n; paused := v;
     patternIndex := patternIndex n; nbChannels := nbChannels n;
     perf_current := perf_current n; perf_max := perf_max n;
     sampleRate := sampleRate n; connected := connected n |}.

Definition set_perf (current max : float) (n : IProcessNode) : IProcessNode :=
  {| modulePtr := modulePtr n; leftBufferPtr := leftBufferPtr n;
     rightBufferPtr := rightBufferPtr n; paused := paused n;
     patternIndex := patternIndex n; nbChannels := nbChannels n;
     perf_current := current; perf_max := max;
     sampleRate := sampleRate n; connected := connected n |}.

Definition set_connected (v : bool) (n : IProcessNode) : IProcessNode :=
  {| modulePtr := modulePtr n; leftBufferPtr := leftBufferPtr n;
     rightBufferPtr := rightBufferPtr n; paused := paused n;
     patternIndex := patternIndex n; nbChannels := nbChannels n;
     perf_current := perf_current n; perf_max := perf_max n;
     sampleRate := sampleRate n; connected := v |}.

(** [this.disconnect()] and [processNode.connect(...)]. *)
Definition disconnect (n : IProcessNode) : IProcessNode := set_connected false n.
Definition connect (n : IProcessNode) : IProcessNode := set_connected true n.

(** [pause], [unpause], [togglePause] of the node. *)
Definition pause (n : IProcessNode) : IProcessNode := set_paused true n.
Definition unpause (n : IProcessNode) : IProcessNode := set_paused false n.
Definition togglePause (n : IProcessNode) : IProcessNode :=
  set_paused (negb (paused n)) n.

(** ** The destination buffer *)

(** [ev.outputBuffer]: [getChannelData(0)] and [getChannelData(1)]. *)
Record AudioBuffer : Type := {
  channel0 : list float;
  channel1 : list float
}.

(** An indexed store into a [Float32Array]. *)
Definition store (a : list float) (i : Z) (v : float) : list float :=
  if 0 <=? i then <[Z.to_nat i := v]> a else a.

(** What [a[i] = v] stores when [v] may be [undefined]. *)
Definition to_float32 (v : option float) : float :=
  match v with
  | Some x => x
  | None => nan
  end.

(** [for (let i = a; i < b; ++i) body], the body not assigning [i]. *)
Definition for_range {S : Type} (a b : Z) (body : Z -> S -> S) (s : S) : S :=
  fold_left (fun acc i => body i acc) (seqZ a (b - a)) s.

Definition maxFramesPerChunk : Z := 4096.

(** How a callback or a dispatch ends. *)
Inductive completion : Type :=
| Normal
| Thrown.

(** [a.split(sep)] for a one-character separator. *)
Fixpoint split (sep : ascii) (s : string) : list string :=
  match s with
  | EmptyString => [EmptyString]
  | String c rest =>
      if Ascii.eqb c sep then EmptyString :: split sep rest
      else match split sep rest with
           | x :: xs => String c x :: xs
           | [] => [String c EmptyString]
           end
  end.

(** ** libopenmpt *)

(** The part of [MainModule] the sources call.  [E] is the state of the
    wasm instance (its heap and its loaded modules); every function is
    threaded through it.  [HEAPF32 e i] is the element [i] of the float
    view of the heap, [None] outside it. *)
Class MainModule (E : Type) : Type := {
  _malloc : Z -> E -> Z * E;
  _free : Z -> E -> E;
  HEAPU8_set : list Byte.byte -> Z -> E -> E;
  HEAPF32 : E -> Z -> option float;
  UTF8ToString : Z -> E -> string;
  writeAsciiToMemory : string -> Z -> E -> E;
  _openmpt_module_create_from_memory : Z -> Z -> Z -> Z -> Z -> E -> Z * E;
  _openmpt_module_destroy : Z -> E -> E;
  _openmpt_module_read_float_stereo :
    Z -> float -> Z -> Z -> Z -> E -> Z * E;
  _openmpt_module_get_num_channels : Z -> E -> Z * E;
  _openmpt_module_get_current_order : Z -> E -> Z * E;
  _openmpt_module_get_current_pattern : Z -> E -> Z * E;
  _openmpt_module_get_current_row : Z -> E -> Z * E;
  _openmpt_module_get_current_speed : Z -> E -> Z * E;
  _openmpt_module_get_current_tempo : Z -> E -> Z * E;
  _openmpt_module_get_num_orders : Z -> E -> Z * E;
  _openmpt_module_get_num_patterns : Z -> E -> Z * E;
  _openmpt_module_get_duration_seconds : Z -> E -> float * E;
  _openmpt_module_get_position_seconds : Z -> E -> float * E;
  _openmpt_module_set_position_seconds : Z -> float -> E -> E;
  _openmpt_module_get_metadata_keys : Z -> E -> Z * E;
  _openmpt_module_get_metadata : Z -> Z -> E -> Z * E;
  _openmpt_module_set_repeat_count : Z -> Z -> E -> E;
  _openmpt_module_set_render_param : Z -> Z -> Z -> E -> E
}.

(** ** Code shared by the two sources *)

Section Session.
Context {E : Type} {lib : MainModule E}.

(** What a handler can reach: the session node and the engine. *)
Record world : Type := {
  node : IProcessNode;
  engine : E
}.

(** [handler: (...args: any[]) => void]. *)
Definition handler_fn : Type := response -> world -> completion * world.

(** One entry [{ eventName, handler }] of [handlers]. *)
Record registration : Type := {
  eventName : string;
  handler : handler_fn
}.

(** [addHandler]: [this.handlers.push({ eventName, handler })]. *)
Definition addHandler (name : string) (h : handler_fn)
    (handlers : list registration) : list registration :=
  handlers ++ [{| eventName := name; handler := h |}].

(** [this.handlers.forEach(...)] from position [k] on; a handler that
    throws ends the iteration, nothing catches it. *)
Fixpoint forEach (k : nat) (handlers : list registration) (name : string)
    (r : response) (w : world) : completion * world * list effect :=
  match handlers with
  | [] => (Normal, w, [])
  | h :: rest =>
      if String.eqb (eventName h) name then
        match handler h r w with
        | (Normal, w1) =>
            let '(c, w2, log) := forEach (S k) rest name r w1 in
            (c, w2, Invoke k r :: log)
        | (Thrown, w1) => (Thrown, w1, [Invoke k r])
        end
      else forEach (S k) rest name r w
  end.

(** [fireEvent(eventName, response?)]. *)
Definition fireEvent (handlers : list registration) (name : string)
    (r : response) (w : world) : completion * world * list effect :=
  if (0 <? Z.of_nat (length handlers)) then
    let '(c, w1, log) := forEach 0 handlers name r w in
    (c, w1, FireEvent name r :: log)
  else (Normal, w, [FireEvent name r]).

(** [processNode.cleanup]. *)
Definition cleanup (w : world) : world * list effect :=
  let n0 := node w in
  let e0 := engine w in
  let '(n1, e1, log1) :=
    if negb (modulePtr n0 =? 0)
    then (set_modulePtr 0 n0, _openmpt_module_destroy (modulePtr n0) e0,
          [Call_destroy (modulePtr n0)])
    else (n0, e0, []) in
  let '(n2, e2, log2) :=
    if negb (leftBufferPtr n1 =? 0)
    then (set_leftBufferPtr 0 n1, _free (leftBufferPtr n1) e1,
          [Call_free (leftBufferPtr n1)])
    else (n1, e1, []) in
  let '(n3, e3, log3) :=
    if negb (rightBufferPtr n2 =? 0)
    then (set_rightBufferPtr 0 n2, _free (rightBufferPtr n2) e2,
          [Call_free (rightBufferPtr n2)])
    else (n2, e2, []) in
  ({| node := n3; engine := e3 |}, log1 ++ log2 ++ log3).

(** [this.disconnect(); this.cleanup()], the body of [processNode.stop]
    and the teardown the render step performs. *)
Definition stop (w : world) : world * list effect :=
  let '(w1, log) :=
    cleanup {| node := disconnect (node w); engine := engine w |} in
  (w1, Disconnect :: log).

(** The loops of the two early returns: zero both channels over
    [0 .. framesToRender). *)
Definition silence (framesToRender : Z) (out : AudioBuffer) : AudioBuffer :=
  let '(l, r) :=
    for_range 0 framesToRender
      (fun i '(l, r) => (store l i 0%float, store r i 0%float))
      (channel0 out, channel1 out) in
  {| channel0 := l; channel1 := r |}.

(** The locals of one iteration of the chunk loop. *)
Record chunk : Type := {
  framesPerChunk : Z;
  actualFramesPerChunk : Z;
  rawAudioLeft : Z -> option float;
  rawAudioRight : Z -> option float;
  call : effect
}.

(** The locals of the render step that outlive an iteration. *)
Record frames : Type := {
  outputL : list float;
  outputR : list float;
  framesToRender : Z;
  framesRendered : Z;
  ended : bool;
  error : bool
}.

(** [HEAPF32.subarray(ptr / 4, ptr / 4 + count)], read at [i]. *)
Definition subarray (e : E) (ptr count : Z) (i : Z) : option float :=
  if (0 <=? i) && (i <? count) then HEAPF32 e (ptr / 4 + i) else None.

(** The body of [while (framesToRender > 0)]. *)
Definition chunk_body (n : IProcessNode) (e : E) (st : frames)
    : E * frames * chunk :=
  let framesPerChunk := Z.min (framesToRender st) maxFramesPerChunk in
  let '(actualFramesPerChunk, e1) :=
    _openmpt_module_read_float_stereo (modulePtr n) (sampleRate n)
      framesPerChunk (leftBufferPtr n) (rightBufferPtr n) e in
  let '(ended1, error1) :=
    if actualFramesPerChunk =? 0
    then (true, modulePtr n =? 0)
    else (ended st, error st) in
  let rawAudioLeft := subarray e1 (leftBufferPtr n) actualFramesPerChunk in
  let rawAudioRight := subarray e1 (rightBufferPtr n) actualFramesPerChunk in
  let '(l1, r1) :=
    for_range 0 actualFramesPerChunk
      (fun i '(l, r) =>
         (store l (framesRendered st + i) (to_float32 (rawAudioLeft i)),
          store r (framesRendered st + i) (to_float32 (rawAudioRight i))))
      (outputL st, outputR st) in
  let '(l2, r2) :=
    for_range actualFramesPerChunk framesPerChunk
      (fun i '(l, r) =>
         (store l (framesRendered st + i) 0%float,
          store r (framesRendered st + i) 0%float))
      (l1, r1) in
  (e1,
   {| outputL := l2; outputR := r2;
      framesToRender := framesToRender st - framesPerChunk;
      framesRendered := framesRendered st + framesPerChunk;
      ended := ended1; error := error1 |},
   {| framesPerChunk := framesPerChunk;
      actualFramesPerChunk := actualFramesPerChunk;
      rawAudioLeft := rawAudioLeft;
      rawAudioRight := rawAudioRight;
      call := Call_read_float_stereo (modulePtr n) (sampleRate n)
                framesPerChunk (leftBufferPtr n) (rightBufferPtr n)
                actualFramesPerChunk |}).

(** [while (framesToRender > 0) { ... }]: [None] when [fuel] iterations
    did not reach the exit.  The chunks are returned in the order they
    were rendered. *)
Fixpoint chunk_loop (fuel : nat) (n : IProcessNode) (e : E) (st : frames)
    : option (E * frames * list chunk) :=
  if framesToRender st >? 0 then
    match fuel with
    | O => None
    | S fuel' =>
        let '(e1, st1, c) := chunk_body n e st in
        match chunk_loop fuel' n e1 st1 with
        | Some (e2, st2, cs) => Some (e2, st2, c :: cs)
        | None => None
        end
    end
  else Some (e, st, []).

(** What one callback hands back to the host. *)
Record outcome : Type := {
  result : completion;
  after : world;
  output : AudioBuffer;
  log : list effect
}.

(** [if (ended) { this.disconnect(); this.cleanup(); error ? fireEvent
    ('onError', { type: 'openmpt' }) : fireEvent('onEnded') }]. *)
Definition end_of_stream (handlers : list registration) (st : frames)
    (w : world) : completion * world * list effect :=
  if ended st then
    let '(w1, log1) := stop w in
    let '(c, w2, log2) :=
      if error st
      then fireEvent handlers "onError" (Some (ErrorType "openmpt")) w1
      else fireEvent handlers "onEnded" None w1 in
    (c, w2, log1 ++ log2)
  else (Normal, w, []).

(** The render step from [let ended = false] to the terminal dispatch:
    the chunk loop over the whole destination, then [end_of_stream]. *)
Definition render_chunks (handlers : list registration) (out : AudioBuffer)
    (w : world) : option (completion * world * AudioBuffer * list effect) :=
  let N := Z.of_nat (length (channel0 out)) in
  let st0 := {| outputL := channel0 out; outputR := channel1 out;
                framesToRender := N; framesRendered := 0;
                ended := false; error := false |} in
  match chunk_loop (Z.to_nat N) (node w) (engine w) st0 with
  | None => None
  | Some (e1, st1, cs) =>
      let '(c, w2, log2) :=
        end_of_stream handlers st1 {| node := node w; engine := e1 |} in
      Some (c, w2, {| channel0 := outputL st1; channel1 := outputR st1 |},
            map call cs ++ log2)
  end.

End Session.

Arguments world : clear implicits.
Arguments registration : clear implicits.
Arguments handler_fn : clear implicits.
Arguments outcome : clear implicits.

(** What a controller operation returns: a value, or the [TypeError] of
    reading a property of [undefined]. *)
Inductive js (A : Type) : Type :=
| Return (a : A)
| TypeError.

Arguments Return {A} a.
Arguments TypeError {A}.

(** * src/src/index.ts *)

Module Index.
Section Player.
Context {E : Type} {lib : MainModule E}.

Definition OPENMPT_MODULE_RENDER_INTERPOLATIONFILTER_LENGTH : Z := 3.
Definition OPENMPT_MODULE_RENDER_STEREOSEPARATION_PERCENT : Z := 2.

Record ChiptuneJsConfig : Type := {
  interpolationFilter : Z;
  repeatCount : Z;
  stereoSeparation : Z
}.

(** [context] is reduced to the sample rate of the audio context. *)
Record ChiptuneJsPlayer : Type := {
  config : ChiptuneJsConfig;
  context_sampleRate : float;
  currentPlayingNode : option IProcessNode;
  handlers : list (registration E);
  touchLocked : bool
}.

Definition set_currentPlayingNode (v : option IProcessNode)
    (p : ChiptuneJsPlayer) : ChiptuneJsPlayer :=
  {| config := config p; context_sampleRate := context_sampleRate p;
     currentPlayingNode := v; handlers := handlers p;
     touchLocked := touchLocked p |}.

Definition set_touchLocked (v : bool) (p : ChiptuneJsPlayer)
    : ChiptuneJsPlayer :=
  {| config := config p; context_sampleRate := context_sampleRate p;
     currentPlayingNode := currentPlayingNode p; handlers := handlers p;
     touchLocked := v |}.

(** [createLibopenmptNode(buffer, config)], the assignments in source
    order.  The function returns the node object whatever the engine
    answered; the result is wrapped in [Some] for the [!processNode]
    test of [play].  The fields index.ts does not have ([patternIndex],
    [nbChannels], [perf]) are never read here and are set to zero. *)
Definition createLibopenmptNode (buffer : list Byte.byte)
    (p : ChiptuneJsPlayer) (e : E) : option IProcessNode * E :=
  let byteLength := Z.of_nat (length buffer) in
  let '(ptrToFile, e1) := _malloc byteLength e in
  let e2 := HEAPU8_set buffer ptrToFile e1 in
  let '(module, e3) :=
    _openmpt_module_create_from_memory ptrToFile byteLength 0 0 0 e2 in
  let '(leftPtr, e4) := _malloc (maxFramesPerChunk * 4) e3 in
  let '(rightPtr, e5) := _malloc (maxFramesPerChunk * 4) e4 in
  (Some {| modulePtr := module; leftBufferPtr := leftPtr;
           rightBufferPtr := rightPtr; paused := false;
           patternIndex := 0; nbChannels := 0;
           perf_current := 0%float; perf_max := 0%float;
           sampleRate := context_sampleRate p; connected := false |},
   e5).

(** [processNode.onaudioprocess]. *)
Definition onaudioprocess (handlers : list (registration E))
    (out : AudioBuffer) (w : world E) : option (outcome E) :=
  let framesToRender := Z.of_nat (length (channel0 out)) in
  if modulePtr (node w) =? 0 then
    let '(w1, log1) := stop w in
    Some {| result := Normal; after := w1;
            output := silence framesToRender out; log := log1 |}
  else if paused (node w) then
    Some {| result := Normal; after := w;
            output := silence framesToRender out; log := [] |}
  else
    match render_chunks handlers out w with
    | None => None
    | Some (c, w1, out1, log1) =>
        Some {| result := c; after := w1; output := out1; log := log1 |}
    end.

(** The queries: each reads [this.currentPlayingNode!.modulePtr]. *)
Definition query {A : Type} (f : Z -> E -> A * E) (p : ChiptuneJsPlayer)
    (e : E) : js (A * E) :=
  match currentPlayingNode p with
  | Some n => Return (f (modulePtr n) e)
  | None => TypeError
  end.

Definition duration := query _openmpt_module_get_duration_seconds.
Definition getCurrentOrder := query _openmpt_module_get_current_order.
Definition getCurrentPattern := query _openmpt_module_get_current_pattern.
Definition getCurrentRow := query _openmpt_module_get_current_row.
Definition getCurrentTime := query _openmpt_module_get_position_seconds.
Definition getTotalOrder := query _openmpt_module_get_num_orders.
Definition getTotalPatterns := query _openmpt_module_get_num_patterns.

(** [metadata()]. *)
Definition metadata (p : ChiptuneJsPlayer) (e : E)
    : js (gmap string string * E) :=
  match currentPlayingNode p with
  | None => TypeError
  | Some n =>
      let '(keysPtr, e1) :=
        _openmpt_module_get_metadata_keys (modulePtr n) e in
      let keys := split ";"%char (UTF8ToString keysPtr e1) in
      Return
        (fold_left
           (fun '(data, e2) key =>
              let '(keyNameBuffer, e3) :=
                _malloc (Z.of_nat (String.length key) + 1) e2 in
              let e4 := writeAsciiToMemory key keyNameBuffer e3 in
              let '(valuePtr, e5) :=
                _openmpt_module_get_metadata (modulePtr n) keyNameBuffer
                  e4 in
              (<[key := UTF8ToString valuePtr e5]> data,
               _free keyNameBuffer e5))
           keys (∅, e1))
  end.

(** [stop()] of the player. *)
Definition stop (p : ChiptuneJsPlayer) (e : E)
    : ChiptuneJsPlayer * E * list effect :=
  match currentPlayingNode p with
  | Some n =>
      let '(w1, log1) := stop {| node := n; engine := e |} in
      (set_currentPlayingNode None p, engine w1, log1)
  | None => (p, e, [])
  end.

(** [togglePause()] of the player. *)
Definition togglePause (p : ChiptuneJsPlayer) : ChiptuneJsPlayer :=
  match currentPlayingNode p with
  | Some n => set_currentPlayingNode (Some (togglePause n)) p
  | None => p
  end.

(** [unlock()]: the one-sample source it plays is host plumbing. *)
Definition unlock (p : ChiptuneJsPlayer) : ChiptuneJsPlayer :=
  set_touchLocked false p.

(** [play(buffer)]. *)
Definition play (buffer : list Byte.byte) (p : ChiptuneJsPlayer) (e : E)
    : ChiptuneJsPlayer * E :=
  let '(p1, e1, _) := stop p e in
  match createLibopenmptNode buffer p1 e1 with
  | (None, e2) => (p1, e2)
  | (Some processNode, e2) =>
      let e3 := _openmpt_module_set_repeat_count (modulePtr processNode)
                  (repeatCount (config p1)) e2 in
      let e4 := _openmpt_module_set_render_param (modulePtr processNode)
                  OPENMPT_MODULE_RENDER_STEREOSEPARATION_PERCENT
                  (stereoSeparation (config p1)) e3 in
      let e5 := _openmpt_module_set_render_param (modulePtr processNode)
                  OPENMPT_MODULE_RENDER_INTERPOLATIONFILTER_LENGTH
                  (interpolationFilter (config p1)) e4 in
      (set_currentPlayingNode (Some (connect processNode)) p1, e5)
  end.

End Player.
Arguments ChiptuneJsPlayer : clear implicits.
End Index.

(** * src/unnamed/part_000 *)

Module Part000.
Section Player.
Context {E : Type} {lib : MainModule E}.

Record ChiptuneJsConfig : Type := {
  repeatCount : Z
}.

(** [audioContext] is reduced to its sample rate; [context] is the gain
    node every session is connected to. *)
Record ChiptuneJsPlayer : Type := {
  audioContext_sampleRate : float;
  config : ChiptuneJsConfig;
  currentPlayingNode : option IProcessNode;
  handlers : list (registration E);
  touchLocked : bool;
  volume : float
}.

Definition set_currentPlayingNode (v : option IProcessNode)
    (p : ChiptuneJsPlayer) : ChiptuneJsPlayer :=
  {| audioContext_sampleRate := audioContext_sampleRate p;
     config := config p; currentPlayingNode := v;
     handlers := handlers p; touchLocked := touchLocked p;
     volume := volume p |}.

Definition set_touchLocked (v : bool) (p : ChiptuneJsPlayer)
    : ChiptuneJsPlayer :=
  {| audioContext_sampleRate := audioContext_sampleRate p;
     config := config p; currentPlayingNode := currentPlayingNode p;
     handlers := handlers p; touchLocked := v; volume := volume p |}.

(** [createLibopenmptNode(buffer, config)], the assignments in source
    order; as in index.ts the node object is always returned. *)
Definition createLibopenmptNode (buffer : list Byte.byte)
    (p : ChiptuneJsPlayer) (e : E) : option IProcessNode * E :=
  let byteLength := Z.of_nat (length buffer) in
  let '(ptrToFile, e1) := _malloc byteLength e in
  let e2 := HEAPU8_set buffer ptrToFile e1 in
  let '(leftPtr, e3) := _malloc (maxFramesPerChunk * 4) e2 in
  let '(module, e4) :=
    _openmpt_module_create_from_memory ptrToFile byteLength 0 0 0 e3 in
  let '(channels, e5) := _openmpt_module_get_num_channels module e4 in
  let '(rightPtr, e6) := _malloc (maxFramesPerChunk * 4) e5 in
  (Some {| modulePtr := module; leftBufferPtr := leftPtr;
           rightBufferPtr := rightPtr; paused := false;
           patternIndex := -1; nbChannels := channels;
           perf_current := 0%float; perf_max := 0%float;
           sampleRate := audioContext_sampleRate p; connected := false |},
   e6).

(** [processNode.getProcessTime]. *)
Definition getProcessTime (n : IProcessNode)
    : (float * float) * IProcessNode :=
  let max := perf_max n in
  ((perf_current n, max), set_perf (perf_current n) 0%float n).

(** The part of [onaudioprocess] between the two early returns and the
    chunk loop: the pattern and row queries and the two dispatches. *)
Definition announce (handlers : list (registration E)) (w : world E)
    : completion * world E * list effect :=
  let '(currentPattern, e1) :=
    _openmpt_module_get_current_pattern (modulePtr (node w)) (engine w) in
  let '(currentRow, e2) :=
    _openmpt_module_get_current_row (modulePtr (node w)) e1 in
  let log0 := [Call_get_current_pattern (modulePtr (node w));
               Call_get_current_row (modulePtr (node w))] in
  let w2 := {| node := node w; engine := e2 |} in
  let '(c3, w3, log3) :=
    if negb (currentPattern =? patternIndex (node w))
    then fireEvent handlers "onPatternChange" None w2
    else (Normal, w2, []) in
  match c3 with
  | Thrown => (Thrown, w3, log0 ++ log3)
  | Normal =>
      let '(c4, w4, log4) :=
        fireEvent handlers "onRowChange" (Some (RowIndex currentRow)) w3 in
      (c4, w4, log0 ++ log3 ++ log4)
  end.

(** [processNode.onaudioprocess]; [performance_now k] is the reading
    of the [k]-th call of [performance.now()] in this callback.  An
    exception of a handler leaves the callback at the dispatch. *)
Definition onaudioprocess (handlers : list (registration E))
    (performance_now : nat -> float) (out : AudioBuffer) (w : world E)
    : option (outcome E) :=
  let startTimeP1 := performance_now 0%nat in
  let framesToRender := Z.of_nat (length (channel0 out)) in
  if modulePtr (node w) =? 0 then
    let '(w1, log1) := stop w in
    Some {| result := Normal; after := w1;
            output := silence framesToRender out; log := log1 |}
  else if paused (node w) then
    Some {| result := Normal; after := w;
            output := silence framesToRender out; log := [] |}
  else
    match announce handlers w with
    | (Thrown, w4, log4) =>
        Some {| result := Thrown; after := w4; output := out;
                log := log4 |}
    | (Normal, w4, log4) =>
        let startTimeP1 := (startTimeP1 - performance_now 1%nat)%float in
        let startTimeP2 := performance_now 2%nat in
        match render_chunks handlers out w4 with
        | None => None
        | Some (Thrown, w5, out5, log5) =>
            Some {| result := Thrown; after := w5; output := out5;
                    log := log4 ++ log5 |}
        | Some (Normal, w5, out5, log5) =>
            let current :=
              (performance_now 3%nat - startTimeP2 + startTimeP1)%float in
            let max :=
              if PrimFloat.ltb (perf_max (node w5)) current
              then current else perf_max (node w5) in
            Some {| result := Normal;
                    after := {| node := set_perf current max (node w5);
                                engine := engine w5 |};
                    output := out5;
                    log := log4 ++ log5 |}
        end
    end.

(** The queries that read [this.currentPlayingNode!.modulePtr]. *)
Definition query {A : Type} (f : Z -> E -> A * E) (p : ChiptuneJsPlayer)
    (e : E) : js (A * E) :=
  match currentPlayingNode p with
  | Some n => Return (f (modulePtr n) e)
  | None => TypeError
  end.

Definition duration := query _openmpt_module_get_duration_seconds.
Definition position := query _openmpt_module_get_position_seconds.

(** The queries guarded by
    [this.currentPlayingNode && this.currentPlayingNode.modulePtr]. *)
Definition guarded (f : Z -> E -> Z * E) (p : ChiptuneJsPlayer) (e : E)
    : js (Z * E) :=
  match currentPlayingNode p with
  | Some n =>
      if negb (modulePtr n =? 0) then Return (f (modulePtr n) e)
      else Return (0, e)
  | None => Return (0, e)
  end.

Definition getCurrentSpeed := guarded _openmpt_module_get_current_speed.
Definition getCurrentTempo := guarded _openmpt_module_get_current_tempo.
Definition getNumPatterns := guarded _openmpt_module_get_num_patterns.
Definition getPattern := guarded _openmpt_module_get_current_pattern.
Definition getRow := guarded _openmpt_module_get_current_row.

(** [metadata()]. *)
Definition metadata (p : ChiptuneJsPlayer) (e : E)
    : js (gmap string string * E) :=
  match currentPlayingNode p with
  | None => TypeError
  | Some n =>
      let '(keysPtr, e1) :=
        _openmpt_module_get_metadata_keys (modulePtr n) e in
      let keys := split ";"%char (UTF8ToString keysPtr e1) in
      Return
        (fold_left
           (fun '(data, e2) key =>
              let '(keyNameBuffer, e3) :=
                _malloc (Z.of_nat (String.length key) + 1) e2 in
              let e4 := writeAsciiToMemory key keyNameBuffer e3 in
              let '(valuePtr, e5) :=
                _openmpt_module_get_metadata (modulePtr n) keyNameBuffer
                  e4 in
              (<[key := UTF8ToString valuePtr e5]> data,
               _free keyNameBuffer e5))
           keys (∅, e1))
  end.

(** [seek(position)]. *)
Definition seek (pos : float) (p : ChiptuneJsPlayer) (e : E) : E :=
  match currentPlayingNode p with
  | Some n => _openmpt_module_set_position_seconds (modulePtr n) pos e
  | None => e
  end.

(** [stop()] of the player. *)
Definition stop (p : ChiptuneJsPlayer) (e : E)
    : ChiptuneJsPlayer * E * list effect :=
  match currentPlayingNode p with
  | Some n =>
      let '(w1, log1) := stop {| node := n; engine := e |} in
      (set_currentPlayingNode None p, engine w1, log1)
  | None => (p, e, [])
  end.

(** [togglePause()] of the player. *)
Definition togglePause (p : ChiptuneJsPlayer) : ChiptuneJsPlayer :=
  match currentPlayingNode p with
  | Some n => set_currentPlayingNode (Some (togglePause n)) p
  | None => p
  end.

(** [unlock()]: the one-sample source it plays is host plumbing. *)
Definition unlock (p : ChiptuneJsPlayer) : ChiptuneJsPlayer :=
  set_touchLocked false p.

(** [play(buffer)]; [repeatCount || 0] and the connection of the session
    to the gain node.  The gain node's own connection to the destination
    is host plumbing. *)
Definition play (buffer : list Byte.byte) (p : ChiptuneJsPlayer) (e : E)
    : ChiptuneJsPlayer * E :=
  let p0 := unlock p in
  let '(p1, e1, _) := stop p0 e in
  match createLibopenmptNode buffer p1 e1 with
  | (None, e2) => (p1, e2)
  | (Some processNode, e2) =>
      let e3 := _openmpt_module_set_repeat_count (modulePtr processNode)
                  (if repeatCount (config p1) =? 0 then 0
                   else repeatCount (config p1)) e2 in
      (set_currentPlayingNode (Some (connect processNode)) p1, e3)
  end.

End Player.
Arguments ChiptuneJsPlayer : clear implicits.
End Part000.

(** * Frames of a chunk, the engine's contract, handlers *)

Section Frames.
Context {E : Type}.

(** Frame [i] of a chunk: the decoded sample below the count the engine
    reported, zero from there on. *)
Definition left_frames (c : chunk) : list float :=
  map (fun i => if i <? actualFramesPerChunk c
                then to_float32 (rawAudioLeft c i) else 0%float)
      (seqZ 0 (framesPerChunk c)).

Definition right_frames (c : chunk) : list float :=
  map (fun i => if i <? actualFramesPerChunk c
                then to_float32 (rawAudioRight c i) else 0%float)
      (seqZ 0 (framesPerChunk c)).

(** The initial locals of a render step over [out]. *)
Definition entry (out : AudioBuffer) : frames :=
  {| outputL := channel0 out; outputR := channel1 out;
     framesToRender := Z.of_nat (length (channel0 out));
     framesRendered := 0; ended := false; error := false |}.

(** Both channels of an [AudioBuffer] have its length. *)
Definition well_formed (out : AudioBuffer) : Prop :=
  length (channel1 out) = length (channel0 out).

(** The engine never reports a negative frame count. *)
Definition counts_frames (lib : MainModule E) : Prop :=
  forall m rate count lptr rptr e,
    0 <= fst (_openmpt_module_read_float_stereo m rate count lptr rptr e).

(** The positions in [handlers] registered under [name]. *)
Fixpoint registered (k : nat) (handlers : list (registration E))
    (name : string) : list nat :=
  match handlers with
  | [] => []
  | h :: rest =>
      if String.eqb (eventName h) name
      then k :: registered (S k) rest name
      else registered (S k) rest name
  end.

(** A handler that returns whatever it is given. *)
Definition returns (h : registration E) : Prop :=
  forall r w, fst (handler h r w) = Normal.

(** A handler that never clears a live module handle. *)
Definition keeps_handle (h : registration E) : Prop :=
  forall r w, modulePtr (node w) <> 0 ->
              modulePtr (node (snd (handler h r w))) <> 0.

(** The handlers the render step runs before its chunk loop. *)
Definition runs_before_loop (h : registration E) : Prop :=
  eventName h = "onPatternChange"%string \/ eventName h = "onRowChange"%string.
End Frames.

(** * A small decode engine, to run the sources on concrete inputs *)

Module Toy.

(** One module of [remaining] frames left to decode, standing at
    [pattern] and [row]; [brk] is the next address [_malloc] hands out.
    The float heap reads [0.25] below index [8192] and [0.75] above. *)
Record state : Type := {
  remaining : Z;
  pattern : Z;
  row : Z;
  brk : Z
}.

Definition read (m : Z) (rate : float) (count lptr rptr : Z) (e : state)
    : Z * state :=
  if m =? 0 then (0, e)
  else
    let k := Z.max 0 (Z.min count (remaining e)) in
    (k, {| remaining := remaining e - k; pattern := pattern e;
           row := row e; brk := brk e |}).

Definition malloc (size : Z) (e : state) : Z * state :=
  (brk e, {| remaining := remaining e; pattern := pattern e;
             row := row e; brk := brk e + size + 8 |}).

Definition live {A : Type} (dead value : A) (m : Z) (e : state)
    : A * state :=
  (if m =? 0 then dead else value, e).

#[global] Instance libopenmpt : MainModule state := {|
  _malloc := malloc;
  _free := fun _ e => e;
  HEAPU8_set := fun _ _ e => e;
  HEAPF32 := fun _ i => if i <? 8192 then Some 0.25%float
                        else Some 0.75%float;
  UTF8ToString := fun _ _ => EmptyString;
  writeAsciiToMemory := fun _ _ e => e;
  _openmpt_module_create_from_memory :=
    fun _ size _ _ _ e => (if size =? 0 then 0 else 64, e);
  _openmpt_module_destroy := fun _ e => e;
  _openmpt_module_read_float_stereo := read;
  _openmpt_module_get_num_channels := live 0 4;
  _openmpt_module_get_current_order := live 0 0;
  _openmpt_module_get_current_pattern := fun m e => live 0 (pattern e) m e;
  _openmpt_module_get_current_row := fun m e => live 0 (row e) m e;
  _openmpt_module_get_current_speed := live 0 6;
  _openmpt_module_get_current_tempo := live 0 125;
  _openmpt_module_get_num_orders := live 0 1;
  _openmpt_module_get_num_patterns := live 0 8;
  _openmpt_module_get_duration_seconds := live 0%float 60%float;
  _openmpt_module_get_position_seconds := live 0%float 1%float;
  _openmpt_module_set_position_seconds := fun _ _ e => e;
  _openmpt_module_get_metadata_keys := live 0 8;
  _openmpt_module_get_metadata := fun m _ e => live 0 8 m e;
  _openmpt_module_set_repeat_count := fun _ _ e => e;
  _openmpt_module_set_render_param := fun _ _ _ e => e
|}.

(** A session in the middle of a module: [frames] left to decode. *)
Definition session (frames : Z) (isPaused : bool) : world state :=
  {| node := {| modulePtr := 64; leftBufferPtr := 16384;
                rightBufferPtr := 32776; paused := isPaused;
                patternIndex := -1; nbChannels := 4;
                perf_current := 0%float; perf_max := 0%float;
                sampleRate := 48000%float; connected := true |};
     engine := {| remaining := frames; pattern := 3; row := 5;
                  brk := 49168 |} |}.

(** A destination of [N] frames holding stale samples. *)
Definition stale (N : nat) : AudioBuffer :=
  {| channel0 := replicate N 9%float; channel1 := replicate N 9%float |}.

(** Three handlers: one that only returns, one that throws, and one
    that calls [player.stop()] on the running session. *)
Definition quiet (name : string) : registration state :=
  {| eventName := name; handler := fun _ w => (Normal, w) |}.

Definition faulty (name : string) : registration state :=
  {| eventName := name; handler := fun _ w => (Thrown, w) |}.

Definition stopping (name : string) : registration state :=
  {| eventName := name; handler := fun _ w => (Normal, fst (stop w)) |}.

Definition clock (k : nat) : float :=
  match k with
  | O => 100%float
  | 1%nat => 101%float
  | 2%nat => 102%float
  | _ => 110%float
  end.

Definition player (current : option IProcessNode)
    : Part000.ChiptuneJsPlayer state :=
  {| Part000.audioContext_sampleRate := 48000%float;
     Part000.config := {| Part000.repeatCount := 0 |};
     Part000.currentPlayingNode := current;
     Part000.handlers := [];
     Part000.touchLocked := true;
     Part000.volume := 1%float |}.

(** The outcome of a callback that returned. *)
Definition run (o : option (outcome state)) : outcome state :=
  match o with
  | Some r => r
  | None => {| result := Thrown; after := session 0 false;
               output := stale 0; log := [] |}
  end.

End Toy.

(** * Vocabulary of the statements *)

Section Vocabulary.
Context {E : Type} {lib : MainModule E}.
Implicit Types (n : IProcessNode) (e : E) (st : frames) (w : world E).
Implicit Types (a : list float) (l : list effect) (out : AudioBuffer).

(** The stores of a loop over the indices [xs], on one channel. *)
Definition write (base : Z) (f : Z -> float) (xs : list Z) a : list float :=
  fold_left (fun acc i => store acc (base + i) (f i)) xs a.

Definition zero (_ : Z) : float := 0%float.

(** The three values an iteration computes first. *)
Definition requested st : Z := Z.min (framesToRender st) maxFramesPerChunk.

Definition produced n e st : Z :=
  fst (_openmpt_module_read_float_stereo (modulePtr n) (sampleRate n)
         (requested st) (leftBufferPtr n) (rightBufferPtr n) e).

Definition decoder n e st : E :=
  snd (_openmpt_module_read_float_stereo (modulePtr n) (sampleRate n)
         (requested st) (leftBufferPtr n) (rightBufferPtr n) e).

(** The locals after an iteration, and the chunk it rendered. *)
Definition advance n e st : frames := snd (fst (chunk_body n e st)).
Definition rendered n e st : chunk := snd (chunk_body n e st).

(** Number of chunks a destination of [N] frames takes: [N] divided by
    [maxFramesPerChunk], rounded up. *)
Definition chunks_needed (N : Z) : nat :=
  Z.to_nat ((N + maxFramesPerChunk - 1) / maxFramesPerChunk).

(** No dispatch of any name. *)
Definition silent l : Prop := Forall (fun x => is_any_fire x = false) l.

(** No call of the decoder's read function. *)
Definition readless l : Prop :=
  Forall (fun x => match x with
                   | Call_read_float_stereo _ _ _ _ _ _ => False
                   | _ => True
                   end) l.

(** What the engine decodes into a destination of [N] frames for the
    session [n], chunk by chunk, left channel and right channel.  The
    read of a chunk is asked for [min(N, maxFramesPerChunk)] frames; a
    frame of the chunk below the count the read returned is the sample
    the engine left in the scratch buffer of its channel, read from
    [HEAPF32] after the read, and a frame from there on is zero.  [fuel]
    bounds the number of chunks. *)
Fixpoint decoded (fuel : nat) n e (N : Z) : list float * list float :=
  match fuel with
  | O => ([], [])
  | S fuel' =>
      if 0 <? N then
        let count := Z.min N maxFramesPerChunk in
        let '(actual, e1) :=
          _openmpt_module_read_float_stereo (modulePtr n) (sampleRate n)
            count (leftBufferPtr n) (rightBufferPtr n) e in
        let '(xs, ys) := decoded fuel' n e1 (N - count) in
        (map (fun i => if i <? actual
                       then to_float32 (HEAPF32 e1 (leftBufferPtr n / 4 + i))
                       else 0%float) (seqZ 0 count) ++ xs,
         map (fun i => if i <? actual
                       then to_float32 (HEAPF32 e1 (rightBufferPtr n / 4 + i))
                       else 0%float) (seqZ 0 count) ++ ys)
      else ([], [])
  end.

(** [result] holds a rendering of [out] by the session [n] on the
    engine [e]: its channels have the length of the destination and are
    what the engine decodes for it, frame by frame. *)
Definition rendering out n e (result : AudioBuffer) : Prop :=
  channel0 result
  = fst (decoded (length (channel0 out)) n e
           (Z.of_nat (length (channel0 out))))
  /\ channel1 result
     = snd (decoded (length (channel0 out)) n e
              (Z.of_nat (length (channel0 out))))
  /\ length (channel0 result) = length (channel0 out)
  /\ length (channel1 result) = length (channel0 out).

(** The dispatch a zero-frame read ends in, by the handle it was made
    with. *)
Definition terminal (m : Z) : string * response :=
  if m =? 0 then ("onError"%string, Some (ErrorType "openmpt"))
  else ("onEnded"%string, None).
End Vocabulary.

(** * An engine that has nothing left to decode *)

Module Spent.

(** Every read returns zero frames; the engine has no state. *)
Definition libopenmpt : MainModule unit := {|
  _malloc := fun _ e => (8, e);
  _free := fun _ e => e;
  HEAPU8_set := fun _ _ e => e;
  HEAPF32 := fun _ _ => Some 0.5%float;
  UTF8ToString := fun _ _ => EmptyString;
  writeAsciiToMemory := fun _ _ e => e;
  _openmpt_module_create_from_memory := fun _ _ _ _ _ e => (64, e);
  _openmpt_module_destroy := fun _ e => e;
  _openmpt_module_read_float_stereo := fun _ _ _ _ _ e => (0, e);
  _openmpt_module_get_num_channels := fun _ e => (4, e);
  _openmpt_module_get_current_order := fun _ e => (0, e);
  _openmpt_module_get_current_pattern := fun _ e => (3, e);
  _openmpt_module_get_current_row := fun _ e => (5, e);
  _openmpt_module_get_current_speed := fun _ e => (6, e);
  _openmpt_module_get_current_tempo := fun _ e => (125, e);
  _openmpt_module_get_num_orders := fun _ e => (1, e);
  _openmpt_module_get_num_patterns := fun _ e => (8, e);
  _openmpt_module_get_duration_seconds := fun _ e => (60%float, e);
  _openmpt_module_get_position_seconds := fun _ e => (60%float, e);
  _openmpt_module_set_position_seconds := fun _ _ e => e;
  _openmpt_module_get_metadata_keys := fun _ e => (8, e);
  _openmpt_module_get_metadata := fun _ _ e => (8, e);
  _openmpt_module_set_repeat_count := fun _ _ e => e;
  _openmpt_module_set_render_param := fun _ _ _ e => e
|}.

Definition session : world unit :=
  {| node := node (Toy.session 0 false); engine := tt |}.

End Spent.

(** A player of index.ts over the small engine. *)
Definition index_player (current : option IProcessNode)
    : Index.ChiptuneJsPlayer Toy.state :=
  {| Index.config := {| Index.interpolationFilter := 8;
                        Index.repeatCount := 0;
                        Index.stereoSeparation := 100 |};
     Index.context_sampleRate := 48000%float;
     Index.currentPlayingNode := current;
     Index.handlers := [];
     Index.touchLocked := true |}.

(** A session whose module failed to load: handle zero, buffers held. *)
Definition unloaded : world Toy.state :=
  {| node := set_modulePtr 0 (node (Toy.session 0 false));
     engine := engine (Toy.session 0 false) |}.

(** * The registration helpers, and further vocabulary *)

Section Further.
Context {E : Type} {lib : MainModule E}.

(** [onEnded(handler)] and [onError(handler)] of the player, the same in
    both sources. *)
Definition onEnded (h : handler_fn E) (handlers : list (registration E))
    : list (registration E) :=
  addHandler "onEnded" h handlers.

Definition onError (h : handler_fn E) (handlers : list (registration E))
    : list (registration E) :=
  addHandler "onError" h handlers.

(** The frame counts requested by the reads of a log, in order. *)
Definition read_counts (l : list effect) : list Z :=
  flat_map (fun x => match x with
                     | Call_read_float_stereo _ _ count _ _ _ => [count]
                     | _ => []
                     end) l.

(** A destination of [N] frames cut into chunks: full chunks of
    [maxFramesPerChunk] frames, then the remainder if there is one. *)
Definition chunk_sizes (N : Z) : list Z :=
  replicate (Z.to_nat (N / maxFramesPerChunk)) maxFramesPerChunk
  ++ (if N mod maxFramesPerChunk =? 0 then []
      else [N mod maxFramesPerChunk]).

(** A log made of reads of the decoder and nothing else. *)
Definition reads_only (l : list effect) : Prop :=
  Forall (fun x => match x with
                   | Call_read_float_stereo _ _ _ _ _ _ => True
                   | _ => False
                   end) l.

(** A handler that never gives a torn-down session a handle again. *)
Definition stays_dead (h : registration E) : Prop :=
  forall r w, modulePtr (node w) = 0 ->
              modulePtr (node (snd (handler h r w))) = 0.

(** [N] frames of silence on both channels. *)
Definition zeros (N : nat) : AudioBuffer :=
  {| channel0 := replicate N 0%float; channel1 := replicate N 0%float |}.

(** A node with its timing statistics blanked. *)
Definition forget_perf (n : IProcessNode) : IProcessNode :=
  set_perf 0%float 0%float n.

(** The teardown calls [cleanup] makes for the two scratch buffers. *)
Definition buffer_frees (n : IProcessNode) : list effect :=
  (if leftBufferPtr n =? 0 then [] else [Call_free (leftBufferPtr n)])
  ++ (if rightBufferPtr n =? 0 then [] else [Call_free (rightBufferPtr n)]).
End Further.

(** * Stores into a typed array *)

Section Arrays.
Implicit Types (a : list float) (i base : Z) (j : nat).

Lemma store_length a i v : length (store a i v) = length a.
Proof. unfold store. destruct (0 <=? i); [apply length_insert | done]. Qed.

Lemma store_lookup a i v j :
  store a i v !! j =
    if i =? Z.of_nat j then (if decide (j < length a)%nat then Some v else None)
    else a !! j.
Proof.
  unfold store.
  destruct (Z.eqb_spec i (Z.of_nat j)) as [->|Hne].
  - rewrite (proj2 (Z.leb_le 0 (Z.of_nat j))) by lia.
    rewrite Nat2Z.id. case_decide.
    + by apply list_lookup_insert_eq.
    + rewrite list_insert_ge by lia. apply lookup_ge_None_2. lia.
  - destruct (Z.leb_spec 0 i); [|done].
    apply list_lookup_insert_ne. lia.
Qed.

Lemma write_length base f xs a : length (write base f xs a) = length a.
Proof.
  revert a. induction xs as [|x xs IH]; intros a; [done|].
  cbn. unfold write in IH. rewrite IH. apply store_length.
Qed.

Lemma write_lookup base f xs a j :
  write base f xs a !! j =
    if existsb (fun i => base + i =? Z.of_nat j) xs
    then (if decide (j < length a)%nat
          then Some (f (Z.of_nat j - base)) else None)
    else a !! j.
Proof.
  revert a. induction xs as [|x xs IH]; intros a; [done|].
  cbn [existsb]. change (write base f (x :: xs) a)
    with (write base f xs (store a (base + x) (f x))).
  rewrite IH, store_length, store_lookup.
  destruct (existsb _ xs); [by rewrite orb_true_r|].
  rewrite orb_false_r.
  destruct (Z.eqb_spec (base + x) (Z.of_nat j)) as [Heq|]; [|done].
  by replace (Z.of_nat j - base) with x by lia.
Qed.

Lemma existsb_seqZ base lo len (t : Z) :
  existsb (fun i => base + i =? t) (seqZ lo len) =
    (lo <=? t - base) && (t - base <? lo + len).
Proof.
  apply eq_true_iff_eq.
  rewrite existsb_exists, andb_true_iff, Z.leb_le, Z.ltb_lt. split.
  - intros (x & Hin & Heq). apply list_elem_of_In, elem_of_seqZ in Hin.
    apply Z.eqb_eq in Heq. lia.
  - intros H. exists (t - base). split; [|apply Z.eqb_eq; lia].
    apply list_elem_of_In, elem_of_seqZ. lia.
Qed.

(** A loop storing into both channels is the two loops side by side. *)
Lemma for_range_channels lo hi base (f g : Z -> float) l r :
  for_range lo hi
    (fun i '(l, r) => (store l (base + i) (f i), store r (base + i) (g i)))
    (l, r)
  = (write base f (seqZ lo (hi - lo)) l, write base g (seqZ lo (hi - lo)) r).
Proof.
  unfold for_range, write. generalize (seqZ lo (hi - lo)) as xs.
  intros xs. revert l r. induction xs as [|x xs IH]; intros l r; [done|].
  cbn. apply IH.
Qed.

Lemma silence_spec N out :
  silence N out =
    {| channel0 := write 0 (fun _ => 0%float) (seqZ 0 N) (channel0 out);
       channel1 := write 0 (fun _ => 0%float) (seqZ 0 N) (channel1 out) |}.
Proof.
  unfold silence.
  rewrite (for_range_channels 0 N 0 (fun _ => 0%float) (fun _ => 0%float)).
  by rewrite Z.sub_0_r.
Qed.

(** Zeroing [0 .. length a) leaves an array of zeros. *)
Lemma write_zero_all a :
  write 0 (fun _ => 0%float) (seqZ 0 (Z.of_nat (length a))) a
  = replicate (length a) 0%float.
Proof.
  apply list_eq. intros j. rewrite write_lookup, existsb_seqZ.
  destruct (decide (j < length a)%nat) as [Hlt|Hge].
  - rewrite lookup_replicate_2 by done.
    rewrite (proj2 (Z.leb_le _ _)), (proj2 (Z.ltb_lt _ _)) by lia. done.
  - rewrite (proj1 (lookup_replicate_None _ _ _)) by lia.
    destruct (_ && _); [done|]. apply lookup_ge_None_2. lia.
Qed.
End Arrays.

(** * One iteration of the chunk loop *)

Section Iteration.
Context {E : Type} {lib : MainModule E}.
Implicit Types (n : IProcessNode) (e : E) (st : frames) (w : world E).

Lemma chunk_body_spec n e st :
  chunk_body n e st =
    (decoder n e st,
     {| outputL :=
          write (framesRendered st) zero
            (seqZ (produced n e st) (requested st - produced n e st))
            (write (framesRendered st)
               (fun i => to_float32 (subarray (decoder n e st)
                           (leftBufferPtr n) (produced n e st) i))
               (seqZ 0 (produced n e st - 0)) (outputL st));
        outputR :=
          write (framesRendered st) zero
            (seqZ (produced n e st) (requested st - produced n e st))
            (write (framesRendered st)
               (fun i => to_float32 (subarray (decoder n e st)
                           (rightBufferPtr n) (produced n e st) i))
               (seqZ 0 (produced n e st - 0)) (outputR st));
        framesToRender := framesToRender st - requested st;
        framesRendered := framesRendered st + requested st;
        ended := if produced n e st =? 0 then true else ended st;
        error := if produced n e st =? 0 then modulePtr n =? 0
                 else error st |},
     {| framesPerChunk := requested st;
        actualFramesPerChunk := produced n e st;
        rawAudioLeft :=
          subarray (decoder n e st) (leftBufferPtr n) (produced n e st);
        rawAudioRight :=
          subarray (decoder n e st) (rightBufferPtr n) (produced n e st);
        call := Call_read_float_stereo (modulePtr n) (sampleRate n)
                  (requested st) (leftBufferPtr n) (rightBufferPtr n)
                  (produced n e st) |}).
Proof.
  unfold chunk_body, produced, decoder, requested.
  destruct (_openmpt_module_read_float_stereo _ _ _ _ _ _) as [actual e1].
  cbn [fst snd].
  rewrite (for_range_channels 0 actual (framesRendered st)
             (fun i => to_float32 (subarray e1 (leftBufferPtr n) actual i))
             (fun i => to_float32 (subarray e1 (rightBufferPtr n) actual i))).
  rewrite (for_range_channels actual _ (framesRendered st) zero zero).
  by destruct (actual =? 0).
Qed.

(** The frames of one chunk, once its two loops have run: the samples
    the engine produced, then zeros up to the requested size.  Nothing
    below the write offset is touched. *)
Lemma chunk_written (fr req act : Z) (raw : Z -> float) (a : list float) :
  0 <= fr -> 0 <= act -> 0 <= req -> fr + req <= Z.of_nat (length a) ->
  take (Z.to_nat (fr + req))
    (write fr zero (seqZ act (req - act))
       (write fr raw (seqZ 0 (act - 0)) a))
  = take (Z.to_nat fr) a
    ++ map (fun i => if i <? act then raw i else 0%float) (seqZ 0 req).
Proof.
  intros Hfr Hact Hreq Hlen. apply list_eq. intros j.
  change (map ?f ?l) with (f <$> l).
  rewrite lookup_take, lookup_app, lookup_take, list_lookup_fmap.
  rewrite length_take_le by lia.
  rewrite !write_lookup, write_length, !existsb_seqZ.
  destruct (decide (j < Z.to_nat fr)%nat) as [Hlow|Hhigh].
  - rewrite decide_True by lia.
    rewrite (proj2 (Z.leb_gt act (Z.of_nat j - fr))) by lia.
    rewrite (proj2 (Z.leb_gt 0 (Z.of_nat j - fr))) by lia. cbn.
    destruct (a !! j) eqn:Hj; [done|].
    apply lookup_ge_None_1 in Hj. lia.
  - destruct (decide (j < Z.to_nat (fr + req))%nat) as [Hin|Hout].
    + rewrite lookup_seqZ_lt by lia. cbn.
      replace (0 + Z.of_nat (j - Z.to_nat fr)%nat) with (Z.of_nat j - fr)
        by lia.
      rewrite decide_True by lia.
      destruct (Z.ltb_spec (Z.of_nat j - fr) act).
      * rewrite (proj2 (Z.leb_gt act (Z.of_nat j - fr))) by lia. cbn.
        rewrite (proj2 (Z.leb_le 0 (Z.of_nat j - fr))),
          (proj2 (Z.ltb_lt (Z.of_nat j - fr) (0 + (act - 0)))) by lia.
        cbn. by rewrite decide_True by lia.
      * rewrite (proj2 (Z.leb_le act (Z.of_nat j - fr))),
          (proj2 (Z.ltb_lt (Z.of_nat j - fr) (act + (req - act)))) by lia.
        done.
    + rewrite lookup_seqZ_ge by lia. done.
Qed.
End Iteration.

(** * The chunk loop *)

Section Loop.
Context {E : Type} {lib : MainModule E}.
Implicit Types (n : IProcessNode) (e : E) (st : frames) (w : world E).

Lemma chunk_body_parts n e st :
  chunk_body n e st = (decoder n e st, advance n e st, rendered n e st).
Proof. unfold advance, rendered. by rewrite chunk_body_spec. Qed.

Lemma chunks_needed_exit N : N <= 0 -> chunks_needed N = 0%nat.
Proof.
  intros HN. unfold chunks_needed, maxFramesPerChunk.
  assert ((N + 4096 - 1) / 4096 <= 0); [|lia].
  Z.to_euclidean_division_equations. lia.
Qed.

Lemma chunks_needed_step N :
  0 < N ->
  chunks_needed N = S (chunks_needed (N - Z.min N maxFramesPerChunk)).
Proof.
  intros HN. unfold chunks_needed, maxFramesPerChunk.
  assert ((N + 4096 - 1) / 4096 =
          (N - Z.min N 4096 + 4096 - 1) / 4096 + 1
          /\ 0 <= (N - Z.min N 4096 + 4096 - 1) / 4096) as [-> ?]; [|lia].
  Z.to_euclidean_division_equations. lia.
Qed.

Lemma chunk_loop_exit fuel n e st :
  framesToRender st <= 0 -> chunk_loop fuel n e st = Some (e, st, []).
Proof.
  intros H. destruct fuel; cbn [chunk_loop];
    by rewrite Z.gtb_ltb, (proj2 (Z.ltb_ge _ _)) by lia.
Qed.

Lemma chunk_loop_enter fuel n e st :
  0 < framesToRender st ->
  chunk_loop (S fuel) n e st =
    match chunk_loop fuel n (decoder n e st) (advance n e st) with
    | Some (e2, st2, cs) => Some (e2, st2, rendered n e st :: cs)
    | None => None
    end.
Proof.
  intros H. cbn [chunk_loop].
  rewrite Z.gtb_ltb, (proj2 (Z.ltb_lt _ _)) by lia.
  by rewrite chunk_body_parts.
Qed.

Lemma advance_framesToRender n e st :
  framesToRender (advance n e st) = framesToRender st - requested st.
Proof. unfold advance. by rewrite chunk_body_spec. Qed.

Lemma advance_framesRendered n e st :
  framesRendered (advance n e st) = framesRendered st + requested st.
Proof. unfold advance. by rewrite chunk_body_spec. Qed.

Lemma advance_ended n e st :
  ended (advance n e st) = if produced n e st =? 0 then true else ended st.
Proof. unfold advance. by rewrite chunk_body_spec. Qed.

Lemma advance_error n e st :
  error (advance n e st) =
    if produced n e st =? 0 then modulePtr n =? 0 else error st.
Proof. unfold advance. by rewrite chunk_body_spec. Qed.

Lemma advance_outputL n e st :
  outputL (advance n e st) =
    write (framesRendered st) zero
      (seqZ (produced n e st) (requested st - produced n e st))
      (write (framesRendered st)
         (fun i => to_float32 (subarray (decoder n e st)
                     (leftBufferPtr n) (produced n e st) i))
         (seqZ 0 (produced n e st - 0)) (outputL st)).
Proof. unfold advance. by rewrite chunk_body_spec. Qed.

Lemma advance_outputR n e st :
  outputR (advance n e st) =
    write (framesRendered st) zero
      (seqZ (produced n e st) (requested st - produced n e st))
      (write (framesRendered st)
         (fun i => to_float32 (subarray (decoder n e st)
                     (rightBufferPtr n) (produced n e st) i))
         (seqZ 0 (produced n e st - 0)) (outputR st)).
Proof. unfold advance. by rewrite chunk_body_spec. Qed.

Lemma rendered_framesPerChunk n e st :
  framesPerChunk (rendered n e st) = requested st.
Proof. unfold rendered. by rewrite chunk_body_spec. Qed.

Lemma rendered_call n e st :
  call (rendered n e st) =
    Call_read_float_stereo (modulePtr n) (sampleRate n) (requested st)
      (leftBufferPtr n) (rightBufferPtr n) (produced n e st).
Proof. unfold rendered. by rewrite chunk_body_spec. Qed.

Lemma requested_positive st :
  0 < framesToRender st -> 0 < requested st <= maxFramesPerChunk.
Proof. unfold requested, maxFramesPerChunk. lia. Qed.

(** The loop always leaves: every iteration consumes a positive number
    of frames, so [fuel] at least the frames to render is enough, and
    the number of iterations is the number of chunks. *)
Lemma chunk_loop_total fuel n e st :
  framesToRender st <= Z.of_nat fuel ->
  exists e' st' cs,
    chunk_loop fuel n e st = Some (e', st', cs)
    /\ length cs = chunks_needed (framesToRender st)
    /\ framesToRender st' = Z.min (framesToRender st) 0
    /\ framesRendered st' = framesRendered st + Z.max (framesToRender st) 0
    /\ Forall (fun c => 0 < framesPerChunk c <= maxFramesPerChunk) cs.
Proof.
  revert e st. induction fuel as [|fuel IH]; intros e st Hfuel.
  - exists e, st, []. rewrite chunk_loop_exit, chunks_needed_exit by lia.
    repeat split; [lia..|constructor].
  - destruct (Z.le_gt_cases (framesToRender st) 0) as [Hexit|Hgo].
    { exists e, st, []. rewrite chunk_loop_exit, chunks_needed_exit by lia.
      repeat split; [lia..|constructor]. }
    pose proof (requested_positive st Hgo) as Hreq.
    destruct (IH (decoder n e st) (advance n e st))
      as (e' & st' & cs & Hrun & Hlen & Hto & Hdone & Hall).
    { rewrite advance_framesToRender. lia. }
    exists e', st', (rendered n e st :: cs).
    rewrite chunk_loop_enter, Hrun by lia.
    rewrite advance_framesToRender in Hlen, Hto, Hdone.
    rewrite advance_framesRendered in Hdone.
    unfold requested in *.
    repeat split.
    + cbn [length]. rewrite Hlen. symmetry. by apply chunks_needed_step.
    + lia.
    + lia.
    + constructor; [|done]. rewrite rendered_framesPerChunk.
      unfold requested. lia.
Qed.

(** The two flags after the loop, read off the calls it made. *)
Lemma chunk_loop_flags fuel n e st e' st' cs :
  chunk_loop fuel n e st = Some (e', st', cs) ->
  ended st' = ended st || existsb is_zero_frame_read (map call cs)
  /\ error st' = (if existsb is_zero_frame_read (map call cs)
                  then modulePtr n =? 0 else error st)
  /\ Forall (fun c => exists count actual,
               call c = Call_read_float_stereo (modulePtr n) (sampleRate n)
                          count (leftBufferPtr n) (rightBufferPtr n) actual)
            cs.
Proof.
  revert e st cs. induction fuel as [|fuel IH]; intros e st cs Hrun.
  - cbn [chunk_loop] in Hrun. destruct (framesToRender st >? 0); [done|].
    injection Hrun as <- <- <-. cbn. by rewrite orb_false_r.
  - destruct (Z.le_gt_cases (framesToRender st) 0) as [Hexit|Hgo].
    { rewrite chunk_loop_exit in Hrun by done.
      injection Hrun as <- <- <-. cbn. by rewrite orb_false_r. }
    rewrite chunk_loop_enter in Hrun by done.
    destruct (chunk_loop fuel n _ _) as [[[e2 st2] cs2]|] eqn:Hrest;
      [|done].
    injection Hrun as <- <- <-.
    destruct (IH _ _ _ Hrest) as (Hended & Herror & Hcalls).
    rewrite Hended, Herror, advance_ended, advance_error.
    cbn [map existsb]. rewrite rendered_call. cbn [is_zero_frame_read].
    repeat split.
    + by destruct (produced n e st =? 0), (ended st).
    + by destruct (produced n e st =? 0), (existsb _ _).
    + constructor; [|done]. rewrite rendered_call. eauto.
Qed.

(** The destination after the loop: what was below the write offset at
    entry, then the frames of the chunks in order. *)
Lemma chunk_loop_frames fuel n e st e' st' cs :
  counts_frames lib ->
  chunk_loop fuel n e st = Some (e', st', cs) ->
  0 <= framesRendered st -> 0 <= framesToRender st ->
  framesRendered st + framesToRender st = Z.of_nat (length (outputL st)) ->
  length (outputR st) = length (outputL st) ->
  outputL st' =
    take (Z.to_nat (framesRendered st)) (outputL st)
    ++ flat_map left_frames cs
  /\ outputR st' =
    take (Z.to_nat (framesRendered st)) (outputR st)
    ++ flat_map right_frames cs.
Proof.
  intros Hcount. revert e st cs.
  assert (forall e st, framesToRender st <= 0 -> 0 <= framesToRender st ->
            0 <= framesRendered st ->
            framesRendered st + framesToRender st
              = Z.of_nat (length (outputL st)) ->
            length (outputR st) = length (outputL st) ->
            outputL st = take (Z.to_nat (framesRendered st)) (outputL st)
                         ++ flat_map left_frames []
            /\ outputR st = take (Z.to_nat (framesRendered st)) (outputR st)
                         ++ flat_map right_frames []) as Hbase.
  { intros e st ? ? ? ? HR. cbn. rewrite !app_nil_r.
    rewrite !take_ge by lia. done. }
  induction fuel as [|fuel IH]; intros e st cs Hrun Hfr Hto Hsum HR.
  - cbn [chunk_loop] in Hrun.
    destruct (Z.gtb_spec (framesToRender st) 0); [done|].
    injection Hrun as <- <- <-. by apply Hbase.
  - destruct (Z.le_gt_cases (framesToRender st) 0) as [Hexit|Hgo].
    { rewrite chunk_loop_exit in Hrun by done.
      injection Hrun as <- <- <-. by apply Hbase. }
    rewrite chunk_loop_enter in Hrun by done.
    destruct (chunk_loop fuel n _ _) as [[[e2 st2] cs2]|] eqn:Hrest;
      [|done].
    injection Hrun as <- <- <-.
    pose proof (requested_positive st Hgo) as Hreq.
    assert (requested st <= framesToRender st) by (unfold requested; lia).
    assert (0 <= produced n e st) as Hact by apply Hcount.
    destruct (IH _ _ _ Hrest) as (HL & HRr).
    { rewrite advance_framesRendered. lia. }
    { rewrite advance_framesToRender. lia. }
    { rewrite advance_framesRendered, advance_framesToRender,
        advance_outputL, !write_length. lia. }
    { by rewrite advance_outputL, advance_outputR, !write_length. }
    rewrite HL, HRr, advance_framesRendered, advance_outputL,
      advance_outputR.
    rewrite !chunk_written by lia.
    cbn [flat_map]. rewrite <- !app_assoc. split; f_equal; f_equal.
    + unfold left_frames, rendered. by rewrite chunk_body_spec.
    + unfold right_frames, rendered. by rewrite chunk_body_spec.
Qed.

(** The frames of the chunks the loop goes through are what the engine
    decodes for the frames still to render: the samples it left in the
    scratch buffers below the count each read returned, zero above. *)
Lemma chunk_loop_decoded fuel n e st e' st' cs :
  chunk_loop fuel n e st = Some (e', st', cs) ->
  (flat_map left_frames cs, flat_map right_frames cs)
  = decoded fuel n e (framesToRender st).
Proof.
  revert e st cs. induction fuel as [|fuel IH]; intros e st cs Hrun.
  - cbn [chunk_loop] in Hrun. destruct (framesToRender st >? 0); [done|].
    by injection Hrun as <- <- <-.
  - destruct (Z.le_gt_cases (framesToRender st) 0) as [Hexit|Hgo].
    { rewrite chunk_loop_exit in Hrun by done.
      injection Hrun as <- <- <-. cbn [decoded].
      by rewrite (proj2 (Z.ltb_ge 0 _)) by lia. }
    rewrite chunk_loop_enter in Hrun by done.
    destruct (chunk_loop fuel n _ _) as [[[e2 st2] cs2]|] eqn:Hrest;
      [|done].
    injection Hrun as <- <- <-.
    specialize (IH _ _ _ Hrest). rewrite advance_framesToRender in IH.
    cbn [decoded flat_map]. rewrite (proj2 (Z.ltb_lt 0 _)) by lia.
    unfold left_frames at 1, right_frames at 1, rendered.
    rewrite chunk_body_spec.
    cbn [snd framesPerChunk actualFramesPerChunk rawAudioLeft rawAudioRight].
    unfold produced, decoder, requested in *.
    destruct (_openmpt_module_read_float_stereo _ _ _ _ _ _)
      as [actual e1].
    cbn [fst snd] in *. rewrite <- IH.
    f_equal; f_equal; apply map_ext_in; intros i Hi;
      apply list_elem_of_In, elem_of_seqZ in Hi;
      (destruct (Z.ltb_spec i actual); [|done]); unfold subarray;
      by rewrite (proj2 (Z.leb_le 0 i)), (proj2 (Z.ltb_lt i actual)) by lia.
Qed.
End Loop.

(** * Logs *)

Section Logs.
Context {E : Type} {lib : MainModule E}.
Implicit Types (w : world E) (l : list effect).

Lemma fired_app name l1 l2 :
  fired name (l1 ++ l2) = (fired name l1 + fired name l2)%nat.
Proof. unfold fired. by rewrite List.filter_app, length_app. Qed.

Lemma fired_none name l :
  Forall (fun x => is_fire name x = false) l -> fired name l = 0%nat.
Proof.
  unfold fired. induction 1 as [|x l Hx _ IH]; [done|].
  cbn. by rewrite Hx.
Qed.

Lemma silent_fired name l : silent l -> fired name l = 0%nat.
Proof.
  intros H. apply fired_none. eapply Forall_impl; [exact H|].
  by intros [] ?.
Qed.

Lemma readless_app l1 l2 : readless l1 -> readless l2 -> readless (l1 ++ l2).
Proof. intros. by apply Forall_app. Qed.

Lemma readless_not_in l m rate count lp rp actual :
  readless l -> ~ In (Call_read_float_stereo m rate count lp rp actual) l.
Proof.
  intros H Hin. unfold readless in H. rewrite Forall_forall in H.
  apply list_elem_of_In in Hin. exact (H _ Hin).
Qed.

Lemma readless_no_zero l : readless l -> existsb is_zero_frame_read l = false.
Proof.
  induction 1 as [|x l Hx _ IH]; [done|]. cbn. rewrite IH.
  by destruct x.
Qed.

Lemma cleanup_log w :
  snd (cleanup w) =
    (if modulePtr (node w) =? 0 then [] else [Call_destroy (modulePtr (node w))])
    ++ (if leftBufferPtr (node w) =? 0 then []
        else [Call_free (leftBufferPtr (node w))])
    ++ (if rightBufferPtr (node w) =? 0 then []
        else [Call_free (rightBufferPtr (node w))]).
Proof.
  destruct w as [[m l r] e]. unfold cleanup. cbn.
  destruct (m =? 0); cbn; destruct (l =? 0); cbn; by destruct (r =? 0).
Qed.

Lemma cleanup_node w :
  node (fst (cleanup w)) =
    set_rightBufferPtr 0 (set_leftBufferPtr 0 (set_modulePtr 0 (node w))).
Proof.
  destruct w as [[m l r] e]. unfold cleanup. cbn.
  destruct (Z.eqb_spec m 0); cbn; destruct (Z.eqb_spec l 0); cbn;
    destruct (Z.eqb_spec r 0); cbn; by subst.
Qed.

Lemma stop_log w :
  snd (stop w) =
    Disconnect
    :: snd (cleanup {| node := disconnect (node w); engine := engine w |}).
Proof. unfold stop. by destruct (cleanup _). Qed.

Lemma stop_node w :
  node (fst (stop w)) =
    set_rightBufferPtr 0
      (set_leftBufferPtr 0 (set_modulePtr 0 (disconnect (node w)))).
Proof.
  unfold stop.
  pose proof (cleanup_node {| node := disconnect (node w);
                              engine := engine w |}) as H.
  by destruct (cleanup _).
Qed.

(** [stop] written out: the node it leaves, the engine after the
    release calls it makes, and those calls in order. *)
Lemma stop_world w :
  stop w =
    ({| node := set_rightBufferPtr 0
                  (set_leftBufferPtr 0 (set_modulePtr 0 (disconnect (node w))));
        engine :=
          (let e2 := if modulePtr (node w) =? 0 then engine w
                     else _openmpt_module_destroy (modulePtr (node w))
                            (engine w) in
           let e3 := if leftBufferPtr (node w) =? 0 then e2
                     else _free (leftBufferPtr (node w)) e2 in
           if rightBufferPtr (node w) =? 0 then e3
           else _free (rightBufferPtr (node w)) e3) |},
     Disconnect
     :: (if modulePtr (node w) =? 0 then []
         else [Call_destroy (modulePtr (node w))])
     ++ (if leftBufferPtr (node w) =? 0 then []
         else [Call_free (leftBufferPtr (node w))])
     ++ (if rightBufferPtr (node w) =? 0 then []
         else [Call_free (rightBufferPtr (node w))])).
Proof.
  destruct w as [[m l r p pi nb pc pm sr c] e]. unfold stop, cleanup. cbn.
  destruct (Z.eqb_spec m 0); cbn; destruct (Z.eqb_spec l 0); cbn;
    destruct (Z.eqb_spec r 0); cbn; by subst.
Qed.

Lemma stop_silent w : silent (snd (stop w)) /\ readless (snd (stop w)).
Proof.
  rewrite stop_log, cleanup_log. cbn.
  destruct (modulePtr (node w) =? 0), (leftBufferPtr (node w) =? 0),
    (rightBufferPtr (node w) =? 0); cbn; split; repeat constructor.
Qed.

Lemma forEach_log k handlers name r w :
  let '(_, _, l) := forEach k handlers name r w in
  silent l /\ readless l.
Proof.
  revert k w. induction handlers as [|h rest IH]; intros k w; cbn.
  - split; constructor.
  - destruct (String.eqb _ _); [|apply IH].
    destruct (handler h r w) as [[] w1].
    + specialize (IH (S k) w1). destruct (forEach _ _ _ _ _) as [[c w2] l].
      destruct IH. split; by constructor.
    + split; repeat constructor.
Qed.

Lemma fireEvent_log handlers name r w :
  let '(_, _, l) := fireEvent handlers name r w in
  exists invoked, l = FireEvent name r :: invoked
                  /\ silent invoked /\ readless invoked.
Proof.
  unfold fireEvent. destruct (0 <? _).
  - pose proof (forEach_log 0 handlers name r w) as H.
    destruct (forEach _ _ _ _ _) as [[c w1] l]. eauto.
  - exists []. repeat split; constructor.
Qed.

Lemma fireEvent_forEach hs name r w :
  fireEvent hs name r w =
    (let '(c, w1, l) := forEach 0 hs name r w in (c, w1, FireEvent name r :: l)).
Proof. unfold fireEvent. by destruct hs. Qed.

Lemma forEach_app k hs hs' name r w :
  forEach k (hs ++ hs') name r w =
    match forEach k hs name r w with
    | (Normal, w1, l) =>
        let '(c, w2, l') := forEach (k + length hs) hs' name r w1 in
        (c, w2, l ++ l')
    | (Thrown, w1, l) => (Thrown, w1, l)
    end.
Proof.
  revert k w. induction hs as [|g rest IH]; intros k w.
  - cbn [app forEach length]. rewrite Nat.add_0_r.
    by destruct (forEach k hs' name r w) as [[c w2] l'].
  - cbn [app forEach length].
    replace (k + S (length rest))%nat with (S k + length rest)%nat by lia.
    destruct (String.eqb _ _); [|apply IH].
    destruct (handler g r w) as [[] w1]; [|done].
    rewrite IH. destruct (forEach (S k) rest name r w1) as [[[] w2] l]; [|done].
    by destruct (forEach _ hs' name r w2) as [[c w3] l'].
Qed.

Lemma calls_silent (cs : list chunk) m rate lp rp :
  Forall (fun c => exists count actual,
            call c = Call_read_float_stereo m rate count lp rp actual) cs ->
  silent (map call cs).
Proof.
  induction 1 as [|c cs (count & actual & Hc) _ IH]; [constructor|].
  cbn. constructor; [by rewrite Hc|done].
Qed.
End Logs.

(** * The render step *)

Section Callback.
Context {E : Type} {lib : MainModule E}.
Implicit Types (n : IProcessNode) (e : E) (st : frames) (w : world E).
Implicit Types (hs : list (registration E)) (out : AudioBuffer).

Lemma chunk_loop_lengths fuel n e st e' st' cs :
  chunk_loop fuel n e st = Some (e', st', cs) ->
  length (outputL st') = length (outputL st)
  /\ length (outputR st') = length (outputR st).
Proof.
  revert e st cs. induction fuel as [|fuel IH]; intros e st cs Hrun.
  - cbn [chunk_loop] in Hrun. destruct (framesToRender st >? 0); [done|].
    by injection Hrun as <- <- <-.
  - destruct (Z.le_gt_cases (framesToRender st) 0) as [Hexit|Hgo].
    { rewrite chunk_loop_exit in Hrun by done.
      by injection Hrun as <- <- <-. }
    rewrite chunk_loop_enter in Hrun by done.
    destruct (chunk_loop fuel n _ _) as [[[e2 st2] cs2]|] eqn:Hrest;
      [|done].
    injection Hrun as <- <- <-.
    destruct (IH _ _ _ Hrest) as [-> ->].
    by rewrite advance_outputL, advance_outputR, !write_length.
Qed.

Lemma render_chunks_runs hs out w :
  exists e1 st1 cs,
    chunk_loop (length (channel0 out)) (node w) (engine w) (entry out)
      = Some (e1, st1, cs)
    /\ render_chunks hs out w =
         (let '(c, w2, log2) :=
            end_of_stream hs st1 {| node := node w; engine := e1 |} in
          Some (c, w2,
                {| channel0 := outputL st1; channel1 := outputR st1 |},
                map call cs ++ log2)).
Proof.
  destruct (chunk_loop_total (length (channel0 out)) (node w) (engine w)
              (entry out)) as (e1 & st1 & cs & Hrun & _); [cbn; lia|].
  exists e1, st1, cs. split; [done|].
  unfold render_chunks. rewrite Nat2Z.id.
  change {| outputL := channel0 out; outputR := channel1 out;
            framesToRender := Z.of_nat (length (channel0 out));
            framesRendered := 0; ended := false; error := false |}
    with (entry out).
  by rewrite Hrun.
Qed.

Lemma render_chunks_rendering hs out w :
  counts_frames lib -> well_formed out ->
  exists c w' out' l,
    render_chunks hs out w = Some (c, w', out', l)
    /\ rendering out (node w) (engine w) out'.
Proof.
  intros Hcount Hwf.
  destruct (render_chunks_runs hs out w) as (e1 & st1 & cs & Hrun & ->).
  destruct (end_of_stream _ _ _) as [[c w2] log2].
  exists c, w2, {| channel0 := outputL st1; channel1 := outputR st1 |},
    (map call cs ++ log2).
  split; [done|].
  destruct (chunk_loop_frames _ _ _ _ _ _ _ Hcount Hrun)
    as [HL HR]; [cbn; lia..|done|].
  destruct (chunk_loop_lengths _ _ _ _ _ _ _ Hrun) as [HlenL HlenR].
  pose proof (chunk_loop_decoded _ _ _ _ _ _ _ Hrun) as Hdecoded.
  unfold entry in HL, HR, HlenL, HlenR, Hdecoded.
  cbn in HL, HR, HlenL, HlenR, Hdecoded. unfold rendering. cbn.
  rewrite <- Hdecoded. cbn [fst snd].
  repeat split; [done|done|done|]. by rewrite HlenR.
Qed.
End Callback.

(** * The end of the stream, and what precedes the loop *)

Section Stages.
Context {E : Type} {lib : MainModule E}.
Implicit Types (n : IProcessNode) (e : E) (st : frames) (w : world E).
Implicit Types (hs : list (registration E)) (out : AudioBuffer).

Lemma terminal_fired m invoked :
  silent invoked ->
  fired "onEnded" (FireEvent (fst (terminal m)) (snd (terminal m)) :: invoked)
    = (if m =? 0 then 0%nat else 1%nat)
  /\ fired "onError"
       (FireEvent (fst (terminal m)) (snd (terminal m)) :: invoked)
    = (if m =? 0 then 1%nat else 0%nat).
Proof.
  intros H. unfold terminal.
  change (?x :: invoked) with ([x] ++ invoked).
  rewrite !fired_app, !(silent_fired _ invoked H).
  by destruct (m =? 0).
Qed.

(** A zero-frame read in the log of [render_chunks]: the loop that made
    it, the teardown of the session as the loop left it, and the one
    dispatch that follows, whose outcome is the outcome of the step. *)
Lemma render_chunks_teardown hs out w c w' out' l m rate count lp rp :
  render_chunks hs out w = Some (c, w', out', l) ->
  In (Call_read_float_stereo m rate count lp rp 0) l ->
  exists e1 st1 cs invoked,
    chunk_loop (length (channel0 out)) (node w) (engine w) (entry out)
      = Some (e1, st1, cs)
    /\ m = modulePtr (node w)
    /\ lp = leftBufferPtr (node w)
    /\ rp = rightBufferPtr (node w)
    /\ l = map call cs
           ++ snd (stop {| node := node w; engine := e1 |})
           ++ FireEvent (fst (terminal m)) (snd (terminal m)) :: invoked
    /\ silent (map call cs)
    /\ silent invoked
    /\ fireEvent hs (fst (terminal m)) (snd (terminal m))
         (fst (stop {| node := node w; engine := e1 |}))
       = (c, w', FireEvent (fst (terminal m)) (snd (terminal m))
                 :: invoked).
Proof.
  intros Hrender Hin.
  destruct (render_chunks_runs hs out w) as (e1 & st1 & cs & Hrun & Heq).
  rewrite Heq in Hrender. clear Heq.
  destruct (chunk_loop_flags _ _ _ _ _ _ _ Hrun)
    as (Hended & Herror & Hcalls).
  cbn [entry ended error] in Hended, Herror.
  set (w0 := {| node := node w; engine := e1 |}) in *.
  assert (In (Call_read_float_stereo m rate count lp rp 0) (map call cs)
          \/ ended st1 = true) as Hzero.
  { unfold end_of_stream in Hrender. destruct (ended st1); [by right|].
    injection Hrender as <- <- <- <-. rewrite app_nil_r in Hin. by left. }
  assert (ended st1 = true
          /\ m = modulePtr (node w) /\ lp = leftBufferPtr (node w)
          /\ rp = rightBufferPtr (node w)) as (Hend & -> & -> & ->).
  { unfold end_of_stream in Hrender. destruct (ended st1) eqn:Hst.
    - split; [done|].
      destruct (stop w0) as [w1 log1] eqn:Hstop.
      pose proof (stop_silent w0) as [_ Hreadless1].
      rewrite Hstop in Hreadless1. cbn [snd] in Hreadless1.
      assert (exists name r, (if error st1
                then fireEvent hs "onError" (Some (ErrorType "openmpt")) w1
                else fireEvent hs "onEnded" None w1)
               = fireEvent hs name r w1) as (name & r & Hfire).
      { destruct (error st1); eauto. }
      rewrite Hfire in Hrender.
      pose proof (fireEvent_log hs name r w1) as Hlog.
      destruct (fireEvent hs name r w1) as [[c2 w2] log2].
      destruct Hlog as (invoked & -> & _ & Hreadless2).
      injection Hrender as <- <- <- <-.
      apply in_app_or in Hin as [Hin|Hin].
      + rewrite Forall_forall in Hcalls.
        apply in_map_iff in Hin as (x & Hx & Hxin).
        apply list_elem_of_In in Hxin.
        destruct (Hcalls _ Hxin) as (count' & actual' & Hshape).
        rewrite Hshape in Hx. by injection Hx as <- _ _ <- <- _.
      + exfalso. apply in_app_or in Hin as [Hin|Hin].
        * exact (readless_not_in _ _ _ _ _ _ _ Hreadless1 Hin).
        * destruct Hin as [Hin|Hin]; [done|].
          exact (readless_not_in _ _ _ _ _ _ _ Hreadless2 Hin).
    - destruct Hzero as [Hin'|]; [|done].
      assert (existsb is_zero_frame_read (map call cs) = true) as Hex.
      { apply existsb_exists. eexists. split; [exact Hin'|done]. }
      by rewrite Hex in Hended. }
  assert (existsb is_zero_frame_read (map call cs) = true) as Hex.
  { rewrite Hended in Hend. done. }
  rewrite Hex in Herror.
  unfold end_of_stream in Hrender. rewrite Hend, Herror in Hrender.
  destruct (stop w0) as [w1 log1] eqn:Hstop.
  assert ((if modulePtr (node w) =? 0
           then fireEvent hs "onError" (Some (ErrorType "openmpt")) w1
           else fireEvent hs "onEnded" None w1)
          = fireEvent hs (fst (terminal (modulePtr (node w))))
              (snd (terminal (modulePtr (node w)))) w1) as Hfire.
  { unfold terminal. by destruct (modulePtr (node w) =? 0). }
  rewrite Hfire in Hrender.
  pose proof (fireEvent_log hs (fst (terminal (modulePtr (node w))))
                (snd (terminal (modulePtr (node w)))) w1) as Hlog.
  destruct (fireEvent hs _ _ w1) as [[c2 w2] log2] eqn:Hdispatch.
  destruct Hlog as (invoked & -> & Hsilent & _).
  injection Hrender as <- <- <- <-.
  exists e1, st1, cs, invoked. fold w0. rewrite Hstop. cbn [fst snd].
  repeat split; try done.
  by eapply calls_silent.
Qed.

Lemma render_chunks_end hs out w c w' out' l m rate count lp rp :
  render_chunks hs out w = Some (c, w', out', l) ->
  In (Call_read_float_stereo m rate count lp rp 0) l ->
  exists reads w0 invoked,
    l = reads ++ snd (stop w0)
        ++ FireEvent (fst (terminal m)) (snd (terminal m)) :: invoked
    /\ node w0 = node w
    /\ modulePtr (node w0) = m
    /\ silent reads
    /\ silent invoked
    /\ fireEvent hs (fst (terminal m)) (snd (terminal m)) (fst (stop w0))
       = (c, w', FireEvent (fst (terminal m)) (snd (terminal m))
                 :: invoked).
Proof.
  intros Hrender Hin.
  destruct (render_chunks_teardown _ _ _ _ _ _ _ _ _ _ _ _ Hrender Hin)
    as (e1 & st1 & cs & invoked & _ & -> & _ & _ & -> & Hreads & Hinv
        & Hfire).
  by exists (map call cs), {| node := node w; engine := e1 |}, invoked.
Qed.

(** The log and the session after [announce]. *)
Lemma announce_log hs w :
  let '(_, _, l) := Part000.announce hs w in
  fired "onEnded" l = 0%nat /\ fired "onError" l = 0%nat /\ readless l.
Proof.
  unfold Part000.announce.
  destruct (_openmpt_module_get_current_pattern _ _) as [currentPattern e1].
  destruct (_openmpt_module_get_current_row _ _) as [currentRow e2].
  set (w2 := {| node := node w; engine := e2 |}).
  assert (exists c3 w3 log3,
            (if negb (currentPattern =? patternIndex (node w))
             then fireEvent hs "onPatternChange" None w2
             else (Normal, w2, [])) = (c3, w3, log3)
            /\ fired "onEnded" log3 = 0%nat /\ fired "onError" log3 = 0%nat
            /\ readless log3) as (c3 & w3 & log3 & -> & H1 & H2 & H3).
  { destruct (negb _).
    - pose proof (fireEvent_log hs "onPatternChange" None w2) as Hlog.
      destruct (fireEvent _ _ _ _) as [[c3 w3] log3].
      destruct Hlog as (invoked & -> & Hs & Hr).
      exists c3, w3, (FireEvent "onPatternChange" None :: invoked).
      change (?x :: invoked) with ([x] ++ invoked).
      rewrite !fired_app, !(silent_fired _ invoked Hs).
      repeat split; try done. by constructor.
    - exists Normal, w2, []. repeat split; constructor. }
  destruct c3.
  - pose proof (fireEvent_log hs "onRowChange"
                  (Some (RowIndex currentRow)) w3) as Hlog.
    destruct (fireEvent _ _ _ _) as [[c4 w4] log4].
    destruct Hlog as (invoked & -> & Hs & Hr).
    change (?x :: invoked) with ([x] ++ invoked).
    rewrite !fired_app, !(silent_fired _ invoked Hs), H1, H2.
    repeat split; try done.
    repeat (apply readless_app || constructor); done.
  - rewrite !fired_app, H1, H2. repeat split; try done.
    repeat (apply readless_app || constructor); done.
Qed.

Lemma forEach_keeps_handle k hs name r w :
  Forall (fun h => eventName h = name -> keeps_handle h) hs ->
  modulePtr (node w) <> 0 ->
  modulePtr (node (snd (fst (forEach k hs name r w)))) <> 0.
Proof.
  intros Hall. revert k w.
  induction Hall as [|h rest Hh _ IH]; intros k w Hlive; [done|].
  cbn [forEach]. destruct (String.eqb_spec (eventName h) name) as [Hname|].
  - specialize (Hh Hname r w Hlive).
    destruct (handler h r w) as [[] w1]; cbn [snd] in Hh; [|done].
    specialize (IH (S k) w1 Hh).
    by destruct (forEach _ _ _ _ _) as [[c w2] l].
  - by apply IH.
Qed.

Lemma fireEvent_keeps_handle hs name r w :
  Forall (fun h => eventName h = name -> keeps_handle h) hs ->
  modulePtr (node w) <> 0 ->
  modulePtr (node (snd (fst (fireEvent hs name r w)))) <> 0.
Proof.
  intros Hall Hlive. unfold fireEvent. destruct (0 <? _); [|done].
  pose proof (forEach_keeps_handle 0 hs name r w Hall Hlive).
  by destruct (forEach _ _ _ _ _) as [[c w1] l].
Qed.

Lemma announce_keeps_handle hs w :
  Forall (fun h => runs_before_loop h -> keeps_handle h) hs ->
  modulePtr (node w) <> 0 ->
  modulePtr (node (snd (fst (Part000.announce hs w)))) <> 0.
Proof.
  intros Hall Hlive. unfold Part000.announce.
  destruct (_openmpt_module_get_current_pattern _ _) as [currentPattern e1].
  destruct (_openmpt_module_get_current_row _ _) as [currentRow e2].
  set (w2 := {| node := node w; engine := e2 |}).
  assert (modulePtr (node
            (snd (fst (if negb (currentPattern =? patternIndex (node w))
                       then fireEvent hs "onPatternChange" None w2
                       else (Normal, w2, []))))) <> 0) as H3.
  { destruct (negb _); [|done]. apply fireEvent_keeps_handle; [|done].
    eapply Forall_impl; [exact Hall|]. intros h Hh Hname. apply Hh.
    by left. }
  destruct (if negb _ then _ else _) as [[c3 w3] log3]. cbn [fst snd] in H3.
  destruct c3; [|done].
  pose proof (fireEvent_keeps_handle hs "onRowChange"
                (Some (RowIndex currentRow)) w3) as H4.
  destruct (fireEvent _ _ _ _) as [[c4 w4] log4]. apply H4; [|done].
  eapply Forall_impl; [exact Hall|]. intros h Hh Hname. apply Hh. by right.
Qed.

(** The four ways through the render step of part_000. *)
Lemma Part000_onaudioprocess_cases hs now out w r :
  Part000.onaudioprocess hs now out w = Some r ->
  (modulePtr (node w) = 0 /\ log r = snd (stop w))
  \/ (modulePtr (node w) <> 0 /\ paused (node w) = true /\ log r = [])
  \/ (modulePtr (node w) <> 0 /\ paused (node w) = false
      /\ exists w4 l4,
           Part000.announce hs w = (Thrown, w4, l4)
           /\ log r = l4 /\ result r = Thrown /\ output r = out)
  \/ (modulePtr (node w) <> 0 /\ paused (node w) = false
      /\ exists w4 l4 c w5 out5 l5,
           Part000.announce hs w = (Normal, w4, l4)
           /\ render_chunks hs out w4 = Some (c, w5, out5, l5)
           /\ log r = l4 ++ l5 /\ result r = c /\ output r = out5).
Proof.
  unfold Part000.onaudioprocess.
  destruct (Z.eqb_spec (modulePtr (node w)) 0) as [Hdead|Hlive].
  { destruct (stop w) as [w1 log1]. intros [= <-]. by left. }
  destruct (paused (node w)) eqn:Hpaused.
  { intros [= <-]. right. by left. }
  destruct (Part000.announce hs w) as [[[] w4] l4].
  - destruct (render_chunks hs out w4) as [[[[[] w5] out5] l5]|] eqn:Hr;
      [| |done]; intros [= <-]; do 3 right; repeat split; try done;
      by repeat eexists.
  - intros [= <-]. do 2 right. left. repeat split; try done.
    by repeat eexists.
Qed.

(** The callback of part_000 once it has reached the loop: its log and
    its completion are those of the stages, and the session it leaves
    is the one the last stage left, up to the timing statistics. *)
Lemma Part000_onaudioprocess_after hs now out w r w4 l4 c w5 out5 l5 :
  Part000.onaudioprocess hs now out w = Some r ->
  modulePtr (node w) <> 0 ->
  paused (node w) = false ->
  Part000.announce hs w = (Normal, w4, l4) ->
  render_chunks hs out w4 = Some (c, w5, out5, l5) ->
  log r = l4 ++ l5
  /\ result r = c
  /\ output r = out5
  /\ engine (after r) = engine w5
  /\ forget_perf (node (after r)) = forget_perf (node w5).
Proof.
  unfold Part000.onaudioprocess. intros Hrun Hlive Hpaused Ha Hr.
  rewrite (proj2 (Z.eqb_neq _ _) Hlive), Hpaused, Ha, Hr in Hrun.
  destruct c; injection Hrun as <-; cbn; repeat split; done.
Qed.

Lemma Index_onaudioprocess_cases hs out w r :
  Index.onaudioprocess hs out w = Some r ->
  (modulePtr (node w) = 0 /\ log r = snd (stop w))
  \/ (modulePtr (node w) <> 0 /\ paused (node w) = true /\ log r = [])
  \/ (modulePtr (node w) <> 0 /\ paused (node w) = false
      /\ exists c w5 out5 l5,
           render_chunks hs out w = Some (c, w5, out5, l5)
           /\ log r = l5 /\ result r = c /\ output r = out5).
Proof.
  unfold Index.onaudioprocess.
  destruct (Z.eqb_spec (modulePtr (node w)) 0) as [Hdead|Hlive].
  { destruct (stop w) as [w1 log1]. intros [= <-]. by left. }
  destruct (paused (node w)) eqn:Hpaused.
  { intros [= <-]. right. by left. }
  destruct (render_chunks hs out w) as [[[[c w5] out5] l5]|] eqn:Hr;
    [|done].
  intros [= <-]. do 2 right. repeat split; try done. by repeat eexists.
Qed.
End Stages.

(** * Properties of the sources *)

Section Claims.
Context {E : Type} {lib : MainModule E}.
Implicit Types (n : IProcessNode) (e : E) (st : frames) (w : world E).
Implicit Types (hs : list (registration E)) (out : AudioBuffer).

(** Every callback returns to the host: the fuel the render step gives
    its loop is enough. *)
Lemma Index_onaudioprocess_returns hs out w :
  exists r, Index.onaudioprocess hs out w = Some r.
Proof.
  unfold Index.onaudioprocess.
  destruct (modulePtr (node w) =? 0); [destruct (stop w); eauto|].
  destruct (paused (node w)); [eauto|].
  destruct (render_chunks_runs hs out w) as (e1 & st1 & cs & _ & ->).
  destruct (end_of_stream _ _ _) as [[c w2] log2]. eauto.
Qed.

Lemma Part000_onaudioprocess_returns hs now out w :
  exists r, Part000.onaudioprocess hs now out w = Some r.
Proof.
  unfold Part000.onaudioprocess.
  destruct (modulePtr (node w) =? 0); [destruct (stop w); eauto|].
  destruct (paused (node w)); [eauto|].
  destruct (Part000.announce hs w) as [[[] w4] l4]; [|eauto].
  destruct (render_chunks_runs hs out w4) as (e1 & st1 & cs & _ & ->).
  destruct (end_of_stream _ _ _) as [[[] w2] log2]; eauto.
Qed.

(** The render step of part_000 has no assignment to [patternIndex]:
    with no handler registered, the value stored before a callback is
    the value stored after it. *)
Lemma patternIndex_never_assigned now out w r :
  Part000.onaudioprocess [] now out w = Some r ->
  patternIndex (node (after r)) = patternIndex (node w).
Proof.
  unfold Part000.onaudioprocess.
  destruct (modulePtr (node w) =? 0).
  { pose proof (stop_node w) as Hn. destruct (stop w) as [w1 l1].
    intros [= <-]. cbn [after fst] in *. by rewrite Hn. }
  destruct (paused (node w)); [by intros [= <-]|].
  unfold Part000.announce.
  destruct (_openmpt_module_get_current_pattern _ _) as [currentPattern e1].
  destruct (_openmpt_module_get_current_row _ _) as [currentRow e2].
  set (w2 := {| node := node w; engine := e2 |}).
  assert ((if negb (currentPattern =? patternIndex (node w))
           then fireEvent [] "onPatternChange" None w2
           else (Normal, w2, []))
          = (Normal, w2,
             if negb (currentPattern =? patternIndex (node w))
             then [FireEvent "onPatternChange" None] else [])) as ->
    by (by destruct (negb _)).
  change (fireEvent [] "onRowChange" (Some (RowIndex currentRow)) w2)
    with (Normal, w2, [FireEvent "onRowChange" (Some (RowIndex currentRow))]).
  cbv beta iota zeta.
  destruct (render_chunks_runs [] out w2) as (e3 & st3 & cs & _ & ->).
  unfold end_of_stream. destruct (ended st3).
  - pose proof (stop_node {| node := node w2; engine := e3 |}) as Hn.
    destruct (stop _) as [w4 l4]. cbn [fst node] in Hn.
    destruct (error st3); cbn; intros [= <-]; cbn; by rewrite Hn.
  - intros [= <-]. done.
Qed.

(** C8.  [cleanup] is idempotent.  From any session state the first call
    releases each of the three resources that is still held, each under
    its own guard, and leaves the three pointers zero; called again on
    the state it left, it makes no destroy call and no free call and
    changes nothing. *)
Theorem cleanup_idempotent w :
  cleanup (fst (cleanup w)) = (fst (cleanup w), [])
  /\ modulePtr (node (fst (cleanup w))) = 0
  /\ leftBufferPtr (node (fst (cleanup w))) = 0
  /\ rightBufferPtr (node (fst (cleanup w))) = 0
  /\ snd (cleanup w) =
       (if modulePtr (node w) =? 0 then []
        else [Call_destroy (modulePtr (node w))])
       ++ (if leftBufferPtr (node w) =? 0 then []
           else [Call_free (leftBufferPtr (node w))])
       ++ (if rightBufferPtr (node w) =? 0 then []
           else [Call_free (rightBufferPtr (node w))]).
Proof.
  split; [|rewrite cleanup_node; repeat split; apply cleanup_log].
  pose proof (cleanup_node w) as Hnode.
  destruct (cleanup w) as [[n1 e1] l1]. cbn [fst node] in *. subst n1.
  reflexivity.
Qed.

(** C7.  With a live handle and the paused flag set, the render step of
    either source fills both channels of the destination with zero and
    returns: no engine call, no dispatch, no teardown, and the session
    and the engine are what they were. *)
Theorem paused_renders_silence hs now out w :
  well_formed out ->
  modulePtr (node w) <> 0 ->
  paused (node w) = true ->
  let quiet :=
    {| result := Normal; after := w;
       output := {| channel0 := replicate (length (channel0 out)) 0%float;
                    channel1 := replicate (length (channel0 out)) 0%float |};
       log := [] |} in
  Index.onaudioprocess hs out w = Some quiet
  /\ Part000.onaudioprocess hs now out w = Some quiet.
Proof.
  intros Hwf Hlive Hpaused quiet.
  assert (silence (Z.of_nat (length (channel0 out))) out = output quiet)
    as Hsilence.
  { rewrite silence_spec. cbn. f_equal; [apply write_zero_all|].
    rewrite <- Hwf. apply write_zero_all. }
  unfold Index.onaudioprocess, Part000.onaudioprocess.
  rewrite (proj2 (Z.eqb_neq _ _) Hlive), Hpaused, Hsilence. done.
Qed.


(** C3.  When the log of a render step of part_000 shows a read that
    returned zero frames, made with the handle [m] and the scratch
    buffers [lp] and [rp], the step dispatches one terminal event:
    [onEnded] once and [onError] never when [m] is non-zero, [onError]
    with [{ type: 'openmpt' }] once and [onEnded] never when [m] is
    zero.  The read was made by the chunk loop on the session the two
    earlier dispatches left.  After the reads of the loop the log holds
    the disconnect, the destroy call if [m] is non-zero and the free of
    each scratch buffer held, and only then the terminal dispatch.  Its
    handlers are run on the session disconnected with its three
    pointers zero, on the engine after those release calls, and how
    that dispatch ends is how the callback ends: same completion, same
    engine, same session up to the timing statistics. *)
Theorem zero_frame_read_ends_session hs now out w r m rate count lp rp :
  Part000.onaudioprocess hs now out w = Some r ->
  In (Call_read_float_stereo m rate count lp rp 0) (log r) ->
  fired "onEnded" (log r) = (if m =? 0 then 0%nat else 1%nat)
  /\ fired "onError" (log r) = (if m =? 0 then 1%nat else 0%nat)
  /\ snd (terminal m) = (if m =? 0 then Some (ErrorType "openmpt") else None)
  /\ exists w4 l4 e1 st1 cs w' invoked,
       Part000.announce hs w = (Normal, w4, l4)
       /\ chunk_loop (length (channel0 out)) (node w4) (engine w4)
            (entry out) = Some (e1, st1, cs)
       /\ modulePtr (node w4) = m
       /\ leftBufferPtr (node w4) = lp
       /\ rightBufferPtr (node w4) = rp
       /\ log r = (l4 ++ map call cs)
                  ++ (Disconnect
                      :: (if m =? 0 then [] else [Call_destroy m])
                      ++ (if lp =? 0 then [] else [Call_free lp])
                      ++ (if rp =? 0 then [] else [Call_free rp]))
                  ++ FireEvent (fst (terminal m)) (snd (terminal m))
                     :: invoked
       /\ fired "onEnded" (l4 ++ map call cs) = 0%nat
       /\ fired "onError" (l4 ++ map call cs) = 0%nat
       /\ silent invoked
       /\ let e2 := if m =? 0 then e1 else _openmpt_module_destroy m e1 in
          let e3 := if lp =? 0 then e2 else _free lp e2 in
          let e4 := if rp =? 0 then e3 else _free rp e3 in
          let seen :=
            {| node := set_rightBufferPtr 0
                         (set_leftBufferPtr 0
                            (set_modulePtr 0 (disconnect (node w4))));
               engine := e4 |} in
          connected (node seen) = false
          /\ modulePtr (node seen) = 0
          /\ leftBufferPtr (node seen) = 0
          /\ rightBufferPtr (node seen) = 0
          /\ fireEvent hs (fst (terminal m)) (snd (terminal m)) seen
             = (result r, w',
                FireEvent (fst (terminal m)) (snd (terminal m)) :: invoked)
          /\ engine (after r) = engine w'
          /\ forget_perf (node (after r)) = forget_perf (node w').
Proof.
  intros Hrun Hin.
  destruct (Part000_onaudioprocess_cases _ _ _ _ _ Hrun)
    as [(_ & Hlog)|[(_ & _ & Hlog)|[(_ & _ & w4 & l4 & Ha & Hlog & _)
       |(Hlive & Hpaused & w4 & l4 & c & w5 & out5 & l5 & Ha & Hr & _)]]].
  - exfalso. rewrite Hlog in Hin.
    exact (readless_not_in _ _ _ _ _ _ _ (proj2 (stop_silent w)) Hin).
  - by rewrite Hlog in Hin.
  - exfalso. rewrite Hlog in Hin. pose proof (announce_log hs w) as Hl.
    rewrite Ha in Hl. destruct Hl as (_ & _ & Hl).
    exact (readless_not_in _ _ _ _ _ _ _ Hl Hin).
  - destruct (Part000_onaudioprocess_after _ _ _ _ _ _ _ _ _ _ _
                Hrun Hlive Hpaused Ha Hr)
      as (Hlog & Hc & _ & Hengine & Hnode).
    pose proof (announce_log hs w) as Hl. rewrite Ha in Hl.
    destruct Hl as (Hl1 & Hl2 & Hl3).
    rewrite Hlog in Hin |- *. apply in_app_or in Hin as [Hin|Hin].
    { exfalso. exact (readless_not_in _ _ _ _ _ _ _ Hl3 Hin). }
    destruct (render_chunks_teardown _ _ _ _ _ _ _ _ _ _ _ _ Hr Hin)
      as (e1 & st1 & cs & invoked & Hloop & Hm & Hlp & Hrp & -> & Hreads
          & Hinv & Hfire).
    rewrite stop_world in Hfire |- *. cbn [fst snd node engine] in Hfire |- *.
    rewrite <- Hm, <- Hlp, <- Hrp in Hfire |- *.
    destruct (terminal_fired m invoked Hinv) as [Hended Herror].
    assert (silent (Disconnect
                    :: (if m =? 0 then [] else [Call_destroy m])
                    ++ (if lp =? 0 then [] else [Call_free lp])
                    ++ (if rp =? 0 then [] else [Call_free rp]))) as Hstop.
    { destruct (m =? 0), (lp =? 0), (rp =? 0); repeat constructor. }
    split; [|split; [|split]].
    + rewrite !fired_app, Hl1, !(silent_fired _ _ Hreads),
        !(silent_fired _ _ Hstop), Hended. done.
    + rewrite !fired_app, Hl2, !(silent_fired _ _ Hreads),
        !(silent_fired _ _ Hstop), Herror. done.
    + unfold terminal. by destruct (m =? 0).
    + exists w4, l4, e1, st1, cs, w5, invoked.
      rewrite !fired_app, Hl1, Hl2, !(silent_fired _ _ Hreads), <- app_assoc,
        Hc.
      repeat split; try done.
Qed.

(** The log of [render_chunks]: either no read returned zero frames and
    nothing was dispatched, or some read made with the session's handle
    returned zero frames. *)
Lemma render_chunks_log hs out w c w' out' l :
  render_chunks hs out w = Some (c, w', out', l) ->
  (existsb is_zero_frame_read l = false /\ silent l)
  \/ (exists rate count lp rp,
        In (Call_read_float_stereo (modulePtr (node w)) rate count lp rp 0)
           l).
Proof.
  intros Hrender.
  destruct (render_chunks_runs hs out w) as (e1 & st1 & cs & Hrun & Heq).
  rewrite Heq in Hrender. clear Heq.
  destruct (chunk_loop_flags _ _ _ _ _ _ _ Hrun)
    as (Hended & _ & Hcalls).
  cbn [entry ended] in Hended.
  destruct (existsb is_zero_frame_read (map call cs)) eqn:Hex.
  - right. apply existsb_exists in Hex as (x & Hx & Hzero).
    pose proof Hx as Hx'.
    apply in_map_iff in Hx' as (ch & Hch & Hchin).
    rewrite Forall_forall in Hcalls. apply list_elem_of_In in Hchin.
    destruct (Hcalls _ Hchin) as (count & actual & Hshape).
    rewrite Hshape in Hch. subst x. cbn in Hzero.
    apply Z.eqb_eq in Hzero. subst actual.
    destruct (end_of_stream _ _ _) as [[c2 w2] log2].
    injection Hrender as <- <- <- <-.
    do 4 eexists. apply in_or_app. left. exact Hx.
  - left. unfold end_of_stream in Hrender. rewrite Hended in Hrender.
    cbn in Hrender. injection Hrender as <- <- <- <-.
    rewrite app_nil_r. split; [done|]. by eapply calls_silent.
Qed.

Lemma render_chunks_live hs out w c w' out' l :
  render_chunks hs out w = Some (c, w', out', l) ->
  modulePtr (node w) <> 0 ->
  fired "onError" l = 0%nat
  /\ (existsb is_zero_frame_read l = true -> fired "onEnded" l = 1%nat).
Proof.
  intros Hrender Hlive.
  destruct (render_chunks_log _ _ _ _ _ _ _ Hrender)
    as [[Hnone Hsilent]|(rate & count & lp & rp & Hin)].
  - rewrite Hnone. split; [by apply silent_fired|done].
  - destruct (render_chunks_end _ _ _ _ _ _ _ _ _ _ _ _ Hrender Hin)
      as (reads & w0 & invoked & -> & _ & _ & Hreads & Hinv & _).
    destruct (terminal_fired (modulePtr (node w)) invoked Hinv)
      as [Hended Herror].
    pose proof (stop_silent w0) as [Hstop _].
    rewrite !fired_app, !(silent_fired _ _ Hreads),
      !(silent_fired _ _ Hstop), Hended, Herror.
    by rewrite (proj2 (Z.eqb_neq _ _) Hlive).
Qed.

(** C10, as the sources have it.  In index.ts the render step never
    dispatches [onError], and a zero-frame read always ends in one
    [onEnded].  In part_000 the same holds when no handler registered
    for [onPatternChange] or [onRowChange], the two events dispatched
    between the early return and the loop, clears a live handle.  In
    both, the loop itself leaves the flag [error] false when it is
    entered with a non-zero handle. *)
Theorem onError_needs_cleared_handle hs now out w :
  (forall r, Index.onaudioprocess hs out w = Some r ->
     fired "onError" (log r) = 0%nat
     /\ (existsb is_zero_frame_read (log r) = true ->
         fired "onEnded" (log r) = 1%nat))
  /\ (Forall (fun h => runs_before_loop h -> keeps_handle h) hs ->
      forall r, Part000.onaudioprocess hs now out w = Some r ->
        fired "onError" (log r) = 0%nat
        /\ (existsb is_zero_frame_read (log r) = true ->
            fired "onEnded" (log r) = 1%nat))
  /\ (forall fuel n e st e' st' cs,
        chunk_loop fuel n e st = Some (e', st', cs) ->
        modulePtr n <> 0 -> error st = false -> error st' = false).
Proof.
  split; [|split].
  - intros r Hrun.
    destruct (Index_onaudioprocess_cases _ _ _ _ Hrun)
      as [(_ & ->)|[(_ & _ & ->)|(Hlive & _ & c & w5 & out5 & l5 & Hr & -> & _)]].
    + destruct (stop_silent w) as [Hs Hr].
      rewrite (silent_fired _ _ Hs), (readless_no_zero _ Hr). done.
    + done.
    + by eapply render_chunks_live.
  - intros Hkeep r Hrun.
    destruct (Part000_onaudioprocess_cases _ _ _ _ _ Hrun)
      as [(_ & ->)|[(_ & _ & ->)|[(_ & _ & w4 & l4 & Ha & -> & _)
         |(Hlive & _ & w4 & l4 & c & w5 & out5 & l5 & Ha & Hr & -> & _)]]].
    + destruct (stop_silent w) as [Hs Hr].
      rewrite (silent_fired _ _ Hs), (readless_no_zero _ Hr). done.
    + done.
    + pose proof (announce_log hs w) as Hl. rewrite Ha in Hl.
      destruct Hl as (_ & -> & Hl). by rewrite (readless_no_zero _ Hl).
    + pose proof (announce_log hs w) as Hl. rewrite Ha in Hl.
      destruct Hl as (Hl1 & Hl2 & Hl3).
      pose proof (announce_keeps_handle hs w Hkeep Hlive) as Hlive4.
      rewrite Ha in Hlive4. cbn [fst snd] in Hlive4.
      destruct (render_chunks_live _ _ _ _ _ _ _ Hr Hlive4) as [He Hz].
      rewrite !fired_app, existsb_app, Hl1, Hl2, He,
        (readless_no_zero _ Hl3). done.
  - intros fuel n e st e' st' cs Hrun Hlive Hclear.
    destruct (chunk_loop_flags _ _ _ _ _ _ _ Hrun) as (_ & -> & _).
    rewrite Hclear, (proj2 (Z.eqb_neq _ _) Hlive). by destruct (existsb _ _).
Qed.

(** C1, as the sources have it.  On a session with a non-zero handle
    and the paused flag clear, with an engine that reports frame counts
    that are not negative: the render step of index.ts leaves in the
    destination a rendering of it.  Both channels keep their length and
    every frame is written: chunk by chunk, a frame below the count the
    read of its chunk returned holds the sample the engine left in the
    scratch buffer of its channel, every other frame holds zero.  The
    render step of part_000 does the same from the session its
    [onPatternChange] and [onRowChange] handlers left, when those
    dispatches return; when one of their handlers throws, the callback
    ends there and the destination is as it was. *)
Theorem render_fills_destination hs now out w :
  counts_frames lib ->
  well_formed out ->
  modulePtr (node w) <> 0 ->
  paused (node w) = false ->
  (exists r, Index.onaudioprocess hs out w = Some r
             /\ rendering out (node w) (engine w) (output r))
  /\ (exists r, Part000.onaudioprocess hs now out w = Some r
        /\ match Part000.announce hs w with
           | (Normal, w4, _) =>
               rendering out (node w4) (engine w4) (output r)
           | (Thrown, _, _) => result r = Thrown /\ output r = out
           end).
Proof.
  intros Hcount Hwf Hlive Hpaused. split.
  - unfold Index.onaudioprocess.
    rewrite (proj2 (Z.eqb_neq _ _) Hlive), Hpaused.
    destruct (render_chunks_rendering hs out w Hcount Hwf)
      as (c & w' & out' & l & -> & Hfilled).
    eexists. split; [done|]. done.
  - unfold Part000.onaudioprocess.
    rewrite (proj2 (Z.eqb_neq _ _) Hlive), Hpaused.
    destruct (Part000.announce hs w) as [[[] w4] l4].
    + destruct (render_chunks_rendering hs out w4 Hcount Hwf)
        as (c & w' & out' & l & -> & Hfilled).
      destruct c; eexists; (split; [done|]); done.
    + eexists. split; [done|]. done.
Qed.

(** [registered] lists, in ascending order, the positions whose entry
    carries the name. *)
Lemma registered_spec k hs name i :
  In i (registered k hs name) <->
  (k <= i)%nat /\ exists h, hs !! (i - k)%nat = Some h /\ eventName h = name.
Proof.
  revert k. induction hs as [|h rest IH]; intros k; cbn [registered].
  - split; [done|]. by intros (_ & h & ? & _).
  - assert (In i (registered (S k) rest name) <->
            (k < i)%nat /\ exists h', (h :: rest) !! (i - k)%nat = Some h'
                                      /\ eventName h' = name) as Hrest.
    { rewrite IH. split.
      - intros (Hle & h' & Hlook & Hname). split; [lia|]. exists h'.
        split; [|done]. replace (i - k)%nat with (S (i - S k)) by lia.
        done.
      - intros (Hlt & h' & Hlook & Hname). split; [lia|]. exists h'.
        split; [|done]. replace (i - k)%nat with (S (i - S k)) in Hlook
          by lia. done. }
    destruct (String.eqb_spec (eventName h) name) as [Hname|Hname].
    + cbn [In]. rewrite Hrest. split.
      * intros [<-|(Hlt & Hh)]; [|split; [lia|done]].
        split; [lia|]. exists h. by rewrite Nat.sub_diag.
      * intros (Hle & Hh). destruct (decide (i = k)) as [->|]; [by left|].
        right. split; [lia|done].
    + rewrite Hrest. split.
      * intros (Hlt & Hh). split; [lia|done].
      * intros (Hle & h' & Hlook & Hname'). split; [|by exists h'].
        destruct (decide (i = k)) as [->|]; [|lia].
        rewrite Nat.sub_diag in Hlook. cbn in Hlook.
        injection Hlook as <-. done.
Qed.

Lemma registered_ascending k hs name :
  StronglySorted lt (registered k hs name).
Proof.
  revert k. induction hs as [|h rest IH]; intros k; cbn [registered].
  - constructor.
  - destruct (String.eqb _ _); [|apply IH].
    constructor; [apply IH|]. apply Forall_forall. intros i Hi.
    apply list_elem_of_In, registered_spec in Hi. lia.
Qed.

Lemma forEach_dispatch k hs name r w :
  exists j,
    snd (forEach k hs name r w)
      = map (fun i => Invoke i r) (take j (registered k hs name))
    /\ (fst (fst (forEach k hs name r w)) = Normal ->
        j = length (registered k hs name))
    /\ (fst (fst (forEach k hs name r w)) = Thrown ->
        exists earlier i h w0,
          take j (registered k hs name) = earlier ++ [i]
          /\ (k <= i)%nat /\ hs !! (i - k)%nat = Some h
          /\ fst (handler h r w0) = Thrown)
    /\ (Forall (fun h => eventName h = name -> returns h) hs ->
        fst (fst (forEach k hs name r w)) = Normal).
Proof.
  revert k w. induction hs as [|h rest IH]; intros k w.
  - exists 0%nat. cbn. repeat split; done.
  - cbn [forEach registered].
    assert (forall i, (S k <= i)%nat ->
              rest !! (i - S k)%nat = (h :: rest) !! (i - k)%nat) as Hshift.
    { intros i Hi. by replace (i - k)%nat with (S (i - S k)) by lia. }
    destruct (String.eqb_spec (eventName h) name) as [Hname|Hname].
    + destruct (handler h r w) as [[] w1] eqn:Hh.
      * destruct (IH (S k) w1) as (j & Hlog & Hnormal & Hthrown & Hret).
        destruct (forEach (S k) rest name r w1) as [[c w2] l].
        cbn [fst snd] in *.
        exists (S j). cbn [take map]. rewrite Hlog.
        repeat split; [by intros ->%Hnormal| |].
        -- intros (earlier & i & h' & w0 & Htake & Hle & Hlook & Hthrow)
             %Hthrown.
           exists (k :: earlier), i, h', w0. rewrite Htake.
           rewrite <- Hshift by lia. repeat split; [lia|done..].
        -- intros Hall. apply Hret. by apply Forall_cons in Hall as [_ ?].
      * exists 1%nat. cbn [take map fst snd]. repeat split; [done| |].
        -- intros _. exists [], k, h, w. rewrite Nat.sub_diag, Hh.
           repeat split; done.
        -- intros Hall. apply Forall_cons in Hall as [Hhead _].
           specialize (Hhead Hname r w). by rewrite Hh in Hhead.
    + destruct (IH (S k) w) as (j & Hlog & Hnormal & Hthrown & Hret).
      exists j. repeat split; [done..| |].
      * intros (earlier & i & h' & w0 & Htake & Hle & Hlook & Hthrow)
          %Hthrown.
        exists earlier, i, h', w0. rewrite <- Hshift by lia.
        repeat split; [done|lia|done..].
      * intros Hall. apply Hret. by apply Forall_cons in Hall as [_ ?].
Qed.

(** The handlers a dispatch over [hs] invokes are registered in [hs]. *)
Lemma forEach_invokes_registered k hs name r w i r' :
  In (Invoke i r') (snd (forEach k hs name r w)) ->
  (k <= i < k + length hs)%nat.
Proof.
  destruct (forEach_dispatch k hs name r w) as (j & -> & _).
  intros Hin. apply in_map_iff in Hin as (i' & [= -> _] & Hin).
  assert (In i (registered k hs name)) as Hreg.
  { rewrite <- (take_drop j (registered k hs name)).
    apply in_or_app. by left. }
  apply registered_spec in Hreg as (Hle & h & Hlook & _).
  apply lookup_lt_Some in Hlook. lia.
Qed.

(** C9, as the sources have it.  [fireEvent(name, payload)] invokes the
    handlers registered under [name], in registration order and each
    with the same payload, a name registered several times having each
    registration invoked, up to and including the first one that throws.
    When none throws, all of them are invoked.  Each handler runs on
    the session the handlers before it left.  A handler that throws
    ends the dispatch: the exception leaves [fireEvent], the session is
    as the handler left it, the handler is the last one invoked and no
    handler registered after it is invoked. *)
Theorem fireEvent_in_registration_order hs name r w :
  (forall i, In i (registered 0 hs name) <->
             exists h, hs !! i = Some h /\ eventName h = name)
  /\ StronglySorted lt (registered 0 hs name)
  /\ (exists j,
       snd (fireEvent hs name r w)
         = FireEvent name r
           :: map (fun i => Invoke i r) (take j (registered 0 hs name))
       /\ (fst (fst (fireEvent hs name r w)) = Normal ->
           j = length (registered 0 hs name))
       /\ (fst (fst (fireEvent hs name r w)) = Thrown ->
           exists earlier i h w0,
             take j (registered 0 hs name) = earlier ++ [i]
             /\ hs !! i = Some h /\ fst (handler h r w0) = Thrown)
       /\ (Forall (fun h => eventName h = name -> returns h) hs ->
           fst (fst (fireEvent hs name r w)) = Normal))
  /\ (forall hs1 h hs2 w1 l1,
        hs = hs1 ++ h :: hs2 ->
        eventName h = name ->
        fireEvent hs1 name r w = (Normal, w1, l1) ->
        (fst (handler h r w1) = Thrown ->
         fireEvent hs name r w
         = (Thrown, snd (handler h r w1), l1 ++ [Invoke (length hs1) r])
         /\ forall i r', (length hs1 < i)%nat ->
              ~ In (Invoke i r') (snd (fireEvent hs name r w)))
        /\ (fst (handler h r w1) = Normal ->
            fireEvent hs name r w
            = (let '(c, w3, l3) :=
                 forEach (S (length hs1)) hs2 name r (snd (handler h r w1)) in
               (c, w3, l1 ++ Invoke (length hs1) r :: l3)))).
Proof.
  split; [|split; [apply registered_ascending|split]].
  { intros i. rewrite registered_spec, Nat.sub_0_r. split.
    - by intros (_ & Hh).
    - intros Hh. split; [lia|done]. }
  { unfold fireEvent. destruct hs as [|h rest].
    { exists 0%nat. cbn. repeat split; done. }
    cbn [length]. rewrite (proj2 (Z.ltb_lt 0 _)) by lia.
    destruct (forEach_dispatch 0 (h :: rest) name r w)
      as (j & Hlog & Hnormal & Hthrown & Hret).
    destruct (forEach 0 (h :: rest) name r w) as [[c w1] l].
    cbn [fst snd] in *. exists j. rewrite Hlog.
    repeat split; [done| |done].
    intros (earlier & i & h' & w0 & Htake & _ & Hlook & Hthrow)%Hthrown.
    rewrite Nat.sub_0_r in Hlook. by exists earlier, i, h', w0. }
  intros hs1 h hs2 w1 l1 -> Hname Hearlier.
  rewrite fireEvent_forEach in Hearlier. rewrite !fireEvent_forEach.
  rewrite forEach_app.
  pose proof (forEach_invokes_registered 0 hs1 name r w) as Hbound.
  destruct (forEach 0 hs1 name r w) as [[c0 w0] l0].
  injection Hearlier as -> -> <-. cbn [snd] in Hbound.
  cbn [forEach Nat.add]. rewrite (proj2 (String.eqb_eq _ _) Hname).
  destruct (handler h r w1) as [[] w2]; cbn [fst snd]; split; try done.
  - intros _. by destruct (forEach _ hs2 name r w2) as [[c3 w3] l3].
  - intros _. split; [done|]. intros i r' Hi [Hin|Hin]; [done|].
    apply in_app_or in Hin as [Hin|[[= <- _]|[]]]; [|lia].
    specialize (Hbound _ _ Hin). lia.
Qed.

(** The guard of [play] never fires: the node is always returned. *)
Lemma createLibopenmptNode_returns_node buffer
    (p : Part000.ChiptuneJsPlayer E) e :
  exists processNode,
    fst (Part000.createLibopenmptNode buffer p e) = Some processNode
    /\ modulePtr processNode =
         fst (_openmpt_module_create_from_memory
                (fst (_malloc (Z.of_nat (length buffer)) e))
                (Z.of_nat (length buffer)) 0 0 0
                (snd (_malloc (maxFramesPerChunk * 4)
                        (HEAPU8_set buffer
                           (fst (_malloc (Z.of_nat (length buffer)) e))
                           (snd (_malloc (Z.of_nat (length buffer)) e)))))).
Proof.
  unfold Part000.createLibopenmptNode.
  destruct (_malloc (Z.of_nat (length buffer)) e) as [ptrToFile e1].
  cbn [fst snd].
  destruct (_malloc (maxFramesPerChunk * 4) _) as [leftPtr e3].
  cbn [fst snd].
  destruct (_openmpt_module_create_from_memory _ _ _ _ _ _) as [m e4].
  destruct (_openmpt_module_get_num_channels _ _) as [channels e5].
  destruct (_malloc _ e5) as [rightPtr e6].
  eexists. split; done.
Qed.

(** Whatever the engine answers to the bytes, [play] of part_000 stores
    the session it created as the active one, connected, its handle
    being the value [create_from_memory] returned. *)
Lemma play_always_stores_session buffer (p : Part000.ChiptuneJsPlayer E) e :
  exists n e1,
    Part000.currentPlayingNode (fst (Part000.play buffer p e)) = Some n
    /\ connected n = true
    /\ modulePtr n =
         fst (_openmpt_module_create_from_memory
                (fst (_malloc (Z.of_nat (length buffer)) e1))
                (Z.of_nat (length buffer)) 0 0 0
                (snd (_malloc (maxFramesPerChunk * 4)
                        (HEAPU8_set buffer
                           (fst (_malloc (Z.of_nat (length buffer)) e1))
                           (snd (_malloc (Z.of_nat (length buffer)) e1)))))).
Proof.
  unfold Part000.play.
  destruct (Part000.stop (Part000.unlock p) e) as [[p1 e1] l1].
  destruct (createLibopenmptNode_returns_node buffer p1 e1)
    as (processNode & Hsome & Hptr).
  destruct (Part000.createLibopenmptNode buffer p1 e1) as [created e2].
  cbn [fst] in Hsome. subst created.
  exists (connect processNode), e1. cbn. repeat split; done.
Qed.

(** C4.  After [stop()] no session is active, and [duration()],
    [position()] and [metadata()] of part_000 throw the [TypeError] of
    reading [modulePtr] of [undefined], where the claim has them return
    a default; the getters written with the guard return [0]. *)
Theorem queries_fault_without_session (p : Part000.ChiptuneJsPlayer E) e :
  let '(p', e', _) := Part000.stop p e in
  Part000.currentPlayingNode p' = None
  /\ Part000.duration p' e' = TypeError
  /\ Part000.position p' e' = TypeError
  /\ Part000.metadata p' e' = TypeError
  /\ Part000.getPattern p' e' = Return (0, e')
  /\ Part000.getRow p' e' = Return (0, e')
  /\ Part000.getCurrentSpeed p' e' = Return (0, e')
  /\ Part000.getCurrentTempo p' e' = Return (0, e')
  /\ Part000.getNumPatterns p' e' = Return (0, e').
Proof.
  unfold Part000.stop. destruct (Part000.currentPlayingNode p) eqn:Hp.
  - destruct (stop _) as [w1 log1].
    unfold Part000.duration, Part000.position, Part000.metadata,
      Part000.getPattern, Part000.getRow, Part000.getCurrentSpeed,
      Part000.getCurrentTempo, Part000.getNumPatterns, Part000.query,
      Part000.guarded.
    cbn. repeat split; done.
  - unfold Part000.duration, Part000.position, Part000.metadata,
      Part000.getPattern, Part000.getRow, Part000.getCurrentSpeed,
      Part000.getCurrentTempo, Part000.getNumPatterns, Part000.query,
      Part000.guarded.
    rewrite Hp. repeat split; done.
Qed.
End Claims.

(** * The sources on concrete inputs *)

Section Examples.
Import Toy.

Lemma toy_counts_frames : counts_frames Toy.libopenmpt.
Proof.
  intros m rate count lp rp e. cbn. unfold read.
  destruct (m =? 0); cbn; lia.
Qed.

Lemma nine_is_not_a_quarter : 9%float <> 0.25%float.
Proof.
  intros H. apply (f_equal (fun x => PrimFloat.eqb x 9%float)) in H.
  vm_compute in H. discriminate.
Qed.

(** C1, counterexample.  A part_000 session with a live handle, not
    paused, and two frames left to decode; the handler registered for
    [onRowChange] throws.  The callback ends at the dispatch and the
    four frames of the destination still hold their stale samples,
    where a rendering has two decoded frames and two zeros: the
    destination is no rendering. *)
Lemma throwing_handler_leaves_destination_unwritten :
  let w := session 2 false in
  let out := stale 4 in
  modulePtr (node w) <> 0
  /\ paused (node w) = false
  /\ well_formed out
  /\ decoded 4 (node w) (engine w) 4
     = ([0.25; 0.25; 0; 0]%float, [0.75; 0.75; 0; 0]%float)
  /\ exists r,
       Part000.onaudioprocess [faulty "onRowChange"] clock out w = Some r
       /\ result r = Thrown
       /\ output r = out
       /\ ~ rendering out (node w) (engine w) (output r).
Proof.
  cbn zeta.
  assert (decoded 4 (node (session 2 false)) (engine (session 2 false)) 4
          = ([0.25; 0.25; 0; 0]%float, [0.75; 0.75; 0; 0]%float))
    as Hframes by (vm_compute; reflexivity).
  split; [done|]. split; [reflexivity|]. split; [reflexivity|].
  split; [exact Hframes|].
  eexists. split; [vm_compute; reflexivity|].
  split; [reflexivity|]. split; [reflexivity|].
  intros (HL & _).
  change (length (channel0 (stale 4))) with 4%nat in HL.
  change (Z.of_nat 4) with 4 in HL.
  rewrite Hframes in HL. cbn in HL.
  apply nine_is_not_a_quarter. congruence.
Qed.

(** C10, counterexample.  A part_000 session with a live handle, not
    paused; the handler registered for [onRowChange] calls
    [player.stop()].  The loop then reads with the cleared handle, the
    read returns zero frames, and the callback dispatches [onError] and
    no [onEnded]. *)
Lemma stopping_handler_reaches_onError :
  let w := session 2 false in
  modulePtr (node w) <> 0
  /\ paused (node w) = false
  /\ exists r,
       Part000.onaudioprocess [stopping "onRowChange"] clock (stale 4) w
         = Some r
       /\ existsb is_zero_frame_read (log r) = true
       /\ fired "onError" (log r) = 1%nat
       /\ fired "onEnded" (log r) = 0%nat.
Proof.
  cbn zeta. repeat split; [done|].
  eexists. split; [vm_compute; reflexivity|].
  repeat split.
Qed.

(** C9, counterexample.  Two handlers registered under [onEnded], the
    first of which throws: the dispatch invokes position 0 only, the
    handler at position 1 is suppressed. *)
Lemma throwing_handler_suppresses_later_ones :
  let hs := [faulty "onEnded"; quiet "onEnded"] in
  registered 0 hs "onEnded" = [0%nat; 1%nat]
  /\ fireEvent hs "onEnded" None (session 2 false)
     = (Thrown, session 2 false, [FireEvent "onEnded" None; Invoke 0 None])
  /\ ~ In (Invoke 1 None)
         (snd (fireEvent hs "onEnded" None (session 2 false))).
Proof.
  cbn zeta. repeat split. vm_compute. intros [H|[H|[]]]; discriminate.
Qed.

(** C2.  Two callbacks in a row on a part_000 session standing at
    pattern 3 all along.  The first dispatches [onPatternChange] and
    leaves the stored [patternIndex] at [-1]; the second, whose queried
    pattern is the one the first queried, dispatches [onPatternChange]
    again. *)
Theorem pattern_change_fired_without_change :
  exists r1 r2,
    Part000.onaudioprocess [] clock (stale 4) (session 100 false) = Some r1
    /\ Part000.onaudioprocess [] clock (stale 4) (after r1) = Some r2
    /\ pattern (engine (session 100 false)) = 3
    /\ pattern (engine (after r1)) = 3
    /\ patternIndex (node (after r1)) = -1
    /\ fired "onPatternChange" (log r1) = 1%nat
    /\ fired "onPatternChange" (log r2) = 1%nat
    /\ fired "onRowChange" (log r2) = 1%nat.
Proof.
  do 2 eexists. split; [vm_compute; reflexivity|].
  split; [vm_compute; reflexivity|]. repeat split.
Qed.

(** C5.  [play] on an empty buffer, which the engine answers with the
    null handle: the controller ends up with an active session, handle
    zero, connected to the output graph. *)
Theorem play_unparseable_bytes_stores_session :
  let e0 := engine (session 0 false) in
  fst (_openmpt_module_create_from_memory 49168 0 0 0 0 e0) = 0
  /\ exists n,
       Part000.currentPlayingNode (fst (Part000.play [] (player None) e0))
         = Some n
       /\ modulePtr n = 0
       /\ connected n = true.
Proof.
  cbn zeta. split; [reflexivity|].
  eexists. split; [vm_compute; reflexivity|]. done.
Qed.
End Examples.

(** * The theorems at concrete inputs *)

Section Witnesses.
Import Toy.

(** C1 at a four-frame destination and a session with two frames left:
    both sources leave a rendering, two decoded frames then two zeros
    on each channel. *)
Lemma render_fills_destination_witness :
  let w := session 2 false in
  let out := stale 4 in
  counts_frames libopenmpt
  /\ well_formed out
  /\ modulePtr (node w) <> 0
  /\ paused (node w) = false
  /\ decoded 4 (node w) (engine w) 4
     = ([0.25; 0.25; 0; 0]%float, [0.75; 0.75; 0; 0]%float)
  /\ (exists r, Index.onaudioprocess [quiet "onEnded"] out w = Some r
                /\ rendering out (node w) (engine w) (output r))
  /\ (exists r,
        Part000.onaudioprocess [quiet "onEnded"] clock out w = Some r
        /\ match Part000.announce [quiet "onEnded"] w with
           | (Normal, w4, _) =>
               rendering out (node w4) (engine w4) (output r)
           | (Thrown, _, _) => result r = Thrown /\ output r = out
           end).
Proof.
  cbn zeta.
  assert (counts_frames libopenmpt) as Hcount by exact toy_counts_frames.
  assert (well_formed (stale 4)) as Hwf by reflexivity.
  assert (modulePtr (node (session 2 false)) <> 0) as Hlive by discriminate.
  assert (paused (node (session 2 false)) = false) as Hpaused
    by reflexivity.
  split; [exact Hcount|]. split; [exact Hwf|]. split; [exact Hlive|].
  split; [exact Hpaused|]. split; [vm_compute; reflexivity|].
  exact (render_fills_destination [quiet "onEnded"] clock (stale 4)
           (session 2 false) Hcount Hwf Hlive Hpaused).
Defined.

(** C3 on two callbacks of part_000: one whose read returns zero frames
    with the live handle 64, one whose [onRowChange] handler stopped the
    session so that the read is made with handle 0.  In the first the
    disconnect, the destroy call and the two frees come before the
    dispatch of [onEnded], and the session the callback leaves is
    disconnected with its handle zero. *)
Lemma zero_frame_read_ends_session_witness :
  let ended_ :=
    run (Part000.onaudioprocess [quiet "onEnded"] clock (stale 4)
           (session 0 false)) in
  let failed :=
    run (Part000.onaudioprocess [stopping "onRowChange"] clock (stale 4)
           (session 2 false)) in
  In (Call_read_float_stereo 64 48000 4 16384 32776 0) (log ended_)
  /\ In (Call_read_float_stereo 0 48000 4 0 0 0) (log failed)
  /\ fired "onEnded" (log ended_) = 1%nat
  /\ fired "onError" (log ended_) = 0%nat
  /\ fired "onEnded" (log failed) = 0%nat
  /\ fired "onError" (log failed) = 1%nat
  /\ (exists before invoked,
        log ended_
        = before
          ++ [Disconnect; Call_destroy 64; Call_free 16384; Call_free 32776]
          ++ FireEvent "onEnded" None :: invoked
        /\ fired "onEnded" before = 0%nat)
  /\ (exists before invoked,
        log failed
        = before ++ [Disconnect]
          ++ FireEvent "onError" (Some (ErrorType "openmpt")) :: invoked
        /\ fired "onError" before = 0%nat)
  /\ connected (node (after ended_)) = false
  /\ modulePtr (node (after ended_)) = 0.
Proof.
  cbn zeta.
  assert (In (Call_read_float_stereo 64 48000 4 16384 32776 0)
            (log (run (Part000.onaudioprocess [quiet "onEnded"] clock
                         (stale 4) (session 0 false))))) as Hin1.
  { vm_compute. do 4 right. left. reflexivity. }
  assert (In (Call_read_float_stereo 0 48000 4 0 0 0)
            (log (run (Part000.onaudioprocess [stopping "onRowChange"]
                         clock (stale 4) (session 2 false))))) as Hin2.
  { vm_compute. do 5 right. left. reflexivity. }
  split; [exact Hin1|]. split; [exact Hin2|].
  assert (Part000.onaudioprocess [quiet "onEnded"] clock (stale 4)
            (session 0 false)
          = Some (run (Part000.onaudioprocess [quiet "onEnded"] clock
                         (stale 4) (session 0 false)))) as Hrun1
    by reflexivity.
  assert (Part000.onaudioprocess [stopping "onRowChange"] clock (stale 4)
            (session 2 false)
          = Some (run (Part000.onaudioprocess [stopping "onRowChange"]
                         clock (stale 4) (session 2 false)))) as Hrun2
    by reflexivity.
  destruct (zero_frame_read_ends_session [quiet "onEnded"] clock (stale 4)
              (session 0 false) _ 64 48000%float 4 16384 32776
              Hrun1 Hin1)
    as (H1 & H2 & _ & w4 & l4 & e1 & st1 & cs & w' & invoked & _ & _ & _
        & _ & _ & Hlog1 & Hbefore1 & _).
  destruct (zero_frame_read_ends_session [stopping "onRowChange"] clock
              (stale 4) (session 2 false) _ 0 48000%float 4 0 0
              Hrun2 Hin2)
    as (H3 & H4 & _ & w4' & l4' & e1' & st1' & cs' & w'' & invoked' & _ & _
        & _ & _ & _ & Hlog2 & _ & Hbefore2 & _).
  split; [exact H1|]. split; [exact H2|]. split; [exact H3|].
  split; [exact H4|].
  split; [exists (l4 ++ map call cs), invoked; split;
          [exact Hlog1|exact Hbefore1]|].
  split; [exists (l4' ++ map call cs'), invoked'; split;
          [exact Hlog2|exact Hbefore2]|].
  split; reflexivity.
Defined.


(** C7 at a paused session and a destination holding stale samples. *)
Lemma paused_renders_silence_witness :
  let w := session 2 true in
  let out := stale 4 in
  let quiet :=
    {| result := Normal; after := w;
       output := {| channel0 := replicate 4 0%float;
                    channel1 := replicate 4 0%float |};
       log := [] |} in
  well_formed out
  /\ modulePtr (node w) <> 0
  /\ paused (node w) = true
  /\ Index.onaudioprocess [] out w = Some quiet
  /\ Part000.onaudioprocess [] clock out w = Some quiet.
Proof.
  cbn zeta.
  assert (well_formed (stale 4)) as Hwf by reflexivity.
  assert (modulePtr (node (session 2 true)) <> 0) as Hlive by discriminate.
  assert (paused (node (session 2 true)) = true) as Hpaused by reflexivity.
  split; [exact Hwf|]. split; [exact Hlive|]. split; [exact Hpaused|].
  exact (paused_renders_silence [] clock (stale 4) (session 2 true)
           Hwf Hlive Hpaused).
Defined.

(** C10 on a callback of part_000 whose handlers leave the session alone
    and whose read returns zero frames. *)
Lemma onError_needs_cleared_handle_witness :
  let hs := [quiet "onRowChange"; quiet "onEnded"] in
  let r := run (Part000.onaudioprocess hs clock (stale 4)
                  (session 0 false)) in
  Forall (fun h => runs_before_loop h -> keeps_handle h) hs
  /\ existsb is_zero_frame_read (log r) = true
  /\ fired "onError" (log r) = 0%nat
  /\ fired "onEnded" (log r) = 1%nat.
Proof.
  cbn zeta.
  assert (Forall (fun h : registration state =>
                    runs_before_loop h -> keeps_handle h)
            [quiet "onRowChange"; quiet "onEnded"]) as Hkeep.
  { repeat constructor; intros _ r w Hlive; exact Hlive. }
  split; [exact Hkeep|]. split; [reflexivity|].
  assert (Part000.onaudioprocess [quiet "onRowChange"; quiet "onEnded"]
            clock (stale 4) (session 0 false)
          = Some (run (Part000.onaudioprocess
                         [quiet "onRowChange"; quiet "onEnded"] clock
                         (stale 4) (session 0 false)))) as Hrun
    by reflexivity.
  destruct (proj1 (proj2 (onError_needs_cleared_handle
              [quiet "onRowChange"; quiet "onEnded"] clock (stale 4)
              (session 0 false))) Hkeep _ Hrun) as [Herror Hended].
  split; [exact Herror|]. exact (Hended eq_refl).
Defined.

(** C9 with [onEnded] registered at positions 0 and 2 and no handler
    throwing, and with [onEnded] registered three times, the second
    handler throwing: the third is not invoked. *)
Lemma fireEvent_in_registration_order_witness :
  let hs := [quiet "onEnded"; quiet "onError"; quiet "onEnded"] in
  let hs' := [quiet "onEnded"; faulty "onEnded"; quiet "onEnded"] in
  let w := session 2 false in
  Forall (fun h => eventName h = "onEnded"%string -> returns h) hs
  /\ snd (fireEvent hs "onEnded" None w)
     = [FireEvent "onEnded" None; Invoke 0 None; Invoke 2 None]
  /\ hs' = [quiet "onEnded"] ++ faulty "onEnded" :: [quiet "onEnded"]
  /\ fireEvent [quiet "onEnded"] "onEnded" None w
     = (Normal, w, [FireEvent "onEnded" None; Invoke 0 None])
  /\ fst (handler (faulty "onEnded") None w) = Thrown
  /\ fireEvent hs' "onEnded" None w
     = (Thrown, w, [FireEvent "onEnded" None; Invoke 0 None; Invoke 1 None])
  /\ ~ In (Invoke 2 None) (snd (fireEvent hs' "onEnded" None w)).
Proof.
  cbn zeta.
  assert (Forall (fun h : registration state =>
                    eventName h = "onEnded"%string -> returns h)
            [quiet "onEnded"; quiet "onError"; quiet "onEnded"]) as Hall.
  { repeat constructor; intros _ r w; reflexivity. }
  split; [exact Hall|].
  destruct (fireEvent_in_registration_order
              [quiet "onEnded"; quiet "onError"; quiet "onEnded"]
              "onEnded" None (session 2 false))
    as (_ & _ & (j & Hlog & Hnormal & _ & Hreturns) & _).
  split; [rewrite Hlog, (Hnormal (Hreturns Hall)); reflexivity|].
  assert ([quiet "onEnded"; faulty "onEnded"; quiet "onEnded"]
          = [quiet "onEnded"] ++ faulty "onEnded" :: [quiet "onEnded"])
    as Hsplit by reflexivity.
  assert (fireEvent [quiet "onEnded"] "onEnded" None (session 2 false)
          = (Normal, session 2 false,
             [FireEvent "onEnded" None; Invoke 0 None])) as Hearlier
    by reflexivity.
  assert (fst (handler (faulty "onEnded") None (session 2 false)) = Thrown)
    as Hthrows by reflexivity.
  split; [exact Hsplit|]. split; [exact Hearlier|]. split; [exact Hthrows|].
  destruct (fireEvent_in_registration_order
              [quiet "onEnded"; faulty "onEnded"; quiet "onEnded"]
              "onEnded" None (session 2 false))
    as (_ & _ & _ & Hthrown).
  destruct (proj1 (Hthrown [quiet "onEnded"] (faulty "onEnded")
                     [quiet "onEnded"] (session 2 false)
                     [FireEvent "onEnded" None; Invoke 0 None]
                     Hsplit eq_refl Hearlier) Hthrows) as [Hends Hlater].
  split; [exact Hends|]. apply Hlater. cbn. lia.
Defined.
End Witnesses.

(** * Further properties of the sources *)

Section Requests.
Context {E : Type} {lib : MainModule E}.
Implicit Types (n : IProcessNode) (e : E) (st : frames) (w : world E).
Implicit Types (hs : list (registration E)) (out : AudioBuffer).

Lemma chunk_sizes_exit : chunk_sizes 0 = [].
Proof. reflexivity. Qed.

Lemma chunk_sizes_step N :
  0 < N ->
  chunk_sizes N
  = Z.min N maxFramesPerChunk :: chunk_sizes (N - Z.min N maxFramesPerChunk).
Proof.
  intros HN. unfold chunk_sizes, maxFramesPerChunk.
  destruct (Z.lt_ge_cases N 4096) as [Hsmall|Hbig].
  - rewrite Z.min_l, Z.sub_diag by lia.
    rewrite Z.div_small, Z.mod_small by lia.
    rewrite (proj2 (Z.eqb_neq N 0)) by lia. reflexivity.
  - rewrite Z.min_r by lia.
    assert (N / 4096 = (N - 4096) / 4096 + 1
            /\ 0 <= (N - 4096) / 4096
            /\ N mod 4096 = (N - 4096) mod 4096) as (-> & Hq & ->).
    { Z.to_euclidean_division_equations. lia. }
    rewrite Z2Nat.inj_add by lia. rewrite Nat.add_comm. reflexivity.
Qed.

Lemma chunk_loop_requests fuel n e st e' st' cs :
  chunk_loop fuel n e st = Some (e', st', cs) ->
  0 <= framesToRender st ->
  map framesPerChunk cs = chunk_sizes (framesToRender st)
  /\ read_counts (map call cs) = chunk_sizes (framesToRender st).
Proof.
  revert e st cs. induction fuel as [|fuel IH]; intros e st cs Hrun Hto.
  - cbn [chunk_loop] in Hrun.
    destruct (Z.gtb_spec (framesToRender st) 0); [done|].
    injection Hrun as <- <- <-.
    by replace (framesToRender st) with 0 by lia.
  - destruct (Z.le_gt_cases (framesToRender st) 0) as [Hexit|Hgo].
    { rewrite chunk_loop_exit in Hrun by done.
      injection Hrun as <- <- <-.
      by replace (framesToRender st) with 0 by lia. }
    rewrite chunk_loop_enter in Hrun by done.
    destruct (chunk_loop fuel n _ _) as [[[e2 st2] cs2]|] eqn:Hrest; [|done].
    injection Hrun as <- <- <-.
    pose proof (requested_positive st Hgo) as Hreq.
    destruct (IH _ _ _ Hrest) as [Hsizes Hcounts].
    { rewrite advance_framesToRender. unfold requested in *. lia. }
    rewrite advance_framesToRender in Hsizes, Hcounts.
    rewrite chunk_sizes_step by done.
    cbn [map]. rewrite rendered_framesPerChunk, rendered_call.
    cbn [read_counts flat_map app]. fold (read_counts (map call cs2)).
    by rewrite Hsizes, Hcounts.
Qed.

Lemma read_counts_app l1 l2 :
  read_counts (l1 ++ l2) = read_counts l1 ++ read_counts l2.
Proof. unfold read_counts. apply flat_map_app. Qed.

Lemma readless_counts l : readless l -> read_counts l = [].
Proof.
  induction 1 as [|x l Hx _ IH]; [done|].
  cbn. fold (read_counts l). rewrite IH. by destruct x.
Qed.

Lemma end_of_stream_log hs st w :
  readless (snd (end_of_stream hs st w)).
Proof.
  unfold end_of_stream. destruct (ended st); [|constructor].
  pose proof (stop_silent w) as [_ Hstop].
  destruct (stop w) as [w1 log1]. cbn [snd] in Hstop.
  assert (exists name r, (if error st
            then fireEvent hs "onError" (Some (ErrorType "openmpt")) w1
            else fireEvent hs "onEnded" None w1)
           = fireEvent hs name r w1) as (name & r & ->).
  { destruct (error st); eauto. }
  pose proof (fireEvent_log hs name r w1) as Hlog.
  destruct (fireEvent hs name r w1) as [[c2 w2] log2].
  destruct Hlog as (invoked & -> & _ & Hinv). cbn [snd].
  apply readless_app; [done|]. by constructor.
Qed.

Lemma render_chunks_requests hs out w c w' out' l :
  render_chunks hs out w = Some (c, w', out', l) ->
  read_counts l = chunk_sizes (Z.of_nat (length (channel0 out))).
Proof.
  intros Hrender.
  destruct (render_chunks_runs hs out w) as (e1 & st1 & cs & Hrun & Heq).
  rewrite Heq in Hrender. clear Heq.
  pose proof (end_of_stream_log hs st1 {| node := node w; engine := e1 |})
    as Hend.
  destruct (end_of_stream _ _ _) as [[c2 w2] log2]. cbn [snd] in Hend.
  injection Hrender as <- <- <- <-.
  destruct (chunk_loop_requests _ _ _ _ _ _ _ Hrun) as [_ Hcounts];
    [cbn; lia|].
  rewrite read_counts_app, (readless_counts _ Hend), app_nil_r. exact Hcounts.
Qed.

(** X1.  The reads a render step makes: on a live, unpaused session the
    callback of index.ts requests the destination chunk by chunk, full
    chunks of [maxFramesPerChunk] frames and then the remainder, whatever
    the engine returns; the callback of part_000 does the same once its
    two dispatches have returned.  A destination of at most
    [maxFramesPerChunk] frames takes one request of its own size. *)
Theorem render_requests_whole_chunks hs now out w :
  modulePtr (node w) <> 0 ->
  paused (node w) = false ->
  (exists r, Index.onaudioprocess hs out w = Some r
             /\ read_counts (log r)
                = chunk_sizes (Z.of_nat (length (channel0 out))))
  /\ (fst (fst (Part000.announce hs w)) = Normal ->
      exists r, Part000.onaudioprocess hs now out w = Some r
                /\ read_counts (log r)
                   = chunk_sizes (Z.of_nat (length (channel0 out))))
  /\ (forall N, 0 < N <= maxFramesPerChunk -> chunk_sizes N = [N]).
Proof.
  intros Hlive Hpaused. split; [|split].
  - destruct (Index_onaudioprocess_returns hs out w) as [r Hr].
    exists r. split; [done|].
    destruct (Index_onaudioprocess_cases _ _ _ _ Hr)
      as [(? & _)|[(_ & Hp & _)|(_ & _ & c & w5 & out5 & l5 & Hrc & -> & _)]];
      [done|congruence|].
    by eapply render_chunks_requests.
  - intros Hannounce.
    destruct (Part000_onaudioprocess_returns hs now out w) as [r Hr].
    exists r. split; [done|].
    destruct (Part000_onaudioprocess_cases _ _ _ _ _ Hr)
      as [(? & _)|[(_ & Hp & _)|[(_ & _ & w4 & l4 & Ha & _)
         |(_ & _ & w4 & l4 & c & w5 & out5 & l5 & Ha & Hrc & -> & _)]]];
      [done|congruence|by rewrite Ha in Hannounce|].
    pose proof (announce_log hs w) as Hl. rewrite Ha in Hl.
    destruct Hl as (_ & _ & Hl).
    rewrite read_counts_app, (readless_counts _ Hl).
    by eapply render_chunks_requests.
  - intros N HN. rewrite chunk_sizes_step by lia.
    rewrite Z.min_l, Z.sub_diag by lia. reflexivity.
Qed.
End Requests.

Section Lifecycle.
Context {E : Type} {lib : MainModule E}.
Implicit Types (n : IProcessNode) (e : E) (st : frames) (w : world E).
Implicit Types (hs : list (registration E)) (out : AudioBuffer).

Lemma silence_zeros out :
  well_formed out ->
  silence (Z.of_nat (length (channel0 out))) out
  = zeros (length (channel0 out)).
Proof.
  intros Hwf. rewrite silence_spec. unfold zeros. f_equal.
  - apply write_zero_all.
  - rewrite <- Hwf. apply write_zero_all.
Qed.

Lemma stop_dead_log w :
  modulePtr (node w) = 0 ->
  snd (stop w) = Disconnect :: buffer_frees (node w).
Proof.
  intros Hdead. rewrite stop_log, cleanup_log. cbn [node disconnect].
  destruct (node w) as [m l r p pi nb pc pm sr c]. cbn in *. subst m.
  reflexivity.
Qed.

(** X2.  A render call on a session whose handle is zero, paused or not:
    both sources fill the destination with zero, disconnect the node,
    free the scratch buffers still held, and return.  No read, no
    destroy call, no dispatch; afterwards the three pointers are zero
    and the pause flag and the stored pattern index are what they were. *)
Theorem dead_session_renders_silence hs now out w :
  well_formed out ->
  modulePtr (node w) = 0 ->
  let torn_down :=
    {| result := Normal; after := fst (stop w);
       output := zeros (length (channel0 out));
       log := Disconnect :: buffer_frees (node w) |} in
  Index.onaudioprocess hs out w = Some torn_down
  /\ Part000.onaudioprocess hs now out w = Some torn_down
  /\ connected (node (fst (stop w))) = false
  /\ modulePtr (node (fst (stop w))) = 0
  /\ leftBufferPtr (node (fst (stop w))) = 0
  /\ rightBufferPtr (node (fst (stop w))) = 0
  /\ paused (node (fst (stop w))) = paused (node w)
  /\ patternIndex (node (fst (stop w))) = patternIndex (node w).
Proof.
  intros Hwf Hdead torn_down.
  unfold Index.onaudioprocess, Part000.onaudioprocess.
  rewrite (proj2 (Z.eqb_eq _ _) Hdead), (silence_zeros out Hwf).
  pose proof (stop_dead_log w Hdead) as Hlog.
  pose proof (stop_node w) as Hnode.
  destruct (stop w) as [w1 log1]. cbn [fst snd] in *. subst log1.
  rewrite Hnode. repeat split; reflexivity.
Qed.

Lemma forEach_stays_dead k hs name r w :
  Forall stays_dead hs ->
  modulePtr (node w) = 0 ->
  modulePtr (node (snd (fst (forEach k hs name r w)))) = 0.
Proof.
  intros Hall. revert k w.
  induction Hall as [|h rest Hh _ IH]; intros k w Hdead; [done|].
  cbn [forEach]. destruct (String.eqb _ _); [|by apply IH].
  specialize (Hh r w Hdead).
  destruct (handler h r w) as [[] w1]; cbn [snd] in Hh; [|done].
  specialize (IH (S k) w1 Hh).
  by destruct (forEach _ _ _ _ _) as [[c w2] l].
Qed.

Lemma fireEvent_stays_dead hs name r w :
  Forall stays_dead hs ->
  modulePtr (node w) = 0 ->
  modulePtr (node (snd (fst (fireEvent hs name r w)))) = 0.
Proof.
  intros Hall Hdead. unfold fireEvent. destruct (0 <? _); [|done].
  pose proof (forEach_stays_dead 0 hs name r w Hall Hdead).
  by destruct (forEach _ _ _ _ _) as [[c w1] l].
Qed.

Lemma render_chunks_ended hs out w c w' out' l :
  Forall stays_dead hs ->
  render_chunks hs out w = Some (c, w', out', l) ->
  existsb is_zero_frame_read l = true ->
  modulePtr (node w') = 0.
Proof.
  intros Hall Hrender Hzero.
  destruct (render_chunks_log _ _ _ _ _ _ _ Hrender)
    as [[Hnone _]|(rate & count & lp & rp & Hin)]; [congruence|].
  destruct (render_chunks_end _ _ _ _ _ _ _ _ _ _ _ _ Hrender Hin)
    as (reads & w0 & invoked & _ & _ & _ & _ & _ & Hfire).
  pose proof (fireEvent_stays_dead hs
                (fst (terminal (modulePtr (node w))))
                (snd (terminal (modulePtr (node w)))) (fst (stop w0)) Hall)
    as Hdead.
  rewrite Hfire in Hdead. apply Hdead. by rewrite stop_node.
Qed.

Lemma dead_session_is_quiet hs now out w :
  well_formed out ->
  modulePtr (node w) = 0 ->
  (exists r, Index.onaudioprocess hs out w = Some r
             /\ output r = zeros (length (channel0 out))
             /\ read_counts (log r) = [] /\ silent (log r))
  /\ (exists r, Part000.onaudioprocess hs now out w = Some r
                /\ output r = zeros (length (channel0 out))
                /\ read_counts (log r) = [] /\ silent (log r)).
Proof.
  intros Hwf Hdead.
  unfold Index.onaudioprocess, Part000.onaudioprocess.
  rewrite (proj2 (Z.eqb_eq _ _) Hdead), (silence_zeros out Hwf).
  pose proof (stop_silent w) as [Hs Hr].
  destruct (stop w) as [w1 log1]. cbn [snd] in Hs, Hr.
  split; eexists; (split; [reflexivity|]); cbn [output log];
    (repeat split; [by apply readless_counts|done]).
Qed.

(** X3.  Ended is terminal.  Once a render step has seen a read return
    zero frames, and provided no handler gives a torn-down session a
    handle again, the session's handle is zero when the callback
    returns, and the next callback on it reads nothing from the engine,
    dispatches nothing and renders silence.  Both sources. *)
Theorem ended_session_is_not_read_again hs now now' out out' w :
  Forall stays_dead hs ->
  well_formed out' ->
  (forall r,
     Index.onaudioprocess hs out w = Some r ->
     existsb is_zero_frame_read (log r) = true ->
     modulePtr (node (after r)) = 0
     /\ exists r', Index.onaudioprocess hs out' (after r) = Some r'
                   /\ output r' = zeros (length (channel0 out'))
                   /\ read_counts (log r') = []
                   /\ silent (log r'))
  /\ (forall r,
        Part000.onaudioprocess hs now out w = Some r ->
        existsb is_zero_frame_read (log r) = true ->
        modulePtr (node (after r)) = 0
        /\ exists r', Part000.onaudioprocess hs now' out' (after r) = Some r'
                      /\ output r' = zeros (length (channel0 out'))
                      /\ read_counts (log r') = []
                      /\ silent (log r')).
Proof.
  intros Hall Hwf. split.
  - intros r Hrun Hzero.
    assert (modulePtr (node (after r)) = 0) as Hdead.
    { revert Hrun Hzero. unfold Index.onaudioprocess.
      destruct (modulePtr (node w) =? 0).
      { pose proof (stop_silent w) as [_ Hr]. destruct (stop w) as [w1 l1].
        cbn [snd] in Hr. intros [= <-] Hz. cbn [log] in Hz.
        by rewrite (readless_no_zero _ Hr) in Hz. }
      destruct (paused (node w)); [by intros [= <-]|].
      destruct (render_chunks hs out w) as [[[[c w5] out5] l5]|] eqn:Hr;
        [|done].
      intros [= <-] Hz. cbn in *. by eapply render_chunks_ended. }
    split; [done|].
    destruct (dead_session_is_quiet hs now out' (after r) Hwf Hdead)
      as [HI _]. exact HI.
  - intros r Hrun Hzero.
    assert (modulePtr (node (after r)) = 0) as Hdead.
    { revert Hrun Hzero. unfold Part000.onaudioprocess.
      destruct (modulePtr (node w) =? 0).
      { pose proof (stop_silent w) as [_ Hr]. destruct (stop w) as [w1 l1].
        cbn [snd] in Hr. intros [= <-] Hz. cbn [log] in Hz.
        by rewrite (readless_no_zero _ Hr) in Hz. }
      destruct (paused (node w)); [by intros [= <-]|].
      pose proof (announce_log hs w) as Hl.
      destruct (Part000.announce hs w) as [[[] w4] l4];
        destruct Hl as (_ & _ & Hl).
      - destruct (render_chunks hs out w4) as [[[[[] w5] out5] l5]|] eqn:Hr;
          [| |done]; intros [= <-] Hz; cbn in *;
          rewrite existsb_app, (readless_no_zero _ Hl) in Hz;
          by eapply render_chunks_ended.
      - intros [= <-] Hz. cbn in Hz.
        by rewrite (readless_no_zero _ Hl) in Hz. }
    split; [done|].
    destruct (dead_session_is_quiet hs now' out' (after r) Hwf Hdead)
      as [_ HP]. exact HP.
Qed.

(** X4.  A callback of index.ts on a live, unpaused session in which no
    read returned zero frames, however short the reads were, ends the
    session in no way: it returns normally, the node is what it was, and
    its log holds the reads of the chunks and nothing else, no
    disconnect, no destroy, no free and no dispatch. *)
Theorem short_reads_keep_the_session hs out w r :
  modulePtr (node w) <> 0 ->
  paused (node w) = false ->
  Index.onaudioprocess hs out w = Some r ->
  existsb is_zero_frame_read (log r) = false ->
  result r = Normal
  /\ node (after r) = node w
  /\ reads_only (log r)
  /\ length (log r) = chunks_needed (Z.of_nat (length (channel0 out))).
Proof.
  intros Hlive Hpaused Hrun Hzero. revert Hrun.
  unfold Index.onaudioprocess.
  rewrite (proj2 (Z.eqb_neq _ _) Hlive), Hpaused.
  destruct (render_chunks_runs hs out w) as (e1 & st1 & cs & Hloop & ->).
  destruct (chunk_loop_total (length (channel0 out)) (node w) (engine w)
              (entry out)) as (e1' & st1' & cs' & Hloop' & Hlen & _);
    [cbn; lia|].
  rewrite Hloop in Hloop'. injection Hloop' as <- <- <-.
  destruct (chunk_loop_flags _ _ _ _ _ _ _ Hloop) as (Hended & _ & Hcalls).
  cbn [entry ended] in Hended.
  pose proof (end_of_stream_log hs st1 {| node := node w; engine := e1 |})
    as Hend.
  unfold end_of_stream in *.
  destruct (ended st1) eqn:Hst.
  - destruct (stop _) as [w1 log1].
    destruct (if error st1 then _ else _) as [[c2 w2] log2].
    intros [= <-]. cbn [log] in Hzero.
    rewrite existsb_app in Hzero. apply orb_false_elim in Hzero as [Hz _].
    by rewrite Hz in Hended.
  - intros [= <-]. cbn. rewrite app_nil_r, length_map.
    repeat split; [|exact Hlen].
    unfold reads_only. rewrite Forall_forall in Hcalls.
    apply Forall_forall. intros x Hx.
    apply list_elem_of_In, in_map_iff in Hx as (ch & <- & Hch).
    apply list_elem_of_In in Hch.
    destruct (Hcalls _ Hch) as (count & actual & ->). done.
Qed.
End Lifecycle.

Section Registry.
Context {E : Type} {lib : MainModule E}.
Implicit Types (n : IProcessNode) (e : E) (w : world E).
Implicit Types (hs : list (registration E)) (out : AudioBuffer).

Lemma registered_app k hs hs' name :
  registered k (hs ++ hs') name
  = registered k hs name ++ registered (k + length hs) hs' name.
Proof.
  revert k. induction hs as [|g rest IH]; intros k.
  - cbn. by rewrite Nat.add_0_r.
  - cbn [app registered length].
    replace (k + S (length rest))%nat with (S k + length rest)%nat by lia.
    destruct (String.eqb _ _); by rewrite IH.
Qed.

Lemma forEach_unregistered k hs name r w :
  registered k hs name = [] -> forEach k hs name r w = (Normal, w, []).
Proof.
  revert k. induction hs as [|g rest IH]; intros k; [done|].
  cbn [registered forEach]. destruct (String.eqb _ _); [done|apply IH].
Qed.

Lemma forEach_returns k hs name r w :
  Forall (fun g => eventName g = name -> returns g) hs ->
  fst (fst (forEach k hs name r w)) = Normal.
Proof.
  intros Hall.
  by destruct (forEach_dispatch k hs name r w) as (_ & _ & _ & _ & ->).
Qed.

Lemma fireEvent_addHandler_normal hs name h r w w1 l :
  fireEvent hs name r w = (Normal, w1, l) ->
  fireEvent (addHandler name h hs) name r w
  = (fst (h r w1), snd (h r w1), l ++ [Invoke (length hs) r]).
Proof.
  rewrite !fireEvent_forEach. unfold addHandler. rewrite forEach_app.
  destruct (forEach 0 hs name r w) as [[c w2] l2]. intros [= -> -> <-].
  cbn [forEach eventName handler Nat.add]. rewrite String.eqb_refl.
  by destruct (h r w1) as [[] w3].
Qed.

(** X5.  Registration order is dispatch order.  A handler added with
    [addHandler] takes the position after every earlier registration:
    a dispatch of its name runs the earlier handlers as before and then
    the new one, on the state they left; if an earlier handler throws,
    the new one is not reached; dispatches of other names are what they
    were before the registration. *)
Theorem addHandler_registers_last hs name h name' r w :
  registered 0 (addHandler name h hs) name'
  = registered 0 hs name' ++ (if String.eqb name name' then [length hs] else [])
  /\ (name <> name' ->
      fireEvent (addHandler name h hs) name' r w = fireEvent hs name' r w)
  /\ (forall w1 l,
        fireEvent hs name r w = (Normal, w1, l) ->
        fireEvent (addHandler name h hs) name r w
        = (fst (h r w1), snd (h r w1), l ++ [Invoke (length hs) r]))
  /\ (forall w1 l,
        fireEvent hs name r w = (Thrown, w1, l) ->
        fireEvent (addHandler name h hs) name r w = (Thrown, w1, l)).
Proof.
  split; [|split; [|split]].
  - unfold addHandler. rewrite registered_app. by cbn.
  - intros Hne. rewrite !fireEvent_forEach. unfold addHandler.
    rewrite forEach_app.
    destruct (forEach 0 hs name' r w) as [[[] w2] l2]; [|done].
    cbn [forEach eventName].
    rewrite (proj2 (String.eqb_neq _ _) Hne). by rewrite app_nil_r.
  - intros w1 l. rewrite !fireEvent_forEach. unfold addHandler.
    rewrite forEach_app.
    destruct (forEach 0 hs name r w) as [[c w2] l2]. intros [= -> -> <-].
    cbn [forEach eventName handler Nat.add]. rewrite String.eqb_refl.
    by destruct (h r w1) as [[] w3].
  - intros w1 l. rewrite !fireEvent_forEach. unfold addHandler.
    rewrite forEach_app.
    destruct (forEach 0 hs name r w) as [[c w2] l2]. by intros [= -> -> <-].
Qed.

(** X6.  Dispatching an event no handler is registered for does
    nothing: [fireEvent] returns normally and the session and the engine
    are untouched, whatever else the registry holds. *)
Theorem fireEvent_without_listener hs name r w :
  registered 0 hs name = [] ->
  fireEvent hs name r w = (Normal, w, [FireEvent name r]).
Proof.
  intros Hnone. rewrite fireEvent_forEach.
  by rewrite (forEach_unregistered 0 hs name r w Hnone).
Qed.

(** X7.  A handler registered with [onEnded] is called when the module
    ends.  On a live, unpaused session of index.ts whose callback sees a
    read return zero frames, and when the [onEnded] handlers registered
    before it return, [onEnded] is dispatched once, [onError] never, and
    the invocation of the handler, with no payload, is the last thing
    the callback does: what the handler returns or throws is how the
    callback ends. *)
Theorem onEnded_handler_runs_at_end hs h out w r :
  Forall (fun g => eventName g = "onEnded"%string -> returns g) hs ->
  modulePtr (node w) <> 0 ->
  paused (node w) = false ->
  Index.onaudioprocess (onEnded h hs) out w = Some r ->
  existsb is_zero_frame_read (log r) = true ->
  fired "onEnded" (log r) = 1%nat
  /\ fired "onError" (log r) = 0%nat
  /\ exists before w1,
       log r = before ++ [Invoke (length hs) None]
       /\ result r = fst (h None w1)
       /\ after r = snd (h None w1).
Proof.
  intros Hall Hlive Hpaused Hrun Hzero. revert Hrun.
  unfold Index.onaudioprocess.
  rewrite (proj2 (Z.eqb_neq _ _) Hlive), Hpaused.
  destruct (render_chunks (onEnded h hs) out w)
    as [[[[c w5] out5] l5]|] eqn:Hrender; [|done].
  intros [= <-]. cbn [log result after] in *.
  destruct (render_chunks_live _ _ _ _ _ _ _ Hrender Hlive) as [Herror Hended].
  split; [by apply Hended|]. split; [done|].
  destruct (render_chunks_log _ _ _ _ _ _ _ Hrender)
    as [[Hnone _]|(rate & count & lp & rp & Hin)]; [congruence|].
  destruct (render_chunks_end _ _ _ _ _ _ _ _ _ _ _ _ Hrender Hin)
    as (reads & w0 & invoked & -> & _ & _ & _ & _ & Hfire).
  unfold terminal in Hfire. rewrite (proj2 (Z.eqb_neq _ _) Hlive) in Hfire.
  cbn [fst snd] in Hfire.
  pose proof (forEach_returns 0 hs "onEnded" None (fst (stop w0)) Hall)
    as Hnormal.
  destruct (fireEvent hs "onEnded" None (fst (stop w0))) as [[c0 w1] l0]
    eqn:Hearlier.
  assert (c0 = Normal) as ->.
  { rewrite fireEvent_forEach in Hearlier.
    destruct (forEach 0 hs "onEnded" None (fst (stop w0))) as [[c1 w2] l1].
    cbn [fst] in Hnormal. congruence. }
  unfold onEnded in Hfire.
  rewrite (fireEvent_addHandler_normal _ _ h _ _ _ _ Hearlier) in Hfire.
  injection Hfire as <- <- Hlog.
  exists (reads ++ snd (stop w0) ++ l0), w1.
  unfold terminal. rewrite (proj2 (Z.eqb_neq _ _) Hlive). cbn [fst snd].
  rewrite <- Hlog, <- !app_assoc. done.
Qed.
End Registry.

Section Variants.
Context {E : Type} {lib : MainModule E}.
Implicit Types (n : IProcessNode) (e : E) (st : frames) (w : world E).
Implicit Types (hs : list (registration E)) (out : AudioBuffer).

(** X8.  The timing of part_000 is diagnostic only.  Whatever the clock
    reads, a callback ends the same way, leaves the same destination,
    makes the same calls and dispatches, and leaves the same engine and
    the same session up to the two timing statistics. *)
Theorem timing_is_diagnostic_only hs now now' out w r :
  Part000.onaudioprocess hs now out w = Some r ->
  exists r',
    Part000.onaudioprocess hs now' out w = Some r'
    /\ result r' = result r
    /\ output r' = output r
    /\ log r' = log r
    /\ engine (after r') = engine (after r)
    /\ forget_perf (node (after r')) = forget_perf (node (after r)).
Proof.
  unfold Part000.onaudioprocess.
  destruct (modulePtr (node w) =? 0).
  { destruct (stop w) as [w1 l1]. intros [= <-]. eexists. by split. }
  destruct (paused (node w)).
  { intros [= <-]. eexists. by split. }
  destruct (Part000.announce hs w) as [[[] w4] l4].
  - destruct (render_chunks hs out w4) as [[[[[] w5] out5] l5]|]; [| |done];
      intros [= <-]; eexists; by split.
  - intros [= <-]. eexists. by split.
Qed.

(** X9.  The two sources render alike.  When the pattern and row queries
    leave the engine as it is and no handler is registered for
    [onPatternChange] or [onRowChange], a callback of part_000 ends as
    the callback of index.ts on the same session does, with the same
    destination, the same engine and the same session up to the timing
    statistics; its log is the log of index.ts after the queries and
    dispatches of its own, none of which is a read. *)
Theorem sources_render_alike hs now out w :
  snd (_openmpt_module_get_current_pattern (modulePtr (node w)) (engine w))
    = engine w ->
  (forall e, snd (_openmpt_module_get_current_row (modulePtr (node w)) e) = e) ->
  registered 0 hs "onPatternChange" = [] ->
  registered 0 hs "onRowChange" = [] ->
  exists r1 r2 prefix,
    Index.onaudioprocess hs out w = Some r1
    /\ Part000.onaudioprocess hs now out w = Some r2
    /\ result r2 = result r1
    /\ output r2 = output r1
    /\ engine (after r2) = engine (after r1)
    /\ forget_perf (node (after r2)) = forget_perf (node (after r1))
    /\ log r2 = prefix ++ log r1
    /\ readless prefix
    /\ fired "onEnded" prefix = 0%nat
    /\ fired "onError" prefix = 0%nat.
Proof.
  intros Hpattern Hrow HnoP HnoR.
  unfold Index.onaudioprocess, Part000.onaudioprocess.
  destruct (modulePtr (node w) =? 0).
  { destruct (stop w) as [w1 l1]. do 2 eexists. exists [].
    repeat split; constructor. }
  destruct (paused (node w)).
  { do 2 eexists. exists []. repeat split; constructor. }
  pose proof (announce_log hs w) as Hlog.
  assert (snd (fst (Part000.announce hs w)) = w
          /\ fst (fst (Part000.announce hs w)) = Normal) as [Hw Hc].
  { unfold Part000.announce.
    destruct (_openmpt_module_get_current_pattern _ _)
      as [currentPattern e1]. cbn [snd] in Hpattern. subst e1.
    specialize (Hrow (engine w)).
    destruct (_openmpt_module_get_current_row _ _) as [currentRow e2].
    cbn [snd] in Hrow. subst e2.
    destruct (negb _); cbn;
      rewrite ?fireEvent_forEach, ?forEach_unregistered by done; cbn;
      rewrite ?fireEvent_forEach, ?forEach_unregistered by done; cbn;
      by destruct w. }
  destruct (Part000.announce hs w) as [[c4 w4] l4]. cbn [fst snd] in Hw, Hc.
  subst c4 w4. destruct Hlog as (H1 & H2 & H3).
  destruct (render_chunks_runs hs out w) as (e1 & st1 & cs & _ & ->).
  destruct (end_of_stream _ _ _) as [[[] w5] log5];
    do 2 eexists; exists l4; repeat split; done.
Qed.

Lemma chunk_loop_produced fuel n e st e' st' cs :
  chunk_loop fuel n e st = Some (e', st', cs) ->
  Forall (fun c => exists e0 st0,
            actualFramesPerChunk c = produced n e0 st0
            /\ 0 <= framesPerChunk c
            /\ call c = Call_read_float_stereo (modulePtr n) (sampleRate n)
                          (framesPerChunk c) (leftBufferPtr n)
                          (rightBufferPtr n) (actualFramesPerChunk c)) cs.
Proof.
  revert e st cs. induction fuel as [|fuel IH]; intros e st cs Hrun.
  - cbn [chunk_loop] in Hrun. destruct (framesToRender st >? 0); [done|].
    injection Hrun as <- <- <-. constructor.
  - destruct (Z.le_gt_cases (framesToRender st) 0) as [Hexit|Hgo].
    { rewrite chunk_loop_exit in Hrun by done.
      injection Hrun as <- <- <-. constructor. }
    rewrite chunk_loop_enter in Hrun by done.
    destruct (chunk_loop fuel n _ _) as [[[e2 st2] cs2]|] eqn:Hrest; [|done].
    injection Hrun as <- <- <-.
    constructor; [|by eapply IH].
    exists e, st. rewrite rendered_framesPerChunk.
    pose proof (requested_positive st Hgo).
    unfold rendered. rewrite chunk_body_spec. cbn. repeat split. lia.
Qed.

Lemma silent_chunks (cs : list chunk) :
  Forall (fun c => actualFramesPerChunk c = 0) cs ->
  flat_map left_frames cs = replicate (length (flat_map left_frames cs)) 0%float
  /\ flat_map right_frames cs
     = replicate (length (flat_map right_frames cs)) 0%float.
Proof.
  assert (forall (l : list float), Forall (fun x => x = 0%float) l ->
            l = replicate (length l) 0%float) as Hrep.
  { induction 1 as [|x l -> _ IH]; [done|]. cbn. by rewrite <- IH. }
  intros Hall. split; apply Hrep; apply Forall_forall; intros x Hx;
    apply list_elem_of_In, in_flat_map in Hx as (c & Hc & Hx);
    apply list_elem_of_In in Hc; rewrite Forall_forall in Hall;
    specialize (Hall c Hc);
    apply in_map_iff in Hx as (i & <- & Hi);
    apply list_elem_of_In, elem_of_seqZ in Hi; rewrite Hall;
    by rewrite (proj2 (Z.ltb_ge _ _)) by lia.
Qed.

(** The destination after the loop, for a session whose reads never
    report a negative count. *)
Lemma chunk_loop_frames_of_node fuel n e st e' st' cs :
  (forall st0 e0, 0 <= produced n e0 st0) ->
  chunk_loop fuel n e st = Some (e', st', cs) ->
  0 <= framesRendered st -> 0 <= framesToRender st ->
  framesRendered st + framesToRender st = Z.of_nat (length (outputL st)) ->
  length (outputR st) = length (outputL st) ->
  outputL st' =
    take (Z.to_nat (framesRendered st)) (outputL st) ++ flat_map left_frames cs
  /\ outputR st' =
    take (Z.to_nat (framesRendered st)) (outputR st)
    ++ flat_map right_frames cs.
Proof.
  intros Hcount. revert e st cs.
  induction fuel as [|fuel IH]; intros e st cs Hrun Hfr Hto Hsum HRl.
  - cbn [chunk_loop] in Hrun.
    destruct (Z.gtb_spec (framesToRender st) 0); [done|].
    injection Hrun as <- <- <-. cbn. rewrite !app_nil_r.
    rewrite !take_ge by lia. done.
  - destruct (Z.le_gt_cases (framesToRender st) 0) as [Hexit|Hgo].
    { rewrite chunk_loop_exit in Hrun by done.
      injection Hrun as <- <- <-. cbn. rewrite !app_nil_r.
      rewrite !take_ge by lia. done. }
    rewrite chunk_loop_enter in Hrun by done.
    destruct (chunk_loop fuel n _ _) as [[[e2 st2] cs2]|] eqn:Hrest; [|done].
    injection Hrun as <- <- <-.
    pose proof (requested_positive st Hgo) as Hreq.
    assert (requested st <= framesToRender st) by (unfold requested; lia).
    pose proof (Hcount st e) as Hact.
    destruct (IH _ _ _ Hrest) as (HL & HRr).
    { rewrite advance_framesRendered. lia. }
    { rewrite advance_framesToRender. lia. }
    { rewrite advance_framesRendered, advance_framesToRender,
        advance_outputL, !write_length. lia. }
    { by rewrite advance_outputL, advance_outputR, !write_length. }
    rewrite HL, HRr, advance_framesRendered, advance_outputL, advance_outputR.
    rewrite !chunk_written by lia.
    cbn [flat_map]. rewrite <- !app_assoc. split; f_equal; f_equal.
    + unfold left_frames, rendered. by rewrite chunk_body_spec.
    + unfold right_frames, rendered. by rewrite chunk_body_spec.
Qed.

(** X10.  The end of the module is silence.  When the engine has no
    frame to give for the session's handle, whatever it is asked, a
    callback of index.ts on a live, unpaused session leaves zero in
    every frame of the destination, and, the destination not being
    empty, dispatches [onEnded] once and [onError] never. *)
Theorem exhausted_engine_renders_silence hs out w :
  (forall rate count lp rp e,
     fst (_openmpt_module_read_float_stereo (modulePtr (node w)) rate count
            lp rp e) = 0) ->
  well_formed out ->
  modulePtr (node w) <> 0 ->
  paused (node w) = false ->
  exists r,
    Index.onaudioprocess hs out w = Some r
    /\ output r = zeros (length (channel0 out))
    /\ fired "onError" (log r) = 0%nat
    /\ (0 < length (channel0 out) -> fired "onEnded" (log r) = 1)%nat.
Proof.
  intros Hnothing Hwf Hlive Hpaused.
  destruct (Index_onaudioprocess_returns hs out w) as [r Hr].
  exists r. split; [done|].
  destruct (Index_onaudioprocess_cases _ _ _ _ Hr)
    as [(? & _)|[(_ & Hp & _)
       |(_ & _ & c & w5 & out5 & l5 & Hrender & -> & _ & ->)]];
    [done|congruence|].
  destruct (render_chunks_live _ _ _ _ _ _ _ Hrender Hlive) as [Herror Hended].
  destruct (render_chunks_runs hs out w) as (e1 & st1 & cs & Hloop & Heq).
  rewrite Heq in Hrender.
  destruct (end_of_stream _ _ _) as [[c2 w2] log2].
  injection Hrender as <- <- <- <-.
  assert (Forall (fun c => actualFramesPerChunk c = 0) cs) as Hzero.
  { eapply Forall_impl; [exact (chunk_loop_produced _ _ _ _ _ _ _ Hloop)|].
    intros ch (e0 & st0 & -> & _ & _). apply Hnothing. }
  assert (outputL st1 = flat_map left_frames cs
          /\ outputR st1 = flat_map right_frames cs) as [HoutL HoutR].
  { destruct (chunk_loop_frames_of_node _ (node w) _ _ _ _ _
                (fun st0 e0 => eq_ind_r (fun z => 0 <= z) (Z.le_refl 0)
                                 (Hnothing _ _ _ _ _)) Hloop)
      as [HL' HR']; [cbn; lia..|done|]. done. }
  destruct (chunk_loop_lengths _ _ _ _ _ _ _ Hloop) as [HlenL HlenR].
  cbn [entry outputL outputR] in HlenL, HlenR.
  destruct (silent_chunks cs Hzero) as [HL HR].
  repeat split.
  - unfold zeros. f_equal.
    + rewrite HoutL, HL, <- HoutL, HlenL. done.
    + rewrite HoutR, HR, <- HoutR, HlenR, Hwf. done.
  - exact Herror.
  - intros Hpos. apply Hended. rewrite existsb_app. apply orb_true_iff. left.
    destruct cs as [|ch cs'].
    { destruct (chunk_loop_total (length (channel0 out)) (node w)
                  (engine w) (entry out))
        as (? & ? & cs'' & Hloop' & Hlen & _); [cbn; lia|].
      rewrite Hloop in Hloop'. injection Hloop' as <- <- <-.
      cbn [length entry framesToRender] in Hlen.
      rewrite (chunks_needed_step (Z.of_nat (length (channel0 out)))) in Hlen
        by lia. done. }
    apply Forall_cons in Hzero as [Hz _].
    pose proof (chunk_loop_produced _ _ _ _ _ _ _ Hloop) as Hp.
    apply Forall_cons in Hp as [(e0 & st0 & _ & _ & Hcall) _].
    cbn [map existsb]. rewrite Hcall. cbn [is_zero_frame_read].
    by rewrite Hz.
Qed.
End Variants.

Section Controller.
Context {E : Type} {lib : MainModule E}.
Implicit Types (n : IProcessNode) (e : E) (w : world E).
Implicit Types (hs : list (registration E)) (out : AudioBuffer).

(** X11.  [togglePause()] of the player.  Without a session it does
    nothing; called twice it gives back the player it started from.  On
    a playing session with a live handle it sets the pause flag, and the
    next callback on that session renders silence, calls nothing in the
    engine and leaves the session as it is.  Both sources. *)
Theorem togglePause_pauses_and_resumes
    (p : Part000.ChiptuneJsPlayer E) (q : Index.ChiptuneJsPlayer E) :
  Part000.togglePause (Part000.togglePause p) = p
  /\ Index.togglePause (Index.togglePause q) = q
  /\ (Part000.currentPlayingNode p = None -> Part000.togglePause p = p)
  /\ (Index.currentPlayingNode q = None -> Index.togglePause q = q)
  /\ (forall n hs now out e,
        Part000.currentPlayingNode p = Some n ->
        paused n = false -> modulePtr n <> 0 -> well_formed out ->
        exists n',
          Part000.currentPlayingNode (Part000.togglePause p) = Some n'
          /\ Part000.onaudioprocess hs now out {| node := n'; engine := e |}
             = Some {| result := Normal;
                       after := {| node := n'; engine := e |};
                       output := zeros (length (channel0 out));
                       log := [] |})
  /\ (forall n hs out e,
        Index.currentPlayingNode q = Some n ->
        paused n = false -> modulePtr n <> 0 -> well_formed out ->
        exists n',
          Index.currentPlayingNode (Index.togglePause q) = Some n'
          /\ Index.onaudioprocess hs out {| node := n'; engine := e |}
             = Some {| result := Normal;
                       after := {| node := n'; engine := e |};
                       output := zeros (length (channel0 out));
                       log := [] |}).
Proof.
  repeat split.
  - destruct p as [sr cfg [[m l r pa pi nb pc pm s c]|] hs tl v]; [|done].
    unfold Part000.togglePause. cbn. unfold togglePause. cbn.
    by rewrite negb_involutive.
  - destruct q as [cfg sr [[m l r pa pi nb pc pm s c]|] hs tl]; [|done].
    unfold Index.togglePause. cbn. unfold togglePause. cbn.
    by rewrite negb_involutive.
  - intros Hnone. unfold Part000.togglePause. by rewrite Hnone.
  - intros Hnone. unfold Index.togglePause. by rewrite Hnone.
  - intros n hs now out e Hn Hplaying Hlive Hwf.
    exists (togglePause n). unfold Part000.togglePause. rewrite Hn.
    split; [done|]. unfold Part000.onaudioprocess.
    rewrite (silence_zeros out Hwf).
    destruct n as [m l r pa pi nb pc pm s c]. cbn in Hplaying, Hlive |- *.
    subst pa. by rewrite (proj2 (Z.eqb_neq _ _) Hlive).
  - intros n hs out e Hn Hplaying Hlive Hwf.
    exists (togglePause n). unfold Index.togglePause. rewrite Hn.
    split; [done|]. unfold Index.onaudioprocess.
    rewrite (silence_zeros out Hwf).
    destruct n as [m l r pa pi nb pc pm s c]. cbn in Hplaying, Hlive |- *.
    subst pa. by rewrite (proj2 (Z.eqb_neq _ _) Hlive).
Qed.

(** X12.  [stop()] of the player of part_000 is idempotent.  The first
    call disconnects the active session, destroys its module and frees
    its buffers, each if still held, and forgets the session; called
    again it makes no call and changes nothing, and [togglePause()] and
    [seek()] after it are no-ops. *)
Theorem player_stop_is_idempotent (p : Part000.ChiptuneJsPlayer E) e pos :
  let '(p1, e1, l1) := Part000.stop p e in
  Part000.stop p1 e1 = (p1, e1, [])
  /\ Part000.currentPlayingNode p1 = None
  /\ Part000.togglePause p1 = p1
  /\ Part000.seek pos p1 e1 = e1
  /\ l1 = match Part000.currentPlayingNode p with
          | None => []
          | Some n =>
              Disconnect
              :: (if modulePtr n =? 0 then [] else [Call_destroy (modulePtr n)])
              ++ buffer_frees n
          end.
Proof.
  unfold Part000.stop. destruct (Part000.currentPlayingNode p) as [n|] eqn:Hp.
  - pose proof (stop_log {| node := n; engine := e |}) as Hlog.
    rewrite cleanup_log in Hlog. cbn [node disconnect] in Hlog.
    destruct (stop _) as [w1 l1]. cbn [snd] in Hlog. subst l1.
    unfold Part000.togglePause, Part000.seek. cbn.
    repeat split.
  - unfold Part000.togglePause, Part000.seek. rewrite Hp. done.
Qed.

(** X13.  [play] tears the previous session down first: playing over an
    active session is stopping it and then playing, in both sources.
    Whatever was there before, paused or not, the session [play] of
    part_000 leaves is connected, not paused, with [patternIndex] at
    [-1] and its timing statistics at zero; the handlers and the
    configuration are untouched and the touch lock is off. *)
Theorem play_replaces_the_session buffer
    (p : Part000.ChiptuneJsPlayer E) (q : Index.ChiptuneJsPlayer E) e :
  Part000.play buffer p e
  = (let '(p1, e1, _) := Part000.stop p e in Part000.play buffer p1 e1)
  /\ Index.play buffer q e
     = (let '(q1, e1, _) := Index.stop q e in Index.play buffer q1 e1)
  /\ exists n,
       Part000.currentPlayingNode (fst (Part000.play buffer p e)) = Some n
       /\ connected n = true
       /\ paused n = false
       /\ patternIndex n = -1
       /\ perf_current n = 0%float /\ perf_max n = 0%float
       /\ Part000.handlers (fst (Part000.play buffer p e)) = Part000.handlers p
       /\ Part000.config (fst (Part000.play buffer p e)) = Part000.config p
       /\ Part000.touchLocked (fst (Part000.play buffer p e)) = false.
Proof.
  split; [|split].
  - unfold Part000.play, Part000.stop, Part000.unlock.
    destruct p as [sr cfg [n|] hs tl v]; cbn; [|done].
    destruct (stop _) as [w1 l1]. cbn.
    unfold Part000.createLibopenmptNode. cbn. done.
  - unfold Index.play, Index.stop.
    destruct q as [cfg sr [n|] hs tl]; cbn; [|done].
    destruct (stop _) as [w1 l1]. cbn.
    unfold Index.createLibopenmptNode. cbn. done.
  - unfold Part000.play.
    destruct (Part000.stop (Part000.unlock p) e) as [[p1 e1] l1] eqn:Hstop.
    assert (Part000.handlers p1 = Part000.handlers p
            /\ Part000.config p1 = Part000.config p
            /\ Part000.touchLocked p1 = false) as (Hh & Hc & Ht).
    { revert Hstop. unfold Part000.stop, Part000.unlock.
      destruct p as [sr cfg [n|] hs tl v]; cbn.
      - destruct (stop _) as [w1 l0]. by intros [= <- _ _].
      - by intros [= <- _ _]. }
    unfold Part000.createLibopenmptNode.
    destruct (_malloc _ e1) as [ptrToFile e2].
    destruct (_malloc _ _) as [leftPtr e3].
    destruct (_openmpt_module_create_from_memory _ _ _ _ _ _) as [m e4].
    destruct (_openmpt_module_get_num_channels _ _) as [channels e5].
    destruct (_malloc _ e5) as [rightPtr e6].
    eexists. cbn. repeat split; done.
Qed.

(** X14.  [metadata()] when the engine reports no key.  The empty key
    string splits into one empty key, so with an active session the
    mapping returned by either source has exactly one entry, under the
    empty key, and not no entry. *)
Theorem metadata_of_no_key
    (p : Part000.ChiptuneJsPlayer E) (q : Index.ChiptuneJsPlayer E) n e :
  UTF8ToString (fst (_openmpt_module_get_metadata_keys (modulePtr n) e))
    (snd (_openmpt_module_get_metadata_keys (modulePtr n) e))
  = EmptyString ->
  (Part000.currentPlayingNode p = Some n ->
   exists value e',
     Part000.metadata p e = Return ({[ EmptyString := value ]}, e'))
  /\ (Index.currentPlayingNode q = Some n ->
      exists value e',
        Index.metadata q e = Return ({[ EmptyString := value ]}, e')).
Proof.
  intros Hkeys. split; intros Hn.
  - unfold Part000.metadata. rewrite Hn.
    destruct (_openmpt_module_get_metadata_keys _ _) as [keysPtr e1].
    cbn [fst snd] in Hkeys. rewrite Hkeys. cbn [split fold_left].
    destruct (_malloc _ e1) as [keyNameBuffer e3].
    destruct (_openmpt_module_get_metadata _ _ _) as [valuePtr e5].
    do 2 eexists. reflexivity.
  - unfold Index.metadata. rewrite Hn.
    destruct (_openmpt_module_get_metadata_keys _ _) as [keysPtr e1].
    cbn [fst snd] in Hkeys. rewrite Hkeys. cbn [split fold_left].
    destruct (_malloc _ e1) as [keyNameBuffer e3].
    destruct (_openmpt_module_get_metadata _ _ _) as [valuePtr e5].
    do 2 eexists. reflexivity.
Qed.

(** X15.  The queries of index.ts carry no guard.  After [stop()] every
    one of them throws the [TypeError] of reading [modulePtr] of
    [undefined]; with a session stored they hand the engine's answer
    through, also when the session's handle is zero. *)
Theorem index_queries_need_a_session (q : Index.ChiptuneJsPlayer E) e :
  (let '(q', e', _) := Index.stop q e in
   Index.currentPlayingNode q' = None
   /\ Index.duration q' e' = TypeError
   /\ Index.getCurrentOrder q' e' = TypeError
   /\ Index.getCurrentPattern q' e' = TypeError
   /\ Index.getCurrentRow q' e' = TypeError
   /\ Index.getCurrentTime q' e' = TypeError
   /\ Index.getTotalOrder q' e' = TypeError
   /\ Index.getTotalPatterns q' e' = TypeError
   /\ Index.metadata q' e' = TypeError)
  /\ (forall n,
        Index.currentPlayingNode q = Some n ->
        Index.duration q e
        = Return (_openmpt_module_get_duration_seconds (modulePtr n) e)
        /\ Index.getCurrentTime q e
           = Return (_openmpt_module_get_position_seconds (modulePtr n) e)
        /\ Index.getCurrentOrder q e
           = Return (_openmpt_module_get_current_order (modulePtr n) e)
        /\ Index.getCurrentPattern q e
           = Return (_openmpt_module_get_current_pattern (modulePtr n) e)
        /\ Index.getCurrentRow q e
           = Return (_openmpt_module_get_current_row (modulePtr n) e)
        /\ Index.getTotalOrder q e
           = Return (_openmpt_module_get_num_orders (modulePtr n) e)
        /\ Index.getTotalPatterns q e
           = Return (_openmpt_module_get_num_patterns (modulePtr n) e)).
Proof.
  split.
  - unfold Index.stop. destruct (Index.currentPlayingNode q) eqn:Hq.
    + destruct (stop _) as [w1 l1].
      unfold Index.duration, Index.getCurrentOrder, Index.getCurrentPattern,
        Index.getCurrentRow, Index.getCurrentTime, Index.getTotalOrder,
        Index.getTotalPatterns, Index.metadata, Index.query.
      cbn. repeat split; done.
    + unfold Index.duration, Index.getCurrentOrder, Index.getCurrentPattern,
        Index.getCurrentRow, Index.getCurrentTime, Index.getTotalOrder,
        Index.getTotalPatterns, Index.metadata, Index.query.
      rewrite Hq. repeat split; done.
  - intros n Hn.
    unfold Index.duration, Index.getCurrentOrder, Index.getCurrentPattern,
      Index.getCurrentRow, Index.getCurrentTime, Index.getTotalOrder,
      Index.getTotalPatterns, Index.query.
    rewrite Hn. repeat split; done.
Qed.
End Controller.

(** * The further properties at concrete inputs *)

Section FurtherWitnesses.
Import Toy.

(** X1 at a destination of 5000 frames: a full chunk and a remainder. *)
Lemma render_requests_whole_chunks_witness :
  let w := session 2 false in
  let hs := [quiet "onEnded"] in
  modulePtr (node w) <> 0
  /\ paused (node w) = false
  /\ fst (fst (Part000.announce hs w)) = Normal
  /\ chunk_sizes 5000 = [4096; 904]
  /\ (exists r, Index.onaudioprocess hs (stale 5000) w = Some r
                /\ read_counts (log r)
                   = chunk_sizes (Z.of_nat (length (channel0 (stale 5000)))))
  /\ (exists r, Part000.onaudioprocess hs clock (stale 5000) w = Some r
                /\ read_counts (log r)
                   = chunk_sizes (Z.of_nat (length (channel0 (stale 5000))))).
Proof.
  cbn zeta.
  assert (modulePtr (node (session 2 false)) <> 0) as Hlive by discriminate.
  assert (paused (node (session 2 false)) = false) as Hpaused by reflexivity.
  assert (fst (fst (Part000.announce [quiet "onEnded"] (session 2 false)))
          = Normal) as Hannounce by reflexivity.
  destruct (render_requests_whole_chunks [quiet "onEnded"] clock (stale 5000)
              (session 2 false) Hlive Hpaused) as (HI & HP & _).
  split; [exact Hlive|]. split; [exact Hpaused|]. split; [exact Hannounce|].
  split; [reflexivity|]. split; [exact HI|exact (HP Hannounce)].
Defined.

(** X2 at a session whose module never loaded. *)
Lemma dead_session_renders_silence_witness :
  well_formed (stale 4)
  /\ modulePtr (node unloaded) = 0
  /\ Index.onaudioprocess [quiet "onEnded"] (stale 4) unloaded
     = Some {| result := Normal; after := fst (stop unloaded);
               output := zeros 4;
               log := [Disconnect; Call_free 16384; Call_free 32776] |}.
Proof.
  assert (well_formed (stale 4)) as Hwf by reflexivity.
  assert (modulePtr (node unloaded) = 0) as Hdead by reflexivity.
  split; [exact Hwf|]. split; [exact Hdead|].
  exact (proj1 (dead_session_renders_silence [quiet "onEnded"] clock
                  (stale 4) unloaded Hwf Hdead)).
Defined.

(** X3 on a session at the end of its module. *)
Lemma ended_session_is_not_read_again_witness :
  let hs := [quiet "onEnded"] in
  let r := run (Index.onaudioprocess hs (stale 4) (session 0 false)) in
  Forall stays_dead hs
  /\ well_formed (stale 4)
  /\ existsb is_zero_frame_read (log r) = true
  /\ modulePtr (node (after r)) = 0
  /\ exists r', Index.onaudioprocess hs (stale 4) (after r) = Some r'
                /\ output r' = zeros (length (channel0 (stale 4)))
                /\ read_counts (log r') = []
                /\ silent (log r').
Proof.
  cbn zeta.
  assert (Forall stays_dead [quiet "onEnded"]) as Hall.
  { repeat constructor. intros r w Hdead. exact Hdead. }
  assert (well_formed (stale 4)) as Hwf by reflexivity.
  assert (Index.onaudioprocess [quiet "onEnded"] (stale 4) (session 0 false)
          = Some (run (Index.onaudioprocess [quiet "onEnded"] (stale 4)
                         (session 0 false)))) as Hrun by reflexivity.
  split; [exact Hall|]. split; [exact Hwf|]. split; [reflexivity|].
  exact (proj1 (ended_session_is_not_read_again [quiet "onEnded"] clock
                  clock (stale 4) (stale 4) (session 0 false) Hall Hwf)
           _ Hrun eq_refl).
Defined.

(** X4 on a session with frames to spare. *)
Lemma short_reads_keep_the_session_witness :
  let w := session 100 false in
  let r := run (Index.onaudioprocess [quiet "onEnded"] (stale 4) w) in
  modulePtr (node w) <> 0
  /\ paused (node w) = false
  /\ existsb is_zero_frame_read (log r) = false
  /\ result r = Normal
  /\ node (after r) = node w
  /\ reads_only (log r)
  /\ length (log r) = chunks_needed (Z.of_nat (length (channel0 (stale 4)))).
Proof.
  cbn zeta.
  assert (modulePtr (node (session 100 false)) <> 0) as Hlive by discriminate.
  assert (paused (node (session 100 false)) = false) as Hpaused
    by reflexivity.
  assert (Index.onaudioprocess [quiet "onEnded"] (stale 4) (session 100 false)
          = Some (run (Index.onaudioprocess [quiet "onEnded"] (stale 4)
                         (session 100 false)))) as Hrun by reflexivity.
  split; [exact Hlive|]. split; [exact Hpaused|]. split; [reflexivity|].
  exact (short_reads_keep_the_session [quiet "onEnded"] (stale 4)
           (session 100 false) _ Hlive Hpaused Hrun eq_refl).
Defined.

(** X5 with a handler added after one registered under the same name. *)
Lemma addHandler_registers_last_witness :
  let hs := [quiet "onEnded"] in
  let h := handler (stopping "onEnded") in
  let w := session 2 false in
  fireEvent hs "onEnded" None w
  = (Normal, w, [FireEvent "onEnded" None; Invoke 0 None])
  /\ "onEnded"%string <> "onError"%string
  /\ fireEvent (addHandler "onEnded" h hs) "onEnded" None w
     = (fst (h None w), snd (h None w),
        [FireEvent "onEnded" None; Invoke 0 None] ++ [Invoke 1 None])
  /\ fireEvent (addHandler "onEnded" h hs) "onError" None w
     = fireEvent hs "onError" None w.
Proof.
  cbn zeta.
  assert (fireEvent [quiet "onEnded"] "onEnded" None (session 2 false)
          = (Normal, session 2 false,
             [FireEvent "onEnded" None; Invoke 0 None])) as Hfire
    by reflexivity.
  assert ("onEnded"%string <> "onError"%string) as Hne by discriminate.
  destruct (addHandler_registers_last [quiet "onEnded"] "onEnded"
              (handler (stopping "onEnded")) "onEnded" None (session 2 false))
    as (_ & _ & Hnormal & _).
  destruct (addHandler_registers_last [quiet "onEnded"] "onEnded"
              (handler (stopping "onEnded")) "onError" None (session 2 false))
    as (_ & Hother & _).
  split; [exact Hfire|]. split; [exact Hne|].
  split; [exact (Hnormal _ _ Hfire)|exact (Hother Hne)].
Defined.

(** X6 with a registry that listens to another event only. *)
Lemma fireEvent_without_listener_witness :
  registered 0 [quiet "onEnded"] "onError" = []
  /\ fireEvent [quiet "onEnded"] "onError" (Some (ErrorType "onxhr"))
       (session 2 false)
     = (Normal, session 2 false,
        [FireEvent "onError" (Some (ErrorType "onxhr"))]).
Proof.
  assert (registered 0 [quiet "onEnded"] "onError" = []) as Hnone
    by reflexivity.
  split; [exact Hnone|].
  exact (fireEvent_without_listener [quiet "onEnded"] "onError"
           (Some (ErrorType "onxhr")) (session 2 false) Hnone).
Defined.

(** X7 with one [onEnded] handler registered before the one observed. *)
Lemma onEnded_handler_runs_at_end_witness :
  let hs := [quiet "onEnded"] in
  let h := handler (faulty "onEnded") in
  let w := session 0 false in
  let r := run (Index.onaudioprocess (onEnded h hs) (stale 4) w) in
  Forall (fun g => eventName g = "onEnded"%string -> returns g) hs
  /\ modulePtr (node w) <> 0
  /\ paused (node w) = false
  /\ existsb is_zero_frame_read (log r) = true
  /\ fired "onEnded" (log r) = 1%nat
  /\ fired "onError" (log r) = 0%nat
  /\ exists before w1,
       log r = before ++ [Invoke (length hs) None]
       /\ result r = fst (h None w1)
       /\ after r = snd (h None w1).
Proof.
  cbn zeta.
  assert (Forall (fun g : registration state =>
                    eventName g = "onEnded"%string -> returns g)
            [quiet "onEnded"]) as Hall.
  { constructor; [intros _ r w; reflexivity|constructor]. }
  assert (modulePtr (node (session 0 false)) <> 0) as Hlive by discriminate.
  assert (paused (node (session 0 false)) = false) as Hpaused by reflexivity.
  assert (Index.onaudioprocess
            (onEnded (handler (faulty "onEnded")) [quiet "onEnded"])
            (stale 4) (session 0 false)
          = Some (run (Index.onaudioprocess
                         (onEnded (handler (faulty "onEnded"))
                            [quiet "onEnded"])
                         (stale 4) (session 0 false)))) as Hrun
    by reflexivity.
  split; [exact Hall|]. split; [exact Hlive|]. split; [exact Hpaused|].
  split; [reflexivity|].
  exact (onEnded_handler_runs_at_end [quiet "onEnded"]
           (handler (faulty "onEnded")) (stale 4) (session 0 false) _
           Hall Hlive Hpaused Hrun eq_refl).
Defined.

(** X8 with two clocks. *)
Lemma timing_is_diagnostic_only_witness :
  let r := run (Part000.onaudioprocess [] clock (stale 4)
                  (session 2 false)) in
  Part000.onaudioprocess [] clock (stale 4) (session 2 false) = Some r
  /\ exists r',
       Part000.onaudioprocess [] (fun _ => 0%float) (stale 4)
         (session 2 false) = Some r'
       /\ result r' = result r
       /\ output r' = output r
       /\ log r' = log r
       /\ engine (after r') = engine (after r)
       /\ forget_perf (node (after r')) = forget_perf (node (after r)).
Proof.
  cbn zeta.
  assert (Part000.onaudioprocess [] clock (stale 4) (session 2 false)
          = Some (run (Part000.onaudioprocess [] clock (stale 4)
                         (session 2 false)))) as Hrun by reflexivity.
  split; [exact Hrun|].
  exact (timing_is_diagnostic_only [] clock (fun _ => 0%float) (stale 4)
           (session 2 false) _ Hrun).
Defined.

(** X9 on the small engine, whose queries leave it as it is. *)
Lemma sources_render_alike_witness :
  let hs := [quiet "onEnded"] in
  let w := session 2 false in
  snd (_openmpt_module_get_current_pattern (modulePtr (node w)) (engine w))
    = engine w
  /\ (forall e, snd (_openmpt_module_get_current_row (modulePtr (node w)) e)
                = e)
  /\ registered 0 hs "onPatternChange" = []
  /\ registered 0 hs "onRowChange" = []
  /\ exists r1 r2 prefix,
       Index.onaudioprocess hs (stale 4) w = Some r1
       /\ Part000.onaudioprocess hs clock (stale 4) w = Some r2
       /\ result r2 = result r1
       /\ output r2 = output r1
       /\ engine (after r2) = engine (after r1)
       /\ forget_perf (node (after r2)) = forget_perf (node (after r1))
       /\ log r2 = prefix ++ log r1
       /\ readless prefix
       /\ fired "onEnded" prefix = 0%nat
       /\ fired "onError" prefix = 0%nat.
Proof.
  cbn zeta.
  assert (snd (_openmpt_module_get_current_pattern
                 (modulePtr (node (session 2 false)))
                 (engine (session 2 false)))
          = engine (session 2 false)) as Hpattern by reflexivity.
  assert (forall e, snd (_openmpt_module_get_current_row
                           (modulePtr (node (session 2 false))) e) = e)
    as Hrow by (intros e; reflexivity).
  assert (registered 0 [quiet "onEnded"] "onPatternChange" = []) as HnoP
    by reflexivity.
  assert (registered 0 [quiet "onEnded"] "onRowChange" = []) as HnoR
    by reflexivity.
  split; [exact Hpattern|]. split; [exact Hrow|]. split; [exact HnoP|].
  split; [exact HnoR|].
  exact (sources_render_alike [quiet "onEnded"] clock (stale 4)
           (session 2 false) Hpattern Hrow HnoP HnoR).
Defined.

(** X10 on the engine that has nothing left. *)
Lemma exhausted_engine_renders_silence_witness :
  (forall rate count lp rp e,
     fst (@_openmpt_module_read_float_stereo unit Spent.libopenmpt
            (modulePtr (node Spent.session)) rate count lp rp e) = 0)
  /\ well_formed (stale 4)
  /\ modulePtr (node Spent.session) <> 0
  /\ paused (node Spent.session) = false
  /\ exists r,
       @Index.onaudioprocess unit Spent.libopenmpt [] (stale 4) Spent.session
         = Some r
       /\ output r = zeros (length (channel0 (stale 4)))
       /\ fired "onError" (log r) = 0%nat
       /\ (0 < length (channel0 (stale 4)) -> fired "onEnded" (log r) = 1)%nat.
Proof.
  assert (forall rate count lp rp e,
            fst (@_openmpt_module_read_float_stereo unit Spent.libopenmpt
                   (modulePtr (node Spent.session)) rate count lp rp e) = 0)
    as Hnothing by (intros; reflexivity).
  assert (well_formed (stale 4)) as Hwf by reflexivity.
  assert (modulePtr (node Spent.session) <> 0) as Hlive by discriminate.
  assert (paused (node Spent.session) = false) as Hpaused by reflexivity.
  split; [exact Hnothing|]. split; [exact Hwf|]. split; [exact Hlive|].
  split; [exact Hpaused|].
  exact (@exhausted_engine_renders_silence unit Spent.libopenmpt []
           (stale 4) Spent.session Hnothing Hwf Hlive Hpaused).
Defined.

(** X11 on a playing session. *)
Lemma togglePause_pauses_and_resumes_witness :
  let n := node (session 2 false) in
  let p := player (Some n) in
  Part000.currentPlayingNode p = Some n
  /\ paused n = false
  /\ modulePtr n <> 0
  /\ well_formed (stale 4)
  /\ exists n',
       Part000.currentPlayingNode (Part000.togglePause p) = Some n'
       /\ Part000.onaudioprocess [] clock (stale 4)
            {| node := n'; engine := engine (session 2 false) |}
          = Some {| result := Normal;
                    after := {| node := n';
                                engine := engine (session 2 false) |};
                    output := zeros (length (channel0 (stale 4)));
                    log := [] |}.
Proof.
  cbn zeta.
  assert (Part000.currentPlayingNode (player (Some (node (session 2 false))))
          = Some (node (session 2 false))) as Hn by reflexivity.
  assert (paused (node (session 2 false)) = false) as Hplaying
    by reflexivity.
  assert (modulePtr (node (session 2 false)) <> 0) as Hlive by discriminate.
  assert (well_formed (stale 4)) as Hwf by reflexivity.
  destruct (togglePause_pauses_and_resumes
              (player (Some (node (session 2 false)))) (index_player None))
    as (_ & _ & _ & _ & Hpause & _).
  split; [exact Hn|]. split; [exact Hplaying|]. split; [exact Hlive|].
  split; [exact Hwf|].
  exact (Hpause _ [] clock (stale 4) (engine (session 2 false))
           Hn Hplaying Hlive Hwf).
Defined.

(** X14 on a session of the small engine, which reports no key. *)
Lemma metadata_of_no_key_witness :
  let n := node (session 2 false) in
  let e := engine (session 2 false) in
  UTF8ToString (fst (_openmpt_module_get_metadata_keys (modulePtr n) e))
    (snd (_openmpt_module_get_metadata_keys (modulePtr n) e))
  = EmptyString
  /\ Part000.currentPlayingNode (player (Some n)) = Some n
  /\ exists value e',
       Part000.metadata (player (Some n)) e
       = Return ({[ EmptyString := value ]}, e').
Proof.
  cbn zeta.
  assert (UTF8ToString
            (fst (_openmpt_module_get_metadata_keys
                    (modulePtr (node (session 2 false)))
                    (engine (session 2 false))))
            (snd (_openmpt_module_get_metadata_keys
                    (modulePtr (node (session 2 false)))
                    (engine (session 2 false))))
          = EmptyString) as Hkeys by reflexivity.
  assert (Part000.currentPlayingNode (player (Some (node (session 2 false))))
          = Some (node (session 2 false))) as Hn by reflexivity.
  split; [exact Hkeys|]. split; [exact Hn|].
  exact (proj1 (metadata_of_no_key
                  (player (Some (node (session 2 false))))
                  (index_player None) (node (session 2 false))
                  (engine (session 2 false)) Hkeys) Hn).
Defined.

(** X15 on a player of index.ts holding a session whose handle is zero. *)
Lemma index_queries_need_a_session_witness :
  let q := index_player (Some (node unloaded)) in
  let e := engine unloaded in
  Index.currentPlayingNode q = Some (node unloaded)
  /\ Index.duration q e
     = Return (_openmpt_module_get_duration_seconds 0 e).
Proof.
  cbn zeta.
  assert (Index.currentPlayingNode (index_player (Some (node unloaded)))
          = Some (node unloaded)) as Hq by reflexivity.
  split; [exact Hq|].
  exact (proj1 (proj2 (index_queries_need_a_session
                         (index_player (Some (node unloaded)))
                         (engine unloaded)) _ Hq)).
Defined.
End FurtherWitnesses.
